(** * Route planner: sequencing and time-window scheduling (src/app.py)

    A shallow embedding of the scheduling core of [app.py]:
    [RouteService.get_route] / [_parse_route_data], and the
    [RouteOptimizer] methods [_prepare_data], [_sort_route],
    [_get_route_info], [_create_schedule], [_adjust_time_for_schedule],
    [_create_schedule_entry], [_calculate_next_time] and
    [optimize_with_timing].

    Modelling conventions.
    - A naive [datetime.datetime] is an integer number of microseconds
      since midnight of day 0; a [datetime.time] is a number of
      microseconds since midnight; a [datetime.timedelta] is a number of
      microseconds.  The calendar bounds of Python (years 1..9999) are not
      modelled, and the ['%d.%m.%Y'] text of a date is represented by the
      day number it denotes.
    - Python floats (durations, distances, multipliers) are modelled by
      exact rationals [Q]; module [Binary64] repeats the traffic
      arithmetic on IEEE 754 binary64 values for comparison.
    - A raised exception is [None] in the [option] monad.  The only
      exception modelled inside the optimizer is the [ValueError] of
      [datetime.strptime]; column values are ASCII strings.
    - The two external services (TomTom traffic, OSRM routing) are
      oracles of a [World]; each call is recorded in an event log.
    - The second part of the file embeds [TomTomService], the response
      helpers and the [/optimize] handler; there an exception carries its
      class, [random] is an oracle threaded through a state, and the text
      of a detail line is represented by its parts. *)

From Stdlib Require Import ZArith QArith Qround Qminmax List Bool Lia Lqa.
From Stdlib Require Import Sorting.Permutation Sorting.Sorted.
From Stdlib Require Floats.PrimFloat Floats.FloatOps Floats.SpecFloat.
From Stdlib Require Import Strings.String Strings.Ascii Numbers.DecimalString.
Import ListNotations.

Open Scope string_scope.
Open Scope Z_scope.

(** ** The option monad for raised exceptions *)

Definition bind {A B : Type} (m : option A) (k : A -> option B) : option B :=
  match m with
  | Some a => k a
  | None => None
  end.

Notation "x <- m ;; k" := (bind m (fun x => k))
  (at level 61, m at next level, right associativity).

(** ** Dates and times *)

Definition datetime := Z.
Definition time := Z.
Definition timedelta := Z.

Definition MINUTE : Z := 60000000.
Definition HOUR : Z := 60 * MINUTE.
Definition DAY : Z := 24 * HOUR.

(** [dt.date()], as a day number. *)
Definition date_of (dt : datetime) : Z := dt / DAY.

(** [dt.time()]. *)
Definition time_of (dt : datetime) : time := dt mod DAY.

(** [datetime.datetime.combine(d, t)]. *)
Definition combine (d : Z) (t : time) : datetime := d * DAY + t.

(** [t.hour] and [t.minute] of a time of day. *)
Definition hour_of (t : time) : Z := t / HOUR.
Definition minute_of (t : time) : Z := (t / MINUTE) mod 60.

(** [datetime.timedelta(minutes=n)] for an integer [n]. *)
Definition timedelta_minutes (n : Z) : timedelta := n * MINUTE.

(** Python's [round] on an exact value: nearest integer, ties to even. *)
Definition round_half_even (q : Q) : Z :=
  let f := Qfloor q in
  match Qcompare (q - inject_Z f) (1 # 2) with
  | Lt => f
  | Gt => f + 1
  | Eq => if Z.even f then f else f + 1
  end.

(** [datetime.timedelta(minutes=x)] for a float [x]: the duration is
    rounded to a whole number of microseconds. *)
Definition timedelta_minutes_float (x : Q) : timedelta :=
  round_half_even (x * inject_Z MINUTE).

(** [int(x)] on a float: truncation toward zero. *)
Definition py_int (q : Q) : Z := Z.quot (Qnum q) (Z.pos (Qden q)).

(** ** ['%H:%M'] formatting and parsing *)

Definition digit_char (d : Z) : ascii := ascii_of_nat (48 + Z.to_nat d).

Definition digit_val (c : ascii) : option Z :=
  let n := Z.of_nat (nat_of_ascii c) in
  if (48 <=? n) && (n <=? 57) then Some (n - 48) else None.

Definition two_digits (n : Z) : string :=
  String (digit_char (n / 10)) (String (digit_char (n mod 10)) EmptyString).

(** [t.strftime('%H:%M')] on a time of day. *)
Definition strftime_HM_time (t : time) : string :=
  two_digits (hour_of t) ++ ":" ++ two_digits (minute_of t).

(** [dt.strftime('%H:%M')]. *)
Definition strftime_HM (dt : datetime) : string := strftime_HM_time (time_of dt).

(** The hour directive [%H] followed by the colon of the format: the
    regular expression [2[0-3]|[0-1]\d|\d] of [_strptime], then [:].
    Returns the hour and the text after the colon. *)
Definition parse_hour_colon (s : string) : option (Z * string) :=
  match s with
  | String c1 (String c2 rest) =>
      if Ascii.eqb c2 ":" then
        h <- digit_val c1 ;; Some (h, rest)
      else
        match rest with
        | String c3 rest' =>
            if Ascii.eqb c3 ":" then
              d1 <- digit_val c1 ;;
              d2 <- digit_val c2 ;;
              if 10 * d1 + d2 <=? 23 then Some (10 * d1 + d2, rest') else None
            else None
        | EmptyString => None
        end
  | _ => None
  end.

(** The minute directive [%M], [[0-5]\d|\d], which must end the text
    (anything left over is "unconverted data remains"). *)
Definition parse_minute_end (s : string) : option Z :=
  match s with
  | String c1 EmptyString => digit_val c1
  | String c1 (String c2 EmptyString) =>
      d1 <- digit_val c1 ;;
      d2 <- digit_val c2 ;;
      if d1 <=? 5 then Some (10 * d1 + d2) else None
  | _ => None
  end.

(** [datetime.datetime.strptime(s, '%H:%M').time()]; [None] is the
    [ValueError] of a text that does not match the format. *)
Definition strptime_HM (s : string) : option time :=
  hr <- parse_hour_colon s ;;
  m <- parse_minute_end (snd hr) ;;
  Some (fst hr * HOUR + m * MINUTE).

(** Decimal text of an integer, as an f-string prints it. *)
Definition str_of_Z (z : Z) : string := NilEmpty.string_of_int (Z.to_int z).

(** ** Data *)

(** A coordinate pair [(lat, lon)]. *)
Definition coord := (Q * Q)%type.

(** One row of the address table.  The columns are, in order:
    'Адрес объекта', 'Уровень клиента', 'Географическая широта',
    'Географическая долгота', 'Время начала рабочего дня',
    'Время окончания рабочего дня', 'Время начала обеда',
    'Время окончания обеда'. *)
Record Row := mkRow {
  address : string;
  client_type : string;
  lat : Q;
  lon : Q;
  work_start : string;
  work_end : string;
  lunch_start : string;
  lunch_end : string
}.

(** A row with the two columns [_prepare_data] adds. *)
Record Prepared := mkPrepared {
  p_row : Row;
  p_priority : Z;
  p_temp_index : Z
}.

(** A row of [optimal_route]: ['temp_index'] dropped, ['priority'] kept. *)
Record Point := mkPoint {
  row : Row;
  priority : Z
}.

(** An entry of the schedule, the dict of [_create_schedule_entry]. *)
Record Entry := mkEntry {
  order : Z;
  e_address : string;
  arrival_time : string;
  departure_time : string;
  date : Z;
  e_client_type : string;
  duration : Z;
  work_time : string;
  lunch_time : string
}.

(** The traffic dict of the TomTom service, reduced to the keys the
    route code reads. *)
Record TrafficData := mkTraffic {
  traffic_level : string;
  congestion_ratio : option Q
}.

(** A route object of an OSRM answer. *)
Record OsrmRoute := mkOsrmRoute {
  distance : Q;
  r_duration : Q;
  r_geometry : string
}.

Record OsrmData := mkOsrmData {
  code : string;
  routes : list OsrmRoute
}.

(** An HTTP response; [json = None] when [response.json()] raises. *)
Record Response := mkResponse {
  status_code : Z;
  json : option OsrmData
}.

(** The dict built by [_parse_route_data].  [traffic_data = None] is the
    empty dict; the optional keys are [None] when absent. *)
Record RouteInfo := mkRouteInfo {
  distance_km : Q;
  duration_min : Q;
  geometry : string;
  traffic_data : option TrafficData;
  waypoints : list coord;
  original_duration_min : option Q;
  traffic_impact : option string;
  congestion : option Q
}.

(** What [_get_route_info] hands to the scheduler: [None] (the provider
    failed), the empty dict (no call was made) or a route dict. *)
Inductive RouteValue :=
| RNone
| REmpty
| RDict (ri : RouteInfo).

(** Truth value of a [RouteValue] in an [if]. *)
Definition truthy (rv : RouteValue) : bool :=
  match rv with
  | RDict _ => true
  | _ => false
  end.

(** ** External services *)

Inductive Event :=
| TomTomCall (coordinates : list coord)
| OsrmCall (coordinates : list coord).

(** Answers of the outside world.  [requests_get] is [None] when the
    request raises (connection error, timeout). *)
Record World := mkWorld {
  get_traffic_data : list coord -> TrafficData;
  requests_get : list coord -> option Response
}.

(** ** Constants *)

(** [TRAFFIC_LEVELS], with the ['multiplier'] of each level. *)
Definition TRAFFIC_LEVELS : list (string * Q) :=
  [ ("low", 1 # 1); ("medium", 13 # 10); ("high", 18 # 10); ("very_high", 25 # 10) ].

Fixpoint dict_get {V : Type} (d : list (string * V)) (k : string) : option V :=
  match d with
  | [] => None
  | (k', v) :: d' => if String.eqb k k' then Some v else dict_get d' k
  end.

(** [TRAFFIC_LEVELS.get(level, {}).get('multiplier', 1.0)]. *)
Definition multiplier_of (level : string) : Q :=
  match dict_get TRAFFIC_LEVELS level with
  | Some m => m
  | None => 1
  end.

(** ** RouteService *)

(** [RouteService._parse_route_data]. *)
Definition _parse_route_data (route : OsrmRoute) (coordinates : list coord)
    (traffic : option TrafficData) (avoid_traffic : bool) : RouteInfo :=
  let base_duration := (r_duration route / 60)%Q in
  let kept := if avoid_traffic then traffic else None in
  match (if avoid_traffic then traffic else None) with
  | Some td =>
      let multiplier := multiplier_of (traffic_level td) in
      {| distance_km := (distance route / 1000)%Q;
         duration_min := (base_duration * multiplier)%Q;
         geometry := r_geometry route;
         traffic_data := kept;
         waypoints := coordinates;
         original_duration_min := Some base_duration;
         traffic_impact :=
           Some ("+" ++ str_of_Z (py_int ((multiplier - 1) * 100)%Q) ++ "%");
         congestion :=
           match congestion_ratio td with
           | Some r => if Qeq_bool r 0 then None else Some r
           | None => None
           end |}
  | None =>
      {| distance_km := (distance route / 1000)%Q;
         duration_min := base_duration;
         geometry := r_geometry route;
         traffic_data := kept;
         waypoints := coordinates;
         original_duration_min := None;
         traffic_impact := None;
         congestion := None |}
  end.

(** [RouteService.get_route]: the events it causes and its result.
    Every exception inside the [try] becomes [None]. *)
Definition get_route (w : World) (coordinates : list coord) (avoid_traffic : bool)
    : list Event * option RouteInfo :=
  if (Z.of_nat (List.length coordinates) <? 2) then ([], None)
  else
    let traffic :=
      if avoid_traffic then Some (get_traffic_data w coordinates) else None in
    let events :=
      ((if avoid_traffic then [TomTomCall coordinates] else [])
         ++ [OsrmCall coordinates])%list in
    (events,
     response <- requests_get w coordinates ;;
     if status_code response =? 200 then
       data <- json response ;;
       if String.eqb (code data) "Ok" then
         route <- List.hd_error (routes data) ;;
         Some (_parse_route_data route coordinates traffic avoid_traffic)
       else None
     else None).

(** ** RouteOptimizer *)

Record RouteOptimizer := mkRouteOptimizer {
  current_time : datetime
}.

(** [RouteOptimizer.__init__]: the clock read, cut to the whole minute. *)
Definition RouteOptimizer_init (now : datetime) : RouteOptimizer :=
  {| current_time := now - now mod MINUTE |}.

Definition is_vip (r : Row) : bool := String.eqb (client_type r) "VIP".

Fixpoint prepare_from (i : Z) (df : list Row) : list Prepared :=
  match df with
  | [] => []
  | r :: df' =>
      {| p_row := r;
         p_priority := if is_vip r then 0 else 1;
         p_temp_index := i |} :: prepare_from (i + 1) df'
  end.

(** [RouteOptimizer._prepare_data]. *)
Definition _prepare_data (df : list Row) : list Prepared := prepare_from 0 df.

(** Order of the sort keys [['priority', 'temp_index']]. *)
Definition key_leb (a b : Prepared) : bool :=
  (p_priority a <? p_priority b)
  || ((p_priority a =? p_priority b) && (p_temp_index a <=? p_temp_index b)).

Fixpoint insert_sorted (x : Prepared) (l : list Prepared) : list Prepared :=
  match l with
  | [] => [x]
  | y :: l' => if key_leb x y then x :: l else y :: insert_sorted x l'
  end.

(** [df.sort_values(['priority', 'temp_index'])], as an insertion sort on
    the key pair.  The keys of a prepared table are pairwise distinct, so
    every sorting algorithm gives this list ([sort_values_unique]). *)
Definition sort_values (df : list Prepared) : list Prepared :=
  fold_right insert_sorted [] df.

Definition drop_temp_index (p : Prepared) : Point :=
  {| row := p_row p; priority := p_priority p |}.

(** [RouteOptimizer._sort_route]. *)
Definition _sort_route (df : list Prepared) : list Point :=
  map drop_temp_index (sort_values df).

(** The [waypoints] list built by [_get_route_info]. *)
Definition route_waypoints (optimal_route : list Point) (user_location : option coord)
    : list coord :=
  ((match user_location with
    | Some loc => [(fst loc, snd loc)]
    | None => []
    end)
   ++ map (fun point => (lat (row point), lon (row point))) optimal_route)%list.

(** [RouteOptimizer._get_route_info]. *)
Definition _get_route_info (w : World) (optimal_route : list Point)
    (user_location : option coord) (avoid_traffic : bool)
    : list Event * RouteValue :=
  let waypoints := route_waypoints optimal_route user_location in
  if 1 <? Z.of_nat (List.length waypoints) then
    let r := get_route w waypoints avoid_traffic in
    (fst r, match snd r with Some ri => RDict ri | None => RNone end)
  else ([], REmpty).

(** [RouteOptimizer._adjust_time_for_schedule]. *)
Definition _adjust_time_for_schedule (current_time : datetime) (point : Point)
    : option datetime :=
  work_start <- strptime_HM (work_start (row point)) ;;
  work_end <- strptime_HM (work_end (row point)) ;;
  lunch_start <- strptime_HM (lunch_start (row point)) ;;
  lunch_end <- strptime_HM (lunch_end (row point)) ;;
  let current_time :=
    if (lunch_start <=? time_of current_time) && (time_of current_time <=? lunch_end)
    then
      let wait_until := combine (date_of current_time) lunch_end in
      if current_time <? wait_until then wait_until else current_time
    else current_time in
  let current_time :=
    if time_of current_time <? work_start
    then combine (date_of current_time) work_start
    else current_time in
  Some current_time.

(** The [visit_duration] of [_create_schedule_entry]. *)
Definition visit_duration (point : Point) : Z :=
  if String.eqb (client_type (row point)) "VIP" then 45 else 30.

(** The local [departure_time] of [_create_schedule_entry]. *)
Definition departure_of (point : Point) (current_time : datetime) : datetime :=
  current_time + timedelta_minutes (visit_duration point).

(** [RouteOptimizer._create_schedule_entry]. *)
Definition _create_schedule_entry (index : Z) (point : Point)
    (current_time : datetime) : Entry :=
  {| order := index + 1;
     e_address := address (row point);
     arrival_time := strftime_HM current_time;
     departure_time := strftime_HM (departure_of point current_time);
     date := date_of current_time;
     e_client_type := client_type (row point);
     duration := visit_duration point;
     work_time := work_start (row point) ++ "-" ++ work_end (row point);
     lunch_time := lunch_start (row point) ++ "-" ++ lunch_end (row point) |}.

(** [route_info.get('traffic_data', {}).get('traffic_level') in
    ['high', 'very_high']]. *)
Definition heavy_traffic (ri : RouteInfo) : bool :=
  match traffic_data ri with
  | Some td =>
      String.eqb (traffic_level td) "high" || String.eqb (traffic_level td) "very_high"
  | None => false
  end.

(** The [segment_time] of [_calculate_next_time], as passed to [max]. *)
Definition segment_time (ri : RouteInfo) (total_points : Z) (avoid_traffic : bool) : Q :=
  let segment_time := (duration_min ri / inject_Z total_points)%Q in
  if avoid_traffic && heavy_traffic ri then (segment_time * (3 # 2))%Q
  else segment_time.

(** The [travel_time] of [_calculate_next_time]. *)
Definition travel_time (route_info : RouteValue) (current_index total_points : Z)
    (avoid_traffic : bool) : timedelta :=
  match route_info with
  | RDict ri =>
      if current_index <? total_points - 1 then
        timedelta_minutes_float (Qmax (segment_time ri total_points avoid_traffic) 5)
      else timedelta_minutes 15
  | _ => timedelta_minutes 15
  end.

(** [RouteOptimizer._calculate_next_time]. *)
Definition _calculate_next_time (current_time : datetime) (schedule_entry : Entry)
    (route_info : RouteValue) (current_index total_points : Z)
    (avoid_traffic : bool) : option datetime :=
  departure <- strptime_HM (departure_time schedule_entry) ;;
  let departure_time := combine (date_of current_time) departure in
  Some (departure_time + travel_time route_info current_index total_points avoid_traffic).

(** The [for] loop of [_create_schedule], from position [i] on. *)
Fixpoint schedule_loop (points : list Point) (i total_points : Z)
    (route_info : RouteValue) (avoid_traffic : bool) (current_time : datetime)
    : option (list Entry) :=
  match points with
  | [] => Some []
  | point :: points' =>
      current_time <- _adjust_time_for_schedule current_time point ;;
      let schedule_entry := _create_schedule_entry i point current_time in
      current_time <- _calculate_next_time current_time schedule_entry route_info
                        i total_points avoid_traffic ;;
      schedule <- schedule_loop points' (i + 1) total_points route_info
                    avoid_traffic current_time ;;
      Some (schedule_entry :: schedule)
  end.

(** [RouteOptimizer._create_schedule]. *)
Definition _create_schedule (self : RouteOptimizer) (optimal_route : list Point)
    (route_info : RouteValue) (avoid_traffic : bool) : option (list Entry) :=
  schedule_loop optimal_route 0 (Z.of_nat (List.length optimal_route))
    route_info avoid_traffic (current_time self).

(** [RouteOptimizer.optimize_with_timing]: the provider events caused,
    and the triple returned ([None] when an exception escapes). *)
Definition optimize_with_timing (self : RouteOptimizer) (w : World)
    (selected_df : list Row) (user_location : option coord) (avoid_traffic : bool)
    : list Event * option (list Point * list Entry * RouteValue) :=
  match selected_df with
  | [] => ([], Some ([], [], REmpty))
  | _ =>
      let df := _prepare_data selected_df in
      let optimal_route := _sort_route df in
      let info := _get_route_info w optimal_route user_location avoid_traffic in
      (fst info,
       schedule <- _create_schedule self optimal_route (snd info) avoid_traffic ;;
       Some (optimal_route, schedule, snd info))
  end.

(** ** Tier normalisation outside the optimizer *)

(** [Series.replace({'Standart': 'Standard'})] on one value
    ([CSVHandler._clean_dataframe], the [/optimize] handler and
    [prepare_address_data]). *)
Definition replace_standart (tier : string) : string :=
  if String.eqb tier "Standart" then "Standard" else tier.

(** ** Auxiliary definitions for the statements *)

(** The text of minute [n] of the day. *)
Definition minute_text (n : Z) : string :=
  two_digits (n / 60) ++ ":" ++ two_digits (n mod 60).

Definition minute_roundtrip (n : nat) : bool :=
  match strptime_HM (minute_text (Z.of_nat n)) with
  | Some t => t =? Z.of_nat n * MINUTE
  | None => false
  end.

(** The row of [optimal_route] that a table row becomes. *)
Definition as_point (r : Row) : Point :=
  {| row := r; priority := if is_vip r then 0 else 1 |}.

Definition first_class (p : Prepared) : bool := p_priority p =? 0.

(** The window rule in the words of the specification: lunch clamp,
    otherwise work-start clamp, otherwise nothing. *)
Definition window_rule_else_if (cursor : datetime) (work_start lunch_start lunch_end : time)
    : datetime :=
  if (lunch_start <=? time_of cursor) && (time_of cursor <=? lunch_end)
  then combine (date_of cursor) lunch_end
  else if time_of cursor <? work_start
       then combine (date_of cursor) work_start
       else cursor.

(** The window rule of the code in closed form: the work-start test is
    made after the lunch clamp, on the clamped cursor. *)
Definition window_rule (cursor : datetime) (work_start lunch_start lunch_end : time)
    : datetime :=
  if (lunch_start <=? time_of cursor) && (time_of cursor <=? lunch_end)
  then combine (date_of cursor) (Z.max lunch_end work_start)
  else if time_of cursor <? work_start
       then combine (date_of cursor) work_start
       else cursor.

(** A stop with the default windows of [add_single_address]. *)
Definition default_stop (name tier : string) : Point :=
  {| row := {| address := name; client_type := tier; lat := 0; lon := 0;
               work_start := "09:00"; work_end := "18:00";
               lunch_start := "13:00"; lunch_end := "14:00" |};
     priority := if String.eqb tier "VIP" then 0 else 1 |}.

(** A stop whose lunch break ends before its working day starts. *)
Definition early_lunch_stop : Point :=
  {| row := {| address := "A"; client_type := "Standard"; lat := 0; lon := 0;
               work_start := "09:00"; work_end := "18:00";
               lunch_start := "07:00"; lunch_end := "08:00" |};
     priority := 1 |}.

(** The four window texts of a stop all parse. *)
Definition windows_parse (r : Row) : Prop :=
  strptime_HM (work_start r) <> None /\ strptime_HM (work_end r) <> None
  /\ strptime_HM (lunch_start r) <> None /\ strptime_HM (lunch_end r) <> None.

(** What an entry records about its visit: the ['duration'] of its tier,
    and two ['%H:%M'] texts that lie that many minutes apart on the
    24-hour dial. *)
Definition visit_recorded (e : Entry) : Prop :=
  duration e = (if String.eqb (e_client_type e) "VIP" then 45 else 30)
  /\ exists a d : time,
       strptime_HM (arrival_time e) = Some a
       /\ strptime_HM (departure_time e) = Some d
       /\ (d - a) mod DAY = timedelta_minutes (duration e).

(** The clock of a run started at 23:40 on day 100. *)
Definition late_optimizer : RouteOptimizer :=
  RouteOptimizer_init (combine 100 (23 * HOUR + 40 * MINUTE)).

(** A world in which every OSRM request times out. *)
Definition offline_world : World :=
  {| get_traffic_data := fun _ => {| traffic_level := "low"; congestion_ratio := None |};
     requests_get := fun _ => None |}.

(** The schedule of a VIP stop and a Standard stop visited from 23:40 on
    with 15-minute legs. *)
Definition late_schedule : list Entry :=
  [ {| order := 1; e_address := "A"; arrival_time := "23:40"; departure_time := "00:25";
       date := 100; e_client_type := "VIP"; duration := 45;
       work_time := "09:00-18:00"; lunch_time := "13:00-14:00" |};
    {| order := 2; e_address := "B"; arrival_time := "09:00"; departure_time := "09:30";
       date := 100; e_client_type := "Standard"; duration := 30;
       work_time := "09:00-18:00"; lunch_time := "13:00-14:00" |} ].

(** A world that differs from [offline_world] only on the empty path. *)
Definition other_world : World :=
  {| get_traffic_data := fun coordinates =>
       match coordinates with
       | [] => {| traffic_level := "very_high"; congestion_ratio := None |}
       | _ => {| traffic_level := "low"; congestion_ratio := None |}
       end;
     requests_get := fun coordinates =>
       match coordinates with
       | [] => Some {| status_code := 500; json := None |}
       | _ => None
       end |}.

(** The local [departure_time] of [_calculate_next_time] for the entry
    of [point] made at [current_time]: the entry's departure text, read
    back and put on the date of [current_time]. *)
Definition recorded_departure (point : Point) (current_time : datetime) : datetime :=
  combine (date_of current_time)
    (time_of (departure_of point current_time)
     - time_of (departure_of point current_time) mod MINUTE).


(** The route dict of a two-minute drive in heavy traffic. *)
Definition short_hop : RouteInfo :=
  _parse_route_data {| distance := 900; r_duration := 120; r_geometry := "" |}
    [(0, 0); (0, 0)]%Q
    (Some {| traffic_level := "high"; congestion_ratio := None |}) true.

(** The provider gives no route: the request raised or timed out, the
    status is not 200, the body is not JSON, its code is not 'Ok', or it
    lists no route. *)
Definition provider_unavailable (answer : option Response) : Prop :=
  match answer with
  | None => True
  | Some response =>
      status_code response <> 200
      \/ match json response with
         | None => True
         | Some data => code data <> "Ok" \/ routes data = []
         end
  end.

(** The moment an entry says the stop is reached: its ['date'] and its
    ['arrival_time'] text. *)
Definition entry_arrival (e : Entry) : option datetime :=
  t <- strptime_HM (arrival_time e) ;; Some (combine (date e) t).

(** The moment the visit of an entry ends: its arrival plus its
    ['duration']. *)
Definition entry_departure (e : Entry) : option datetime :=
  a <- entry_arrival e ;; Some (a + timedelta_minutes (duration e)).

(** Every arrival is at or after the departure of the entry before. *)
Fixpoint schedule_monotone (schedule : list Entry) : Prop :=
  match schedule with
  | e1 :: rest =>
      match rest with
      | e2 :: _ =>
          (exists d a, entry_departure e1 = Some d /\ entry_arrival e2 = Some a /\ d <= a)
          /\ schedule_monotone rest
      | [] => True
      end
  | [] => True
  end.

(** The departure text of an entry is not earlier in the day than its
    arrival text: the visit ends before midnight. *)
Definition same_day_visit (e : Entry) : Prop :=
  exists a d : time,
    strptime_HM (arrival_time e) = Some a
    /\ strptime_HM (departure_time e) = Some d
    /\ a <= d.

Definition minute_floor (t : Z) : Z := t - t mod MINUTE.

(** The order of the sort keys, as a relation. *)
Definition key_le (a b : Prepared) : Prop := key_leb a b = true.

(** ** The traffic arithmetic in binary64

    The same multiplier table and the two computations of
    [_parse_route_data] on IEEE 754 binary64 values, to compare the exact
    model above with what Python's floats give. *)

Module Binary64.
Import PrimFloat.

(** [TRAFFIC_LEVELS] with the binary64 values of the literals 1.0, 1.3,
    1.8 and 2.5. *)
Definition TRAFFIC_LEVELS : list (string * float) :=
  [ ("low", 0x1p+0%float); ("medium", 0x1.4cccccccccccdp+0%float);
    ("high", 0x1.ccccccccccccdp+0%float); ("very_high", 0x1.4p+1%float) ].

Definition multiplier (level : string) : float :=
  match dict_get TRAFFIC_LEVELS level with
  | Some m => m
  | None => 1%float
  end.

(** [int(x)] on a binary64 value; [None] for infinities and NaN. *)
Definition int_of_float (x : float) : option Z :=
  match FloatOps.Prim2SF x with
  | SpecFloat.S754_zero _ => Some 0
  | SpecFloat.S754_finite s m e =>
      let magnitude :=
        match e with
        | Z.neg k => Z.shiftr (Z.pos m) (Z.pos k)
        | _ => Z.shiftl (Z.pos m) e
        end in
      Some (if s then - magnitude else magnitude)
  | _ => None
  end.

(** [int((multiplier - 1) * 100)]. *)
Definition impact_percent (level : string) : option Z :=
  int_of_float ((multiplier level - 1) * 100)%float.

(** [route['duration'] / 60 * multiplier]. *)
Definition adjusted_minutes (seconds : float) (level : string) : float :=
  (seconds / 60 * multiplier level)%float.

Definition twenty_minutes_high : float := adjusted_minutes 1200%float "high".
Definition thirty_six : float := 36%float.

(** The [segment_time] of two stops two minutes apart at level 'high',
    after the 1.5 penalty. *)
Definition short_hop_segment : float :=
  (adjusted_minutes 120%float "high" / 2 * 0x1.8p+0)%float.

(** [max(x, 5) == 5]: the second argument wins only if it is greater. *)
Definition floored_at_five (x : float) : bool := (x <? 5)%float.

End Binary64.


(** * The rest of the application

    The TomTom service, the response helpers and the [/optimize]
    handler.  Exceptions carry their class here, because the handler
    reports them. *)

(** ** Exceptions by class *)

Inductive Exn :=
| IndexError
| KeyError (key : string)
| TypeError
| ValueError
| AttributeError
| RequestError.

Definition result (A : Type) : Type := (Exn + A)%type.

Definition rbind {A B : Type} (m : result A) (k : A -> result B) : result B :=
  match m with
  | inr a => k a
  | inl e => inl e
  end.

Notation "x <-- m ;; k" := (rbind m (fun x => k))
  (at level 61, m at next level, right associativity).

(** An exception of the [option] model, given its class. *)
Definition of_option {A : Type} (e : Exn) (o : option A) : result A :=
  match o with
  | Some a => inr a
  | None => inl e
  end.

(** [seq[i]] for a non-negative position. *)
Definition list_get {A : Type} (l : list A) (i : nat) : result A :=
  of_option IndexError (nth_error l i).

(** [bbox[i]] where [bbox] may be [None]. *)
Definition bbox_get (bbox : option (list Q)) (i : nat) : result Q :=
  match bbox with
  | None => inl TypeError
  | Some l => list_get l i
  end.

(** [round(x, ndigits)] on an exact value. *)
Definition round_digits (x : Q) (ndigits : nat) : Q :=
  (inject_Z (round_half_even (x * inject_Z (10 ^ Z.of_nat ndigits)))
   / inject_Z (10 ^ Z.of_nat ndigits))%Q.

(** ** The random module

    The generator is an oracle: its [n]-th integer draw and its [n]-th
    [random()] value.  A computation threads the two counters. *)

Record Rng := mkRng {
  next_index : nat -> nat;
  next_unit : nat -> Q
}.

Definition RandState : Type := (nat * nat)%type.

Definition Rand (A : Type) : Type := RandState -> result (A * RandState).

Definition rand_ret {A : Type} (a : A) : Rand A := fun s => inr (a, s).

Definition rand_raise {A : Type} (e : Exn) : Rand A := fun _ => inl e.

Definition rand_bind {A B : Type} (m : Rand A) (k : A -> Rand B) : Rand B :=
  fun s =>
    match m s with
    | inr (a, s') => k a s'
    | inl e => inl e
    end.

Notation "x <~ m ;; k" := (rand_bind m (fun x => k))
  (at level 61, m at next level, right associativity).

Definition rand_lift {A : Type} (r : result A) : Rand A :=
  fun s => match r with inr a => inr (a, s) | inl e => inl e end.

(** [random.choice(seq)]. *)
Definition random_choice {A : Type} (g : Rng) (seq : list A) : Rand A :=
  fun s =>
    match nth_error seq (Nat.modulo (next_index g (fst s)) (List.length seq)) with
    | Some a => inr (a, (S (fst s), snd s))
    | None => inl IndexError
    end.

(** [random.randint(a, b)]. *)
Definition random_randint (g : Rng) (a b : Z) : Rand Z :=
  fun s => inr (a + Z.of_nat (next_index g (fst s)) mod (b - a + 1),
                (S (fst s), snd s)).

(** [random.random()]. *)
Definition random_random (g : Rng) : Rand Q :=
  fun s => inr (next_unit g (snd s), (fst s, S (snd s))).

(** ** Traffic dicts *)

Record Location := mkLocation {
  loc_lat : Q;
  loc_lon : Q
}.

Record Incident := mkIncident {
  i_type : string;
  i_description : string;
  i_severity : string;
  i_location : Location
}.

(** The dict returned by [TomTomService.get_traffic_data].  The optional
    keys are [None] when absent; [td_simulated] is the key ['simulated']. *)
Record TrafficDict := mkTrafficDict {
  td_traffic_level : string;
  td_incidents : list Incident;
  td_message : option string;
  td_timestamp : option datetime;
  td_source : option string;
  td_current_speed : option Q;
  td_free_flow_speed : option Q;
  td_congestion_ratio : option Q;
  td_simulated : bool
}.

(** The keys of a traffic dict that the route code reads. *)
Definition route_view (d : TrafficDict) : TrafficData :=
  {| traffic_level := td_traffic_level d;
     congestion_ratio := td_congestion_ratio d |}.

(** ['flowSegmentData'] of a flow answer. *)
Record FlowSegment := mkFlowSegment {
  currentSpeed : option Q;
  freeFlowSpeed : option Q
}.

Record Geometry := mkGeometry {
  g_type : option string;
  g_coordinates : option (list Q)
}.

(** An incident of an incident answer; [raw_description] and
    [raw_magnitude] are the keys of its ['properties']. *)
Record RawIncident := mkRawIncident {
  raw_type : option string;
  raw_description : option string;
  raw_magnitude : option string;
  raw_geometry : option Geometry
}.

(** [INCIDENT_TYPES]. *)
Definition INCIDENT_TYPES : list (string * string) :=
  [ ("ACCIDENT", "ДТП"); ("ROAD_CLOSED", "Перекрытие дороги");
    ("ROAD_WORKS", "Дорожные работы"); ("WEATHER", "Погодные условия");
    ("JAM", "Затор"); ("HAZARD", "Препятствие") ].

(** The ['text'] of each level of [TRAFFIC_LEVELS]. *)
Definition TRAFFIC_TEXTS : list (string * string) :=
  [ ("low", "низкий"); ("medium", "средний"); ("high", "высокий");
    ("very_high", "очень высокий") ].

(** [d.get(k, default)]. *)
Definition dict_get_default {V : Type} (d : list (string * V)) (k : string) (default : V) : V :=
  match dict_get d k with
  | Some v => v
  | None => default
  end.

Definition opt_default {A : Type} (o : option A) (default : A) : A :=
  match o with
  | Some a => a
  | None => default
  end.

(** ** TomTomService *)

Record TomTomService := mkTomTomService {
  api_key : option string
}.

(** What the two TomTom requests answer: [None] when the request or the
    decoding raises; otherwise, for the flow request, the
    ['flowSegmentData'] of the body if it has one and, for the incident
    request, the ['incidents'] list of the body ([[]] if it has none; a
    status other than 200 gives the empty body). *)
Record TomTomWorld := mkTomTomWorld {
  flow_answer : Q * Q -> option (option FlowSegment);
  incidents_answer : list Q -> option (list RawIncident)
}.

(** Truth value of [self.api_key]. *)
Definition has_api_key (self : TomTomService) : bool :=
  match api_key self with
  | Some k => negb (String.eqb k "")
  | None => false
  end.

(** [TomTomService._calculate_traffic_level]. *)
Definition _calculate_traffic_level (speed_ratio : Q) : string :=
  if Qle_bool (8 # 10) speed_ratio then "low"
  else if Qle_bool (5 # 10) speed_ratio then "medium"
  else if Qle_bool (3 # 10) speed_ratio then "high"
  else "very_high".

(** [TomTomService._get_traffic_message]. *)
Definition _get_traffic_message (level : string) : string :=
  dict_get_default
    [ ("low", "Свободное движение"); ("medium", "Умеренное движение");
      ("high", "Плотное движение"); ("very_high", "Пробки") ]
    level "Неизвестно".

(** [TomTomService._extract_incident_location]. *)
Definition _extract_incident_location (incident : RawIncident) : Location :=
  let default := {| loc_lat := 47222 # 1000; loc_lon := 39715 # 1000 |} in
  match raw_geometry incident with
  | Some geometry =>
      match g_type geometry, g_coordinates geometry with
      | Some t, Some coords =>
          if String.eqb t "Point" then
            match coords with
            | c0 :: c1 :: _ => {| loc_lat := c1; loc_lon := c0 |}
            | _ => default
            end
          else default
      | _, _ => default
      end
  | None => default
  end.

(** [TomTomService._parse_incidents]. *)
Definition _parse_incidents (incidents_data : list RawIncident) : list Incident :=
  map (fun incident =>
         let incident_type := opt_default (raw_type incident) "unknown" in
         {| i_type := dict_get_default INCIDENT_TYPES incident_type incident_type;
            i_description := opt_default (raw_description incident) "";
            i_severity := opt_default (raw_magnitude incident) "medium";
            i_location := _extract_incident_location incident |})
      incidents_data.

(** [TomTomService._parse_traffic_data], for numeric speeds. *)
Definition _parse_traffic_data (flow_data : option FlowSegment)
    (incidents_data : list RawIncident) (now : datetime) : TrafficDict :=
  let base :=
    {| td_traffic_level := "low"; td_incidents := [];
       td_message := Some "Дорожная ситуация нормальная";
       td_timestamp := Some now; td_source := Some "tomtom";
       td_current_speed := None; td_free_flow_speed := None;
       td_congestion_ratio := None; td_simulated := false |} in
  let with_flow :=
    match flow_data with
    | Some segment =>
        let current_speed := opt_default (currentSpeed segment) 0%Q in
        let free_flow_speed := opt_default (freeFlowSpeed segment) 0%Q in
        if Qle_bool free_flow_speed 0 then base
        else
          let speed_ratio := (current_speed / free_flow_speed)%Q in
          let traffic_level := _calculate_traffic_level speed_ratio in
          {| td_traffic_level := traffic_level; td_incidents := [];
             td_message := Some (_get_traffic_message traffic_level);
             td_timestamp := Some now; td_source := Some "tomtom";
             td_current_speed := Some current_speed;
             td_free_flow_speed := Some free_flow_speed;
             td_congestion_ratio := Some (round_digits ((1 - speed_ratio) * 100) 1);
             td_simulated := false |}
    | None => base
    end in
  let incidents := _parse_incidents incidents_data in
  {| td_traffic_level := td_traffic_level with_flow;
     td_incidents := incidents;
     td_message :=
       match incidents with
       | [] => td_message with_flow
       | _ =>
           Some (opt_default (td_message with_flow) ""
                 ++ ", " ++ str_of_Z (Z.of_nat (List.length incidents)) ++ " инцидентов")
       end;
     td_timestamp := td_timestamp with_flow;
     td_source := td_source with_flow;
     td_current_speed := td_current_speed with_flow;
     td_free_flow_speed := td_free_flow_speed with_flow;
     td_congestion_ratio := td_congestion_ratio with_flow;
     td_simulated := false |}.

(** [a <= x <= b] on hours. *)
Definition between (a x b : Z) : bool := (a <=? x) && (x <=? b).

(** The level drawn by [_simulate_traffic_data] at hour [h]. *)
Definition simulate_level (g : Rng) (h : Z) : Rand string :=
  if between 7 h 10 || between 17 h 20 then random_choice g ["high"; "very_high"]
  else if between 11 h 16 then random_choice g ["medium"; "high"]
  else rand_ret "low".

(** The incident types of [_simulate_traffic_data]. *)
Definition simulated_incident_types : list string :=
  ["ДТП"; "Ремонт дороги"; "Перекрытие"; "Затор"].

(** One pass of the [for] loop of [_simulate_traffic_data]. *)
Definition simulate_incident (g : Rng) (bbox : option (list Q)) : Rand Incident :=
  type <~ random_choice g simulated_incident_types ;;
  south <~ rand_lift (bbox_get bbox 1) ;;
  north <~ rand_lift (bbox_get bbox 3) ;;
  r_lat <~ random_random g ;;
  west <~ rand_lift (bbox_get bbox 0) ;;
  east <~ rand_lift (bbox_get bbox 2) ;;
  r_lon <~ random_random g ;;
  described <~ random_choice g simulated_incident_types ;;
  severity <~ random_choice g ["low"; "medium"; "high"] ;;
  rand_ret {| i_type := type;
              i_description := described ++ " на участке дороги";
              i_severity := severity;
              i_location := {| loc_lat := (south + (north - south) * r_lat)%Q;
                               loc_lon := (west + (east - west) * r_lon)%Q |} |}.

Fixpoint simulate_incidents (g : Rng) (bbox : option (list Q)) (n : nat)
    : Rand (list Incident) :=
  match n with
  | O => rand_ret []
  | S n' =>
      incident <~ simulate_incident g bbox ;;
      incidents <~ simulate_incidents g bbox n' ;;
      rand_ret (incident :: incidents)
  end.

Definition heavy_level (level : string) : bool :=
  String.eqb level "high" || String.eqb level "very_high".

(** [TomTomService._simulate_traffic_data], at clock [now]. *)
Definition _simulate_traffic_data (g : Rng) (now : datetime) (bbox : option (list Q))
    : Rand TrafficDict :=
  level <~ simulate_level g (hour_of (time_of now)) ;;
  incidents <~ (if heavy_level level then
                  n <~ random_randint g 1 3 ;;
                  simulate_incidents g bbox (Z.to_nat n)
                else rand_ret []) ;;
  rand_ret {| td_traffic_level := level; td_incidents := incidents;
              td_message := None; td_timestamp := None; td_source := None;
              td_current_speed := None; td_free_flow_speed := None;
              td_congestion_ratio := None; td_simulated := true |}.

(** [TomTomService._get_fallback_data]. *)
Definition _get_fallback_data (g : Rng) (now : datetime) (bbox : option (list Q))
    : Rand TrafficDict :=
  _simulate_traffic_data g now bbox.

(** [TomTomService._get_flow_data]. *)
Definition _get_flow_data (w : TomTomWorld) (bbox : list Q) : result (option FlowSegment) :=
  south <-- list_get bbox 1 ;;
  north <-- list_get bbox 3 ;;
  west <-- list_get bbox 0 ;;
  east <-- list_get bbox 2 ;;
  of_option RequestError (flow_answer w (((south + north) / 2)%Q, ((west + east) / 2)%Q)).

(** [TomTomService._get_incidents]. *)
Definition _get_incidents (w : TomTomWorld) (bbox : list Q) : result (list RawIncident) :=
  south <-- list_get bbox 1 ;;
  west <-- list_get bbox 0 ;;
  north <-- list_get bbox 3 ;;
  east <-- list_get bbox 2 ;;
  of_option RequestError (incidents_answer w [south; west; north; east]).

(** The default [bbox] of [get_traffic_data]. *)
Definition default_bbox : list Q := [395 # 10; 471 # 10; 40 # 1; 474 # 10].

(** [TomTomService.get_traffic_data]. *)
Definition tomtom_get_traffic_data (self : TomTomService) (w : TomTomWorld) (g : Rng)
    (now : datetime) (bbox : option (list Q)) : Rand TrafficDict :=
  if negb (has_api_key self) then _get_fallback_data g now bbox
  else
    let bbox :=
      match bbox with
      | None | Some [] => default_bbox
      | Some b => b
      end in
    match (flow_data <-- _get_flow_data w bbox ;;
           incidents <-- _get_incidents w bbox ;;
           inr (_parse_traffic_data flow_data incidents now)) with
    | inr traffic_data => rand_ret traffic_data
    | inl _ => _get_fallback_data g now (Some bbox)
    end.

(** [y < m] on rationals. *)
Definition Qlt_bool (y m : Q) : bool := negb (Qle_bool m y).

(** [min(...)] and [max(...)] of a sequence; an empty one raises. *)
Definition py_min (l : list Q) : result Q :=
  match l with
  | [] => inl ValueError
  | x :: l' => inr (fold_left (fun m y => if Qlt_bool y m then y else m) l' x)
  end.

Definition py_max (l : list Q) : result Q :=
  match l with
  | [] => inl ValueError
  | x :: l' => inr (fold_left (fun m y => if Qlt_bool m y then y else m) l' x)
  end.

(** The [bbox] of [RouteService._get_route_traffic_data]. *)
Definition route_bbox (coordinates : list coord) : result (list Q) :=
  west <-- py_min (map snd coordinates) ;;
  south <-- py_min (map fst coordinates) ;;
  east <-- py_max (map snd coordinates) ;;
  north <-- py_max (map fst coordinates) ;;
  inr [(west - (1 # 10))%Q; (south - (1 # 10))%Q; (east + (1 # 10))%Q; (north + (1 # 10))%Q].

(** [RouteService._get_route_traffic_data], with the TomTom service of
    the module. *)
Definition _get_route_traffic_data (service : TomTomService) (w : TomTomWorld) (g : Rng)
    (now : datetime) (coordinates : list coord) : Rand TrafficDict :=
  bbox <~ rand_lift (route_bbox coordinates) ;;
  tomtom_get_traffic_data service w g now (Some bbox).

(** ** Response helpers *)

(** An element of the list built by [prepare_address_data]. *)
Record AddressJson := mkAddressJson {
  a_id : Z;
  a_address : string;
  a_lat : Q;
  a_lon : Q;
  a_work_time_start : string;
  a_work_time_end : string;
  a_lunch_start : string;
  a_lunch_end : string;
  a_client_type : string;
  a_visit_duration : Z
}.

Fixpoint address_data_from (idx : Z) (df : list Row) : list AddressJson :=
  match df with
  | [] => []
  | r :: df' =>
      let client_type :=
        if String.eqb (client_type r) "Standart" then "Standard" else client_type r in
      {| a_id := idx;
         a_address := address r;
         a_lat := lat r;
         a_lon := lon r;
         a_work_time_start := work_start r;
         a_work_time_end := work_end r;
         a_lunch_start := lunch_start r;
         a_lunch_end := lunch_end r;
         a_client_type := client_type;
         a_visit_duration := if String.eqb client_type "VIP" then 45 else 30 |}
      :: address_data_from (idx + 1) df'
  end.

(** [prepare_address_data], on a table with the default index. *)
Definition prepare_address_data (df : list Row) : list AddressJson :=
  address_data_from 0 df.

(** A line of ['details'], before it is printed. *)
Inductive Detail :=
| DLevel (level_text : string)
| DSpeed (current_speed free_flow_speed : Q)
| DCongestion (congestion_ratio : Q)
| DIncidents (incident_types : list (string * Z))
| DNoIncidents
| DImpact (traffic_impact : string)
| DSource (source_text : string).

(** The dict returned by [prepare_traffic_response]. *)
Record TrafficInfo := mkTrafficInfo {
  ti_level : string;
  ti_message : string;
  ti_incidents_count : Z;
  ti_traffic_impact : option string;
  ti_congestion : option Q;
  ti_source : string;
  ti_details : list Detail;
  ti_has_traffic : bool;
  ti_has_incidents : bool
}.

(** [d[k] = d.get(k, 0) + 1] on a dict that keeps insertion order. *)
Fixpoint tally_add (d : list (string * Z)) (k : string) : list (string * Z) :=
  match d with
  | [] => [(k, 1)]
  | (k', n) :: d' =>
      if String.eqb k k' then (k', n + 1) :: d' else (k', n) :: tally_add d' k
  end.

(** The [incident_types] counted by [prepare_traffic_response]. *)
Definition tally (incidents : list Incident) : list (string * Z) :=
  fold_left (fun d incident => tally_add d (i_type incident)) incidents [].

(** Truth value of an optional number. *)
Definition truthy_number (o : option Q) : bool :=
  match o with
  | Some q => negb (Qeq_bool q 0)
  | None => false
  end.

(** [route_info.get(key, default)]: [None] has no [get]. *)
Definition route_get {A : Type} (route_info : RouteValue) (key : RouteInfo -> A)
    (default : A) : result A :=
  match route_info with
  | RNone => inl AttributeError
  | REmpty => inr default
  | RDict ri => inr (key ri)
  end.

(** [prepare_traffic_response]; [traffic_data = None] is a falsy value. *)
Definition prepare_traffic_response (traffic_data : option TrafficDict)
    (route_info : RouteValue) : result (option TrafficInfo) :=
  match traffic_data with
  | None => inr None
  | Some td =>
      let level_text :=
        dict_get_default TRAFFIC_TEXTS (td_traffic_level td) "неизвестный" in
      let speed :=
        if truthy_number (td_current_speed td) && truthy_number (td_free_flow_speed td)
        then [DSpeed (opt_default (td_current_speed td) 0%Q)
                (opt_default (td_free_flow_speed td) 0%Q)]
        else [] in
      let congestion_detail :=
        if truthy_number (td_congestion_ratio td)
        then [DCongestion (opt_default (td_congestion_ratio td) 0%Q)]
        else [] in
      let incidents_count := Z.of_nat (List.length (td_incidents td)) in
      let incidents_detail :=
        if 0 <? incidents_count then [DIncidents (tally (td_incidents td))]
        else [DNoIncidents] in
      impact <-- route_get route_info traffic_impact None ;;
      let impact_detail :=
        match impact with
        | Some s => if String.eqb s "" then [] else [DImpact s]
        | None => []
        end in
      let source_text :=
        match td_source td with
        | Some s =>
            if String.eqb s "tomtom" then "реальные данные TomTom"
            else "симулированные данные"
        | None => "симулированные данные"
        end in
      message <-- of_option (KeyError "message") (td_message td) ;;
      congestion <-- route_get route_info congestion None ;;
      inr (Some
             {| ti_level := td_traffic_level td;
                ti_message := message;
                ti_incidents_count := incidents_count;
                ti_traffic_impact := impact;
                ti_congestion := congestion;
                ti_source := opt_default (td_source td) "simulated";
                ti_details :=
                  ([DLevel level_text] ++ speed ++ congestion_detail ++ incidents_detail
                   ++ impact_detail ++ [DSource source_text])%list;
                ti_has_traffic :=
                  String.eqb (td_traffic_level td) "medium"
                  || String.eqb (td_traffic_level td) "high"
                  || String.eqb (td_traffic_level td) "very_high";
                ti_has_incidents := 0 <? incidents_count |})
  end.

(** ** The [/optimize] handler *)

(** The JSON body of the request, with the defaults of the handler. *)
Record OptimizeRequest := mkOptimizeRequest {
  req_points : list Z;
  req_user_location : option coord;
  req_avoid_traffic : bool
}.

(** What the handler finds outside: the address table ([] when the file
    is missing or empty), the clock, and the answers of the two services. *)
Record HandlerWorld := mkHandlerWorld {
  hw_addresses : list Row;
  hw_clock : datetime;
  hw_traffic : list coord -> TrafficDict;
  hw_osrm : list coord -> option Response
}.

(** The world the optimizer sees. *)
Definition optimizer_world (hw : HandlerWorld) : World :=
  {| get_traffic_data := fun coordinates => route_view (hw_traffic hw coordinates);
     requests_get := hw_osrm hw |}.

(** [route_info['traffic_data']] as the whole dict. *)
Definition full_traffic_data (hw : HandlerWorld) (route_info : RouteValue)
    : result (option TrafficDict) :=
  route_get route_info
    (fun ri => match traffic_data ri with
               | Some _ => Some (hw_traffic hw (waypoints ri))
               | None => None
               end)
    None.

(** [df.iloc[idx]] for one position, negative ones counting from the end. *)
Definition iloc_one {A : Type} (df : list A) (idx : Z) : result A :=
  let n := Z.of_nat (List.length df) in
  if (0 <=? idx) && (idx <? n) then list_get df (Z.to_nat idx)
  else if (- n <=? idx) && (idx <? 0) then list_get df (Z.to_nat (n + idx))
  else inl IndexError.

(** [df.iloc[indices]]. *)
Fixpoint iloc {A : Type} (df : list A) (indices : list Z) : result (list A) :=
  match indices with
  | [] => inr []
  | idx :: indices' =>
      r <-- iloc_one df idx ;;
      rest <-- iloc df indices' ;;
      inr (r :: rest)
  end.

(** A row with its tier passed through [replace]. *)
Definition replace_tier (r : Row) : Row :=
  {| address := address r; client_type := replace_standart (client_type r);
     lat := lat r; lon := lon r;
     work_start := work_start r; work_end := work_end r;
     lunch_start := lunch_start r; lunch_end := lunch_end r |}.

Record MapPoint := mkMapPoint {
  mp_order : Z;
  mp_lat : Q;
  mp_lon : Q;
  mp_address : string;
  mp_type : string;
  mp_work_time : string;
  mp_lunch_time : string
}.

Fixpoint map_points_from (i : Z) (optimal_route : list Point) : list MapPoint :=
  match optimal_route with
  | [] => []
  | point :: rest =>
      {| mp_order := i + 1;
         mp_lat := lat (row point);
         mp_lon := lon (row point);
         mp_address := address (row point);
         mp_type := if String.eqb (client_type (row point)) "VIP" then "VIP" else "Standard";
         mp_work_time := work_start (row point) ++ "-" ++ work_end (row point);
         mp_lunch_time := lunch_start (row point) ++ "-" ++ lunch_end (row point) |}
      :: map_points_from (i + 1) rest
  end.

(** The number of rows of [optimal_route] whose tier is [tier]. *)
Definition count_tier (tier : string) (optimal_route : list Point) : Z :=
  Z.of_nat (List.length
              (filter (fun point => String.eqb (client_type (row point)) tier)
                 optimal_route)).

(** The body of a successful answer. *)
Record OptimizeResponse := mkOptimizeResponse {
  resp_user_location : option coord;
  resp_points : list MapPoint;
  resp_route_info : RouteValue;
  resp_traffic_data : option TrafficDict;
  resp_schedule : list Entry;
  resp_total_points : Z;
  resp_total_distance : Q;
  resp_total_time : Q;
  resp_route_duration_min : Q;
  resp_vip_count : Z;
  resp_standard_count : Z;
  resp_avoid_traffic : bool;
  resp_traffic_info : option (option TrafficInfo)
}.

(** The three kinds of answer: a refusal with its message, the
    [except] branch with the exception caught, or success. *)
Inductive Reply :=
| Refused (error : string)
| Failed (e : Exn)
| Succeeded (response : OptimizeResponse).

(** The handler after its three guards. *)
Definition optimize_selected (hw : HandlerWorld) (request : OptimizeRequest)
    (valid_indices : list Z) : result OptimizeResponse :=
  let avoid_traffic := req_avoid_traffic request in
  selected_df <-- iloc (hw_addresses hw) valid_indices ;;
  let selected_df := map replace_tier selected_df in
  let optimizer := RouteOptimizer_init (hw_clock hw) in
  optimized <-- of_option ValueError
                  (snd (optimize_with_timing optimizer (optimizer_world hw) selected_df
                          (req_user_location request) avoid_traffic)) ;;
  let optimal_route := fst (fst optimized) in
  let schedule := snd (fst optimized) in
  let route_info := snd optimized in
  map_traffic <-- (if avoid_traffic then full_traffic_data hw route_info else inr None) ;;
  distance <-- route_get route_info distance_km 0%Q ;;
  duration <-- route_get route_info duration_min 0%Q ;;
  duration' <-- route_get route_info duration_min 0%Q ;;
  traffic_info <-- (if avoid_traffic then
                      td <-- full_traffic_data hw route_info ;;
                      match td with
                      | Some _ =>
                          info <-- prepare_traffic_response td route_info ;;
                          inr (Some info)
                      | None => inr None
                      end
                    else inr None) ;;
  inr {| resp_user_location := req_user_location request;
         resp_points := map_points_from 0 optimal_route;
         resp_route_info := route_info;
         resp_traffic_data := map_traffic;
         resp_schedule := schedule;
         resp_total_points := Z.of_nat (List.length optimal_route);
         resp_total_distance := round_digits distance 2;
         resp_total_time := round_digits (duration / 60) 1;
         resp_route_duration_min := round_digits duration' 1;
         resp_vip_count := count_tier "VIP" optimal_route;
         resp_standard_count := count_tier "Standard" optimal_route;
         resp_avoid_traffic := avoid_traffic;
         resp_traffic_info := traffic_info |}.

(** The [/optimize] handler. *)
Definition optimize_handler (hw : HandlerWorld) (request : OptimizeRequest) : Reply :=
  match req_points request with
  | [] => Refused "Не выбраны точки"
  | _ =>
      match hw_addresses hw with
      | [] => Refused "Файл с адресами не загружен"
      | _ =>
          let valid_indices :=
            filter (fun idx => idx <? Z.of_nat (List.length (hw_addresses hw)))
              (req_points request) in
          match valid_indices with
          | [] => Refused "Некорректные индексы точек"
          | _ =>
              match optimize_selected hw request valid_indices with
              | inr response => Succeeded response
              | inl e => Failed e
              end
          end
      end
  end.


(** ** Auxiliary definitions for the further statements *)

(** The arrival text of entry [e] respects the windows of stop [p]: it
    is not before the work start and not inside the lunch break. *)
Definition arrival_in_window (p : Point) (e : Entry) : Prop :=
  forall ws ls le : time,
    strptime_HM (work_start (row p)) = Some ws ->
    strptime_HM (lunch_start (row p)) = Some ls ->
    strptime_HM (lunch_end (row p)) = Some le ->
    ws < ls \/ le <= ws ->
    exists a : time,
      strptime_HM (arrival_time e) = Some a /\ ws <= a /\ (a < ls \/ le <= a).

(** Entry [e] is the entry of stop [p] at position [k] of the route. *)
Definition entry_of_stop (k : nat) (p : Point) (e : Entry) : Prop :=
  order e = Z.of_nat k + 1
  /\ e_address e = address (row p)
  /\ e_client_type e = client_type (row p)
  /\ duration e = visit_duration p
  /\ work_time e = work_start (row p) ++ "-" ++ work_end (row p)
  /\ lunch_time e = lunch_start (row p) ++ "-" ++ lunch_end (row p).

(** A stop whose lunch start is not a time. *)
Definition malformed_stop : Point :=
  {| row := {| address := "M"; client_type := "Standard"; lat := 0; lon := 0;
               work_start := "09:00"; work_end := "18:00";
               lunch_start := "noon"; lunch_end := "14:00" |};
     priority := 1 |}.

(** The clock of a run started at 10:00 on day 100. *)
Definition morning_optimizer : RouteOptimizer :=
  RouteOptimizer_init (combine 100 (10 * HOUR)).

(** The schedule of a VIP stop and a Standard stop visited from 10:00 on
    with 15-minute legs. *)
Definition morning_schedule : list Entry :=
  [ {| order := 1; e_address := "A"; arrival_time := "10:00"; departure_time := "10:45";
       date := 100; e_client_type := "VIP"; duration := 45;
       work_time := "09:00-18:00"; lunch_time := "13:00-14:00" |};
    {| order := 2; e_address := "B"; arrival_time := "11:00"; departure_time := "11:30";
       date := 100; e_client_type := "Standard"; duration := 30;
       work_time := "09:00-18:00"; lunch_time := "13:00-14:00" |} ].

(** A generator whose every draw is 0 and whose [random()] is 1/2. *)
Definition fixed_rng : Rng :=
  {| next_index := fun _ => O; next_unit := fun _ => 1 # 2 |}.

(** A service without API key, and a TomTom world that never answers. *)
Definition keyless_service : TomTomService := {| api_key := None |}.

Definition silent_tomtom : TomTomWorld :=
  {| flow_answer := fun _ => None; incidents_answer := fun _ => None |}.

(** The traffic dict simulated at 08:00 by [fixed_rng] in the box
    [0, 10] x [0, 20]. *)
Definition rush_hour_dict : TrafficDict :=
  {| td_traffic_level := "high";
     td_incidents :=
       [ {| i_type := "ДТП"; i_description := "ДТП на участке дороги";
            i_severity := "low";
            i_location := {| loc_lat := (0 + (20 - 0) * (1 # 2))%Q;
                             loc_lon := (0 + (10 - 0) * (1 # 2))%Q |} |} ];
     td_message := None; td_timestamp := None; td_source := None;
     td_current_speed := None; td_free_flow_speed := None;
     td_congestion_ratio := None; td_simulated := true |}.

(** The incident lies in the box [west, east] x [south, north]. *)
Definition inside_bbox (west south east north : Q) (incident : Incident) : Prop :=
  (south <= loc_lat (i_location incident) /\ loc_lat (i_location incident) <= north
   /\ west <= loc_lon (i_location incident) /\ loc_lon (i_location incident) <= east)%Q.

(** A parsed TomTom dict: free flow, no incident. *)
Definition clear_roads_dict : TrafficDict := _parse_traffic_data None [] 0.

(** A table of two addresses and a world whose services fail. *)
Definition two_addresses : list Row :=
  [row (default_stop "A" "VIP"); row (default_stop "B" "Standart")].

Definition failing_world : HandlerWorld :=
  {| hw_addresses := two_addresses;
     hw_clock := combine 100 (10 * HOUR);
     hw_traffic := fun _ => rush_hour_dict;
     hw_osrm := fun _ => None |}.

(** The same table with OSRM answering a 20-minute route and the
    traffic dict coming from the simulation. *)
Definition good_osrm (coordinates : list coord) : option Response :=
  Some {| status_code := 200;
          json := Some {| code := "Ok";
                          routes := [ {| distance := 5000; r_duration := 1200;
                                         r_geometry := "" |} ] |} |}.

Definition simulated_world : HandlerWorld :=
  {| hw_addresses := two_addresses;
     hw_clock := combine 100 (10 * HOUR);
     hw_traffic := fun _ => rush_hour_dict;
     hw_osrm := good_osrm |}.

(** The number of map points of type [t]. *)
Definition count_type (t : string) (points : list MapPoint) : Z :=
  Z.of_nat (List.length (filter (fun mp => String.eqb (mp_type mp) t) points)).

(** The request with its ['points'] replaced. *)
Definition with_points (request : OptimizeRequest) (points : list Z) : OptimizeRequest :=
  {| req_points := points;
     req_user_location := req_user_location request;
     req_avoid_traffic := req_avoid_traffic request |}.

(** OSRM answers every path with at least one route. *)
Definition osrm_answers (osrm : list coord -> option Response) : Prop :=
  forall coordinates,
    exists route routes,
      osrm coordinates
      = Some {| status_code := 200;
                json := Some {| code := "Ok"; routes := route :: routes |} |}.

(** * Properties *)

(** ** Times of day *)

Ltac unfold_time :=
  unfold combine, date_of, time_of, timedelta_minutes, DAY, HOUR, MINUTE in *.

Lemma time_of_range (dt : datetime) : 0 <= time_of dt < DAY.
Proof. unfold time_of. apply Z.mod_pos_bound. reflexivity. Qed.

Lemma combine_date_time (dt : datetime) : combine (date_of dt) (time_of dt) = dt.
Proof. unfold_time. Z.div_mod_to_equations. lia. Qed.

Lemma date_of_combine (d : Z) (t : time) :
  0 <= t < DAY -> date_of (combine d t) = d.
Proof. unfold_time. intros H. Z.div_mod_to_equations. lia. Qed.

Lemma time_of_combine (d : Z) (t : time) :
  0 <= t < DAY -> time_of (combine d t) = t.
Proof. unfold_time. intros H. Z.div_mod_to_equations. lia. Qed.

(** ** Parsing and printing ['%H:%M'] *)

Lemma digit_val_range (c : ascii) (d : Z) : digit_val c = Some d -> 0 <= d <= 9.
Proof.
  unfold digit_val. intros H.
  destruct ((48 <=? Z.of_nat (nat_of_ascii c)) && (Z.of_nat (nat_of_ascii c) <=? 57)) eqn:E;
    [|discriminate].
  injection H as <-. apply andb_prop in E. lia.
Qed.

Lemma parse_hour_colon_range (s rest : string) (h : Z) :
  parse_hour_colon s = Some (h, rest) -> 0 <= h <= 23.
Proof.
  unfold parse_hour_colon. intros H.
  destruct s as [|c1 [|c2 s2]]; try discriminate.
  destruct (Ascii.eqb c2 ":").
  - destruct (digit_val c1) as [d1|] eqn:E1; cbn [bind] in H; [|discriminate].
    assert (h = d1) by congruence. subst h. apply digit_val_range in E1. lia.
  - destruct s2 as [|c3 s3]; [discriminate|].
    destruct (Ascii.eqb c3 ":"); [|discriminate].
    destruct (digit_val c1) as [d1|] eqn:E1; cbn [bind] in H; [|discriminate].
    destruct (digit_val c2) as [d2|] eqn:E2; cbn [bind] in H; [|discriminate].
    destruct (10 * d1 + d2 <=? 23) eqn:E; [|discriminate].
    assert (h = 10 * d1 + d2) by congruence. subst h.
    apply Z.leb_le in E.
    apply digit_val_range in E1. apply digit_val_range in E2. lia.
Qed.

Lemma parse_minute_end_range (s : string) (m : Z) :
  parse_minute_end s = Some m -> 0 <= m <= 59.
Proof.
  unfold parse_minute_end. intros H.
  destruct s as [|c1 [|c2 [|c3 s3]]]; try discriminate.
  - apply digit_val_range in H. lia.
  - destruct (digit_val c1) as [d1|] eqn:E1; cbn [bind] in H; [|discriminate].
    destruct (digit_val c2) as [d2|] eqn:E2; cbn [bind] in H; [|discriminate].
    destruct (d1 <=? 5) eqn:E; [|discriminate].
    assert (m = 10 * d1 + d2) by congruence. subst m. apply Z.leb_le in E.
    apply digit_val_range in E1. apply digit_val_range in E2. lia.
Qed.

(** A parsed time is a whole minute of the day. *)
Lemma strptime_HM_inv (s : string) (t : time) :
  strptime_HM s = Some t ->
  exists h m, 0 <= h <= 23 /\ 0 <= m <= 59 /\ t = h * HOUR + m * MINUTE.
Proof.
  unfold strptime_HM. intros H.
  destruct (parse_hour_colon s) as [[h rest]|] eqn:Eh; cbn [bind fst snd] in H;
    [|discriminate].
  destruct (parse_minute_end rest) as [m|] eqn:Em; cbn [bind] in H; [|discriminate].
  injection H as <-.
  exists h, m. split; [eapply parse_hour_colon_range; eauto|].
  split; [eapply parse_minute_end_range; eauto|reflexivity].
Qed.

Lemma strptime_HM_range (s : string) (t : time) :
  strptime_HM s = Some t -> 0 <= t < DAY /\ t mod MINUTE = 0.
Proof.
  intros H. destruct (strptime_HM_inv _ _ H) as (h & m & Hh & Hm & ->).
  unfold DAY, HOUR, MINUTE. split; [lia|].
  Z.div_mod_to_equations. lia.
Qed.

Lemma minute_roundtrip_all : forallb minute_roundtrip (seq 0 1440) = true.
Proof. vm_compute. reflexivity. Qed.

Lemma strptime_minute_text (n : Z) :
  0 <= n < 1440 -> strptime_HM (minute_text n) = Some (n * MINUTE).
Proof.
  intros Hn.
  pose proof (proj1 (forallb_forall _ _) minute_roundtrip_all (Z.to_nat n)) as H.
  assert (Hin : In (Z.to_nat n) (seq 0 1440)) by (apply in_seq; lia).
  specialize (H Hin). unfold minute_roundtrip in H.
  rewrite Z2Nat.id in H by lia.
  destruct (strptime_HM (minute_text n)) as [t|]; [|discriminate].
  apply Z.eqb_eq in H. now subst.
Qed.

Lemma strftime_HM_time_text (t : time) :
  0 <= t < DAY -> strftime_HM_time t = minute_text (t / MINUTE).
Proof.
  intros Ht. unfold strftime_HM_time, minute_text, hour_of, minute_of.
  replace (t / HOUR) with (t / MINUTE / 60); [reflexivity|].
  unfold HOUR. rewrite Z.div_div by (unfold MINUTE; lia).
  now rewrite (Z.mul_comm MINUTE 60).
Qed.

(** Parsing what [strftime] printed gives the time cut to the minute. *)
Lemma strptime_strftime (dt : datetime) :
  strptime_HM (strftime_HM dt) = Some (time_of dt - time_of dt mod MINUTE).
Proof.
  unfold strftime_HM. pose proof (time_of_range dt) as Hr.
  rewrite strftime_HM_time_text by exact Hr.
  rewrite strptime_minute_text.
  - f_equal. unfold MINUTE in *. Z.div_mod_to_equations. lia.
  - unfold DAY, HOUR, MINUTE in *. Z.div_mod_to_equations. lia.
Qed.

(** ** Sequencer *)

Lemma prepare_from_In (i : Z) (df : list Row) (p : Prepared) :
  In p (prepare_from i df) ->
  i <= p_temp_index p /\ p_priority p = (if is_vip (p_row p) then 0 else 1).
Proof.
  revert i. induction df as [|r df IH]; intros i Hin; simpl in Hin; [contradiction|].
  destruct Hin as [<-|Hin]; simpl; [split; [lia|reflexivity]|].
  apply IH in Hin. split; [lia|tauto].
Qed.

Lemma insert_sorted_front (x : Prepared) (l : list Prepared) :
  (forall y, In y l -> key_leb x y = true) -> insert_sorted x l = x :: l.
Proof.
  destruct l as [|y l]; intros H; simpl; [reflexivity|].
  now rewrite (H y (or_introl eq_refl)).
Qed.

Lemma insert_sorted_skip (x : Prepared) (l1 l2 : list Prepared) :
  (forall y, In y l1 -> key_leb x y = false) ->
  insert_sorted x (l1 ++ l2) = (l1 ++ insert_sorted x l2)%list.
Proof.
  induction l1 as [|y l1 IH]; intros H; simpl; [reflexivity|].
  rewrite (H y (or_introl eq_refl)). f_equal. apply IH.
  intros z Hz. apply H. now right.
Qed.

(** Sorting the prepared table puts the priority-0 rows first and keeps
    the table order inside each class. *)
Lemma sort_values_prepare_from (i : Z) (df : list Row) :
  sort_values (prepare_from i df)
  = (filter first_class (prepare_from i df)
     ++ filter (fun p => negb (first_class p)) (prepare_from i df))%list.
Proof.
  revert i. induction df as [|r df IH]; intros i; [reflexivity|].
  change (sort_values (prepare_from i (r :: df)))
    with (insert_sorted
            {| p_row := r; p_priority := if is_vip r then 0 else 1; p_temp_index := i |}
            (sort_values (prepare_from (i + 1) df))).
  rewrite IH. cbn [prepare_from filter]. unfold first_class at 1 4. cbn [p_priority].
  destruct (is_vip r); cbn [Z.eqb negb app].
  - apply insert_sorted_front. intros y Hy.
    assert (Hin : In y (prepare_from (i + 1) df)).
    { apply in_app_or in Hy. destruct Hy as [Hy|Hy]; apply filter_In in Hy; tauto. }
    apply prepare_from_In in Hin. destruct Hin as [Hi Hp].
    unfold key_leb; cbn [p_priority p_temp_index]. rewrite Hp.
    destruct (is_vip (p_row y)); cbn; [|reflexivity]. apply Z.leb_le. lia.
  - rewrite insert_sorted_skip.
    + f_equal. apply insert_sorted_front. intros y Hy.
      apply filter_In in Hy. destruct Hy as [Hin Hc].
      apply prepare_from_In in Hin. destruct Hin as [Hi Hp].
      unfold first_class in Hc. unfold key_leb; cbn [p_priority p_temp_index].
      rewrite Hp in *. destruct (is_vip (p_row y)); cbn in *; [discriminate|].
      apply Z.leb_le. lia.
    + intros y Hy. apply filter_In in Hy. destruct Hy as [Hin Hc].
      unfold first_class in Hc. apply Z.eqb_eq in Hc.
      unfold key_leb; cbn [p_priority]. rewrite Hc. reflexivity.
Qed.

Lemma filter_prepare_from (b : bool) (i : Z) (df : list Row) :
  map drop_temp_index
    (filter (fun p => Bool.eqb (first_class p) b) (prepare_from i df))
  = map as_point (filter (fun r => Bool.eqb (is_vip r) b) df).
Proof.
  revert i. induction df as [|r df IH]; intros i; [reflexivity|].
  cbn [prepare_from filter]. unfold first_class at 1. cbn [p_priority].
  destruct (is_vip r) eqn:Er, b; cbn [Z.eqb Bool.eqb map]; rewrite ?IH; try reflexivity.
  - f_equal. unfold drop_temp_index, as_point. cbn. now rewrite Er.
  - f_equal. unfold drop_temp_index, as_point. cbn. now rewrite Er.
Qed.

Lemma sort_route_partition (df : list Row) :
  _sort_route (_prepare_data df)
  = map as_point (filter is_vip df ++ filter (fun r => negb (is_vip r)) df).
Proof.
  unfold _sort_route, _prepare_data.
  rewrite sort_values_prepare_from, !map_app.
  pose proof (filter_prepare_from true 0 df) as Ht.
  pose proof (filter_prepare_from false 0 df) as Hf.
  rewrite (filter_ext _ first_class) in Ht by (intros; now destruct (first_class _)).
  rewrite (filter_ext _ is_vip) in Ht by (intros; now destruct (is_vip _)).
  rewrite (filter_ext _ (fun p => negb (first_class p))) in Hf
    by (intros; now destruct (first_class _)).
  rewrite (filter_ext _ (fun r => negb (is_vip r))) in Hf
    by (intros; now destruct (is_vip _)).
  now rewrite Ht, Hf.
Qed.

Lemma sort_route_length (df : list Row) :
  List.length (_sort_route (_prepare_data df)) = List.length df.
Proof.
  rewrite sort_route_partition, length_map, length_app.
  apply filter_length.
Qed.

(** C2. [_sort_route (_prepare_data df)] is the VIP rows of [df] in their
    input order, followed by the other rows in their input order; the
    VIP rows carry priority 0 and the others priority 1, and the empty
    table gives the empty route. *)
Theorem sort_route_vip_first (df : list Row) :
  _sort_route (_prepare_data df)
  = map as_point (filter is_vip df ++ filter (fun r => negb (is_vip r)) df)
  /\ _sort_route (_prepare_data []) = [].
Proof.
  split; [apply sort_route_partition|reflexivity].
Qed.

(** ** The sort is determined by the keys *)

Lemma key_leb_total (a b : Prepared) : key_leb a b = false -> key_leb b a = true.
Proof.
  unfold key_leb. intros H.
  apply orb_false_elim in H. destruct H as [H1 H2].
  apply Z.ltb_ge in H1.
  destruct (p_priority b <? p_priority a) eqn:E; [reflexivity|].
  apply Z.ltb_ge in E. cbn [orb].
  assert (Heq : p_priority a = p_priority b) by lia.
  rewrite Heq, Z.eqb_refl in *. cbn [andb] in *.
  apply Z.leb_gt in H2. apply Z.leb_le. lia.
Qed.

Lemma key_le_trans (a b c : Prepared) : key_le a b -> key_le b c -> key_le a c.
Proof.
  unfold key_le, key_leb. intros H1 H2.
  apply orb_prop in H1. apply orb_prop in H2.
  assert (H1' : p_priority a < p_priority b
                \/ (p_priority a = p_priority b /\ p_temp_index a <= p_temp_index b)).
  { destruct H1 as [H|H]; [left; now apply Z.ltb_lt|right].
    apply andb_prop in H. destruct H as [Ha Hb].
    split; [now apply Z.eqb_eq|now apply Z.leb_le]. }
  assert (H2' : p_priority b < p_priority c
                \/ (p_priority b = p_priority c /\ p_temp_index b <= p_temp_index c)).
  { destruct H2 as [H|H]; [left; now apply Z.ltb_lt|right].
    apply andb_prop in H. destruct H as [Ha Hb].
    split; [now apply Z.eqb_eq|now apply Z.leb_le]. }
  apply orb_true_intro.
  destruct H1' as [Ha|[Ha Ha']], H2' as [Hb|[Hb Hb']].
  - left. apply Z.ltb_lt. lia.
  - left. apply Z.ltb_lt. lia.
  - left. apply Z.ltb_lt. lia.
  - right. apply andb_true_intro. split; [apply Z.eqb_eq|apply Z.leb_le]; lia.
Qed.

Lemma key_le_same_index (a b : Prepared) :
  key_le a b -> key_le b a -> p_temp_index a = p_temp_index b.
Proof.
  unfold key_le, key_leb. intros H1 H2.
  apply orb_prop in H1. apply orb_prop in H2.
  destruct H1 as [H1|H1], H2 as [H2|H2];
    rewrite ?Z.ltb_lt, ?andb_true_iff, ?Z.eqb_eq, ?Z.leb_le in *; lia.
Qed.

Lemma insert_sorted_perm (x : Prepared) (l : list Prepared) :
  Permutation (x :: l) (insert_sorted x l).
Proof.
  induction l as [|y l IH]; cbn [insert_sorted]; [reflexivity|].
  destruct (key_leb x y); [reflexivity|].
  rewrite perm_swap. now constructor.
Qed.

Lemma sort_values_perm (l : list Prepared) : Permutation l (sort_values l).
Proof.
  induction l as [|x l IH]; cbn; [constructor|].
  rewrite <- insert_sorted_perm. now constructor.
Qed.

Lemma insert_sorted_sorted (x : Prepared) (l : list Prepared) :
  StronglySorted key_le l -> StronglySorted key_le (insert_sorted x l).
Proof.
  induction 1 as [|y l Hs IH Hall]; cbn [insert_sorted].
  - repeat constructor.
  - destruct (key_leb x y) eqn:E.
    + constructor; [now constructor|].
      constructor; [exact E|].
      eapply Forall_impl; [|exact Hall]. intros z Hz. now apply key_le_trans with y.
    + constructor; [exact IH|].
      apply (Permutation_Forall (insert_sorted_perm x l)).
      constructor; [now apply key_leb_total|exact Hall].
Qed.

Lemma sort_values_sorted (l : list Prepared) : StronglySorted key_le (sort_values l).
Proof.
  induction l as [|x l IH]; cbn; [constructor|]. now apply insert_sorted_sorted.
Qed.

(** Two key-sorted arrangements of the same rows are the same list,
    provided a row is determined by its ['temp_index']. *)
Lemma sorted_arrangement_unique (l1 l2 : list Prepared) :
  (forall a b, In a l1 -> In b l1 -> p_temp_index a = p_temp_index b -> a = b) ->
  Permutation l1 l2 ->
  StronglySorted key_le l1 -> StronglySorted key_le l2 ->
  l1 = l2.
Proof.
  revert l2. induction l1 as [|x l1 IH]; intros l2 Hinj Hperm Hs1 Hs2.
  - apply Permutation_nil in Hperm. now subst.
  - destruct l2 as [|y l2].
    { symmetry in Hperm. apply Permutation_nil in Hperm. discriminate. }
    inversion Hs1 as [|? ? Hs1' Hall1]; subst.
    inversion Hs2 as [|? ? Hs2' Hall2]; subst.
    assert (Hxy : x = y).
    { assert (Hy : In y (x :: l1)).
      { apply (Permutation_in _ (Permutation_sym Hperm)). now left. }
      assert (Hx : In x (y :: l2)).
      { apply (Permutation_in _ Hperm). now left. }
      destruct Hy as [Hy|Hy]; [exact Hy|].
      destruct Hx as [Hx|Hx]; [now symmetry|].
      rewrite Forall_forall in Hall1, Hall2.
      apply Hinj; [now left|now right|].
      apply key_le_same_index; [now apply Hall1|now apply Hall2]. }
    subst y. f_equal. apply IH.
    + intros a b Ha Hb. apply Hinj; now right.
    + now apply Permutation_cons_inv with x.
    + exact Hs1'.
    + exact Hs2'.
Qed.

Lemma prepare_from_index_inj (i : Z) (df : list Row) (a b : Prepared) :
  In a (prepare_from i df) -> In b (prepare_from i df) ->
  p_temp_index a = p_temp_index b -> a = b.
Proof.
  revert i. induction df as [|r df IH]; intros i Ha Hb Heq; [contradiction|].
  cbn [prepare_from] in Ha, Hb.
  destruct Ha as [Ha|Ha], Hb as [Hb|Hb].
  - congruence.
  - apply prepare_from_In in Hb. subst a. cbn in Heq. lia.
  - apply prepare_from_In in Ha. subst b. cbn in Heq. lia.
  - now apply (IH (i + 1)).
Qed.

(** Whatever algorithm sorts the prepared table by
    [['priority', 'temp_index']], its result is [sort_values]. *)
Lemma sort_values_unique (df : list Row) (sorted : list Prepared) :
  Permutation (_prepare_data df) sorted ->
  StronglySorted key_le sorted ->
  sorted = sort_values (_prepare_data df).
Proof.
  intros Hperm Hs. symmetry. apply sorted_arrangement_unique.
  - intros a b Ha Hb. unfold _prepare_data in *.
    apply (prepare_from_index_inj 0 df);
      now apply (Permutation_in _ (Permutation_sym (sort_values_perm _))).
  - rewrite <- Hperm. symmetry. apply sort_values_perm.
  - apply sort_values_sorted.
  - exact Hs.
Qed.

(** ** Window adjustment *)

Lemma adjust_time_unfold (current_time : datetime) (point : Point) (ws we ls le : time) :
  strptime_HM (work_start (row point)) = Some ws ->
  strptime_HM (work_end (row point)) = Some we ->
  strptime_HM (lunch_start (row point)) = Some ls ->
  strptime_HM (lunch_end (row point)) = Some le ->
  _adjust_time_for_schedule current_time point
  = Some (window_rule current_time ws ls le).
Proof.
  intros Hws Hwe Hls Hle. unfold _adjust_time_for_schedule, window_rule.
  rewrite Hws, Hwe, Hls, Hle. cbn [bind]. f_equal.
  apply strptime_HM_range in Hws, Hle. destruct Hws as [Hws _], Hle as [Hle _].
  pose proof (time_of_range current_time) as Hr.
  pose proof (combine_date_time current_time) as Hc.
  destruct ((ls <=? time_of current_time) && (time_of current_time <=? le)) eqn:Elunch.
  - apply andb_prop in Elunch. destruct Elunch as [_ E2]. apply Z.leb_le in E2.
    assert (Hclamp : (if current_time <? combine (date_of current_time) le
                      then combine (date_of current_time) le else current_time)
                     = combine (date_of current_time) le).
    { destruct (current_time <? combine (date_of current_time) le) eqn:E; [reflexivity|].
      apply Z.ltb_ge in E. unfold combine in *. lia. }
    rewrite Hclamp, time_of_combine, date_of_combine by exact Hle.
    destruct (le <? ws) eqn:E.
    + apply Z.ltb_lt in E. now rewrite Z.max_r by lia.
    + apply Z.ltb_ge in E. now rewrite Z.max_l by lia.
  - reflexivity.
Qed.

(** C3 (as amended).  When the four window texts parse, the adjusted
    cursor is: on the cursor's date, the later of [lunch_end] and
    [work_start] if the cursor's time lies in the lunch window;
    otherwise [work_start] on that date if the time is before it;
    otherwise the cursor itself.  Whenever [work_start <= lunch_end] this
    is the rule of the specification.  With the windows 09:00-18:00 and
    13:00-14:00 a cursor at 13:30 gives arrival_time "14:00", and one at
    07:45 gives "09:00". *)
Theorem adjust_time_window_rule :
  (forall (cursor : datetime) (point : Point) (ws we ls le : time),
      strptime_HM (work_start (row point)) = Some ws ->
      strptime_HM (work_end (row point)) = Some we ->
      strptime_HM (lunch_start (row point)) = Some ls ->
      strptime_HM (lunch_end (row point)) = Some le ->
      _adjust_time_for_schedule cursor point = Some (window_rule cursor ws ls le)
      /\ (ws <= le -> window_rule cursor ws ls le = window_rule_else_if cursor ws ls le))
  /\ (forall (d i : Z) (name tier : string),
         (t <- _adjust_time_for_schedule (combine d (13 * HOUR + 30 * MINUTE))
                 (default_stop name tier) ;;
          Some (t, arrival_time (_create_schedule_entry i (default_stop name tier) t)))
         = Some (combine d (14 * HOUR), "14:00"))
  /\ (forall (d i : Z) (name tier : string),
         (t <- _adjust_time_for_schedule (combine d (7 * HOUR + 45 * MINUTE))
                 (default_stop name tier) ;;
          Some (t, arrival_time (_create_schedule_entry i (default_stop name tier) t)))
         = Some (combine d (9 * HOUR), "09:00")).
Proof.
  split; [|split].
  - intros cursor point ws we ls le Hws Hwe Hls Hle. split.
    + now apply adjust_time_unfold with (we := we).
    + intros Hle'. unfold window_rule, window_rule_else_if.
      now rewrite Z.max_l by lia.
  - intros d i name tier.
    rewrite (adjust_time_unfold _ (default_stop name tier)
               (9 * HOUR) (18 * HOUR) (13 * HOUR) (14 * HOUR)) by reflexivity.
    cbn [bind]. unfold window_rule.
    rewrite time_of_combine, date_of_combine by (vm_compute; intuition discriminate).
    replace ((13 * HOUR <=? 13 * HOUR + 30 * MINUTE)
             && (13 * HOUR + 30 * MINUTE <=? 14 * HOUR)) with true by reflexivity.
    replace (Z.max (14 * HOUR) (9 * HOUR)) with (14 * HOUR) by reflexivity.
    unfold _create_schedule_entry, strftime_HM; cbn [arrival_time].
    rewrite time_of_combine by (vm_compute; intuition discriminate). reflexivity.
  - intros d i name tier.
    rewrite (adjust_time_unfold _ (default_stop name tier)
               (9 * HOUR) (18 * HOUR) (13 * HOUR) (14 * HOUR)) by reflexivity.
    cbn [bind]. unfold window_rule.
    rewrite time_of_combine, date_of_combine by (vm_compute; intuition discriminate).
    replace ((13 * HOUR <=? 7 * HOUR + 45 * MINUTE)
             && (7 * HOUR + 45 * MINUTE <=? 14 * HOUR)) with false by reflexivity.
    replace (7 * HOUR + 45 * MINUTE <? 9 * HOUR) with true by reflexivity.
    unfold _create_schedule_entry, strftime_HM; cbn [arrival_time].
    rewrite time_of_combine by (vm_compute; intuition discriminate). reflexivity.
Qed.

Lemma adjust_time_window_rule_witness :
  _adjust_time_for_schedule (combine 100 (7 * HOUR + 30 * MINUTE)) early_lunch_stop
  = Some (window_rule (combine 100 (7 * HOUR + 30 * MINUTE))
            (9 * HOUR) (7 * HOUR) (8 * HOUR))
  /\ _adjust_time_for_schedule (combine 100 (13 * HOUR + 30 * MINUTE)) (default_stop "A" "VIP")
     = Some (window_rule_else_if (combine 100 (13 * HOUR + 30 * MINUTE))
               (9 * HOUR) (13 * HOUR) (14 * HOUR)).
Proof.
  split.
  - exact (proj1 (proj1 adjust_time_window_rule
                    (combine 100 (7 * HOUR + 30 * MINUTE)) early_lunch_stop
                    (9 * HOUR) (18 * HOUR) (7 * HOUR) (8 * HOUR)
                    eq_refl eq_refl eq_refl eq_refl)).
  - destruct (proj1 adjust_time_window_rule
                (combine 100 (13 * HOUR + 30 * MINUTE)) (default_stop "A" "VIP")
                (9 * HOUR) (18 * HOUR) (13 * HOUR) (14 * HOUR)
                eq_refl eq_refl eq_refl eq_refl) as [H1 H2].
    rewrite H1, H2 by (vm_compute; discriminate). reflexivity.
Defined.

(** C3, counterexample: with lunch 07:00-08:00 and work start 09:00 a
    cursor at 07:30 is moved to 09:00, not to [lunch_end] = 08:00, so the
    rule with "otherwise" does not hold for every stop. *)
Lemma adjust_time_else_if_fails :
  ~ (forall (cursor : datetime) (point : Point) (ws we ls le : time),
        strptime_HM (work_start (row point)) = Some ws ->
        strptime_HM (work_end (row point)) = Some we ->
        strptime_HM (lunch_start (row point)) = Some ls ->
        strptime_HM (lunch_end (row point)) = Some le ->
        _adjust_time_for_schedule cursor point
        = Some (window_rule_else_if cursor ws ls le)).
Proof.
  intros H.
  specialize (H (combine 100 (7 * HOUR + 30 * MINUTE)) early_lunch_stop
                (9 * HOUR) (18 * HOUR) (7 * HOUR) (8 * HOUR)
                eq_refl eq_refl eq_refl eq_refl).
  vm_compute in H. discriminate.
Qed.

(** ** The schedule loop *)

Lemma adjust_time_total (current_time : datetime) (point : Point) :
  windows_parse (row point) ->
  exists t, _adjust_time_for_schedule current_time point = Some t.
Proof.
  intros (H1 & H2 & H3 & H4).
  destruct (strptime_HM (work_start (row point))) as [ws|] eqn:E1; [|contradiction].
  destruct (strptime_HM (work_end (row point))) as [we|] eqn:E2; [|contradiction].
  destruct (strptime_HM (lunch_start (row point))) as [ls|] eqn:E3; [|contradiction].
  destruct (strptime_HM (lunch_end (row point))) as [le|] eqn:E4; [|contradiction].
  eexists. eapply adjust_time_unfold; eassumption.
Qed.

(** The departure time is read back from the entry's text and put on the
    date of the arrival cursor. *)
Lemma calculate_next_time_entry (current_time : datetime) (point : Point)
    (route_info : RouteValue) (i j total_points : Z) (avoid_traffic : bool) :
  _calculate_next_time current_time (_create_schedule_entry i point current_time)
    route_info j total_points avoid_traffic
  = Some (combine (date_of current_time)
            (time_of (departure_of point current_time)
             - time_of (departure_of point current_time) mod MINUTE)
          + travel_time route_info j total_points avoid_traffic).
Proof.
  unfold _calculate_next_time, _create_schedule_entry. cbn [departure_time].
  now rewrite strptime_strftime.
Qed.

Lemma schedule_loop_total (points : list Point) (i total_points : Z)
    (route_info : RouteValue) (avoid_traffic : bool) (current_time : datetime) :
  Forall (fun p => windows_parse (row p)) points ->
  exists schedule,
    schedule_loop points i total_points route_info avoid_traffic current_time
    = Some schedule
    /\ List.length schedule = List.length points.
Proof.
  intros H. revert i current_time.
  induction H as [|p points Hp _ IH]; intros i current_time.
  - exists []. split; reflexivity.
  - destruct (adjust_time_total current_time p Hp) as [t Ht].
    cbn [schedule_loop]. rewrite Ht. cbn [bind].
    rewrite calculate_next_time_entry. cbn [bind].
    destruct (IH (i + 1)
                (combine (date_of t)
                   (time_of (departure_of p t) - time_of (departure_of p t) mod MINUTE)
                 + travel_time route_info i total_points avoid_traffic))
      as (schedule & Hs & Hl).
    rewrite Hs. cbn [bind]. eexists. split; [reflexivity|]. cbn. now rewrite Hl.
Qed.

Lemma schedule_loop_Forall (P : Entry -> Prop) :
  (forall i point t, P (_create_schedule_entry i point t)) ->
  forall points i total_points route_info avoid_traffic current_time schedule,
    schedule_loop points i total_points route_info avoid_traffic current_time
    = Some schedule ->
    Forall P schedule.
Proof.
  intros HP. induction points as [|p points IH]; intros i n rv av ct schedule H.
  - injection H as <-. constructor.
  - cbn [schedule_loop] in H.
    destruct (_adjust_time_for_schedule ct p) as [t|]; cbn [bind] in H; [|discriminate].
    destruct (_calculate_next_time t (_create_schedule_entry i p t) rv i n av) as [t'|];
      cbn [bind] in H; [|discriminate].
    destruct (schedule_loop points (i + 1) n rv av t') as [rest|] eqn:E;
      cbn [bind] in H; [|discriminate].
    injection H as <-. constructor; [apply HP|]. eapply IH; eassumption.
Qed.

(** ** Visit duration *)

Lemma visit_duration_cases (point : Point) :
  visit_duration point = 45 \/ visit_duration point = 30.
Proof. unfold visit_duration. destruct (String.eqb _ _); auto. Qed.

Lemma create_schedule_entry_recorded (i : Z) (point : Point) (t : datetime) :
  visit_recorded (_create_schedule_entry i point t).
Proof.
  unfold visit_recorded, _create_schedule_entry.
  cbn [duration e_client_type arrival_time departure_time].
  split; [reflexivity|].
  exists (time_of t - time_of t mod MINUTE).
  exists (time_of (departure_of point t) - time_of (departure_of point t) mod MINUTE).
  split; [apply strptime_strftime|]. split; [apply strptime_strftime|].
  unfold departure_of.
  destruct (visit_duration_cases point) as [-> | ->];
    unfold_time; Z.div_mod_to_equations; lia.
Qed.

(** C8. The departure computed for a stop is its arrival cursor plus
    exactly 45 minutes when the tier is 'VIP' and exactly 30 minutes
    otherwise; every entry of every produced schedule records that
    duration, and its arrival and departure texts lie that many minutes
    apart (on the 24-hour dial). *)
Theorem visit_duration_45_30 :
  (forall (point : Point) (t : datetime),
      departure_of point t - t
      = timedelta_minutes (if String.eqb (client_type (row point)) "VIP" then 45 else 30))
  /\ (forall self optimal_route route_info avoid_traffic schedule e,
         _create_schedule self optimal_route route_info avoid_traffic = Some schedule ->
         In e schedule ->
         visit_recorded e).
Proof.
  split.
  - intros point t. unfold departure_of, visit_duration. lia.
  - intros self route rv av schedule e H Hin.
    unfold _create_schedule in H.
    apply (schedule_loop_Forall visit_recorded create_schedule_entry_recorded) in H.
    rewrite Forall_forall in H. now apply H.
Qed.

Lemma visit_duration_45_30_witness : Forall visit_recorded late_schedule.
Proof.
  apply Forall_forall. intros e He.
  apply (proj2 visit_duration_45_30 late_optimizer
           [default_stop "A" "VIP"; default_stop "B" "Standard"] RNone true
           late_schedule e).
  - vm_compute. reflexivity.
  - exact He.
Defined.

(** ** Tier comparison *)

Lemma replace_standart_changes (tier : string) :
  replace_standart tier <> tier <-> tier = "Standart".
Proof.
  unfold replace_standart. destruct (String.eqb tier "Standart") eqn:E.
  - apply String.eqb_eq in E. subst. split; [reflexivity|discriminate].
  - apply String.eqb_neq in E. split; [intros H; now elim H|contradiction].
Qed.

(** C10. The tier is compared with the exact text 'VIP': a stop whose
    tier is any other text ('vip', 'Standart', ...) gets priority 1 from
    [_prepare_data] and a 30-minute visit from [_create_schedule_entry],
    and a 'VIP' stop gets priority 0 and 45 minutes; [replace] changes the
    text 'Standart' into 'Standard' and no other text. *)
Theorem tier_exact_match :
  (forall (df : list Row) (p : Prepared),
      In p (_prepare_data df) ->
      (client_type (p_row p) <> "VIP" -> p_priority p = 1)
      /\ (client_type (p_row p) = "VIP" -> p_priority p = 0))
  /\ (forall (i : Z) (point : Point) (t : datetime),
         (client_type (row point) <> "VIP" ->
          duration (_create_schedule_entry i point t) = 30
          /\ departure_of point t = t + timedelta_minutes 30)
         /\ (client_type (row point) = "VIP" ->
             duration (_create_schedule_entry i point t) = 45
             /\ departure_of point t = t + timedelta_minutes 45))
  /\ (forall tier : string, replace_standart tier <> tier <-> tier = "Standart")
  /\ replace_standart "Standart" = "Standard"
  /\ replace_standart "vip" = "vip".
Proof.
  split; [|split; [|split; [|split]]].
  - intros df p Hin. apply prepare_from_In in Hin. destruct Hin as [_ Hp].
    rewrite Hp. unfold is_vip. split; intros H.
    + apply String.eqb_neq in H. now rewrite H.
    + apply String.eqb_eq in H. now rewrite H.
  - intros i point t. unfold _create_schedule_entry, departure_of, visit_duration.
    cbn [duration]. split; intros H.
    + apply String.eqb_neq in H. now rewrite H.
    + apply String.eqb_eq in H. now rewrite H.
  - apply replace_standart_changes.
  - reflexivity.
  - reflexivity.
Qed.

Lemma tier_exact_match_witness :
  p_priority {| p_row := row (default_stop "A" "vip"); p_priority := 1; p_temp_index := 0 |} = 1
  /\ duration (_create_schedule_entry 0 (default_stop "A" "vip") 0) = 30
  /\ duration (_create_schedule_entry 0 (default_stop "B" "VIP") 0) = 45.
Proof.
  destruct tier_exact_match as (Hprio & Hvisit & _).
  split; [|split].
  - apply (Hprio [row (default_stop "A" "vip")] _ (or_introl eq_refl)).
    cbn. discriminate.
  - apply (Hvisit 0 (default_stop "A" "vip") 0). cbn. discriminate.
  - apply (Hvisit 0 (default_stop "B" "VIP") 0). reflexivity.
Defined.

(** ** Traffic multiplier *)

Lemma multiplier_of_cases (level : string) :
  (multiplier_of level = 1 \/ multiplier_of level = 13 # 10
   \/ multiplier_of level = 18 # 10 \/ multiplier_of level = 25 # 10)%Q.
Proof.
  unfold multiplier_of, TRAFFIC_LEVELS, dict_get.
  destruct (String.eqb level "low"); [now left|].
  destruct (String.eqb level "medium"); [now right; left|].
  destruct (String.eqb level "high"); [now right; right; left|].
  destruct (String.eqb level "very_high"); [now right; right; right|now left].
Qed.

(** On every multiplier of the table, truncation and rounding of the
    percentage agree. *)
Lemma impact_int_is_round (level : string) :
  py_int ((multiplier_of level - 1) * 100)%Q
  = round_half_even ((multiplier_of level - 1) * 100)%Q.
Proof.
  destruct (multiplier_of_cases level) as [-> | [-> | [-> | ->]]]; reflexivity.
Qed.

(** C6. With [avoid_traffic] set and a traffic dict returned, the route
    dict holds the nominal duration times the multiplier of the reported
    level ([low] 1.0, [medium] 1.3, [high] 1.8, [very_high] 2.5, any
    other level 1.0), keeps the nominal duration as
    [original_duration_min], and reports the impact
    ["+" round((multiplier - 1) * 100) "%"].  A nominal duration of 20
    minutes at level [high] becomes 36 minutes with impact "+80%". *)
Theorem parse_route_data_traffic :
  (forall (route : OsrmRoute) (coordinates : list coord) (td : TrafficData),
      let ri := _parse_route_data route coordinates (Some td) true in
      let multiplier := multiplier_of (traffic_level td) in
      duration_min ri = (r_duration route / 60 * multiplier)%Q
      /\ original_duration_min ri = Some (r_duration route / 60)%Q
      /\ traffic_impact ri
         = Some ("+" ++ str_of_Z (round_half_even ((multiplier - 1) * 100)%Q) ++ "%")
      /\ traffic_data ri = Some td)
  /\ (multiplier_of "low" = 1 /\ multiplier_of "medium" = 13 # 10
      /\ multiplier_of "high" = 18 # 10 /\ multiplier_of "very_high" = 25 # 10
      /\ multiplier_of "unknown" = 1)%Q
  /\ (forall (dist : Q) (geom : string) (coordinates : list coord) (ratio : option Q),
         let ri := _parse_route_data
                     {| distance := dist; r_duration := (20 * 60)%Q; r_geometry := geom |}
                     coordinates
                     (Some {| traffic_level := "high"; congestion_ratio := ratio |}) true in
         (original_duration_min ri = Some (20 * 60 / 60)%Q /\ 20 * 60 / 60 == 20)%Q
         /\ (duration_min ri == 36)%Q
         /\ traffic_impact ri = Some "+80%").
Proof.
  split; [|split].
  - intros route coordinates td. cbn.
    rewrite impact_int_is_round. repeat split.
  - repeat split.
  - intros dist geom coordinates ratio. cbn. repeat split.
Qed.


(** In binary64 the percentage printed for every level is the one of the
    exact model, and 1200 seconds at level 'high' are exactly 36 minutes. *)
Lemma binary64_impact_percent (level : string) :
  Binary64.impact_percent level
  = Some (py_int ((multiplier_of level - 1) * 100)%Q).
Proof.
  unfold Binary64.impact_percent, Binary64.multiplier, multiplier_of,
    Binary64.TRAFFIC_LEVELS, TRAFFIC_LEVELS, dict_get.
  destruct (String.eqb level "low"); [reflexivity|].
  destruct (String.eqb level "medium"); [reflexivity|].
  destruct (String.eqb level "high"); [reflexivity|].
  destruct (String.eqb level "very_high"); reflexivity.
Qed.

Lemma binary64_twenty_minutes_high :
  Binary64.twenty_minutes_high = Binary64.thirty_six.
Proof. reflexivity. Qed.

Lemma binary64_short_hop_floored :
  Binary64.floored_at_five Binary64.short_hop_segment = true.
Proof. reflexivity. Qed.

(** ** Empty selection and provider calls *)

Lemma route_waypoints_length (optimal_route : list Point) (user_location : option coord) :
  (List.length optimal_route <= List.length (route_waypoints optimal_route user_location))%nat.
Proof.
  unfold route_waypoints. rewrite length_app, length_map. lia.
Qed.

(** C7. On the empty selection [optimize_with_timing] returns the empty
    route, the empty schedule and the empty route dict, and causes no
    provider event; on a selection of two or more stops the OSRM request
    for the route's waypoints is among the events. *)
Theorem optimize_empty_selection :
  (forall self w user_location avoid_traffic,
      optimize_with_timing self w [] user_location avoid_traffic
      = ([], Some ([], [], REmpty)))
  /\ (forall self w r1 r2 df user_location avoid_traffic,
         In (OsrmCall (route_waypoints (_sort_route (_prepare_data (r1 :: r2 :: df)))
                         user_location))
            (fst (optimize_with_timing self w (r1 :: r2 :: df) user_location
                    avoid_traffic))).
Proof.
  split; [reflexivity|].
  intros self w r1 r2 df loc av.
  cbn [optimize_with_timing fst]. unfold _get_route_info.
  pose proof (route_waypoints_length (_sort_route (_prepare_data (r1 :: r2 :: df))) loc) as Hl.
  rewrite sort_route_length in Hl. cbn [List.length] in Hl.
  set (wp := route_waypoints _ _) in *.
  destruct (1 <? Z.of_nat (List.length wp)) eqn:E1; [|apply Z.ltb_ge in E1; lia].
  cbn [fst]. unfold get_route.
  destruct (Z.of_nat (List.length wp) <? 2) eqn:E2; [apply Z.ltb_lt in E2; lia|].
  cbn [fst]. apply in_or_app. right. now left.
Qed.

(** ** Dependence on the provider *)

(** C9. The result of [optimize_with_timing] (events, route, schedule and
    route dict) is a function of the optimizer's clock, the selection,
    the start location, the traffic flag and the two answers the outside
    world gives for the route's waypoints: two worlds that answer alike
    there give the same result. *)
Theorem optimize_deterministic :
  forall (self : RouteOptimizer) (w1 w2 : World) (selected_df : list Row)
         (user_location : option coord) (avoid_traffic : bool),
    let waypoints :=
      route_waypoints (_sort_route (_prepare_data selected_df)) user_location in
    get_traffic_data w1 waypoints = get_traffic_data w2 waypoints ->
    requests_get w1 waypoints = requests_get w2 waypoints ->
    optimize_with_timing self w1 selected_df user_location avoid_traffic
    = optimize_with_timing self w2 selected_df user_location avoid_traffic.
Proof.
  intros self w1 w2 df loc av waypoints Ht Hr.
  destruct df as [|r df]; [reflexivity|].
  unfold optimize_with_timing, _get_route_info, get_route.
  fold waypoints. now rewrite Ht, Hr.
Qed.

Lemma optimize_deterministic_witness :
  optimize_with_timing late_optimizer offline_world
    [row (default_stop "A" "VIP"); row (default_stop "B" "Standard")] None true
  = optimize_with_timing late_optimizer other_world
      [row (default_stop "A" "VIP"); row (default_stop "B" "Standard")] None true.
Proof.
  apply (optimize_deterministic late_optimizer offline_world other_world
           [row (default_stop "A" "VIP"); row (default_stop "B" "Standard")] None true);
    reflexivity.
Defined.

(** ** Travel to the next stop *)

Lemma calculate_next_time_recorded (current_time : datetime) (point : Point)
    (route_info : RouteValue) (i j total_points : Z) (avoid_traffic : bool) :
  _calculate_next_time current_time (_create_schedule_entry i point current_time)
    route_info j total_points avoid_traffic
  = Some (recorded_departure point current_time
          + travel_time route_info j total_points avoid_traffic).
Proof. apply calculate_next_time_entry. Qed.


Lemma schedule_loop_step (point : Point) (points : list Point) (i total_points : Z)
    (route_info : RouteValue) (avoid_traffic : bool) (current_time : datetime) :
  schedule_loop (point :: points) i total_points route_info avoid_traffic current_time
  = (t <- _adjust_time_for_schedule current_time point ;;
     schedule <- schedule_loop points (i + 1) total_points route_info avoid_traffic
                   (recorded_departure point t
                    + travel_time route_info i total_points avoid_traffic) ;;
     Some (_create_schedule_entry i point t :: schedule)).
Proof.
  cbn [schedule_loop].
  destruct (_adjust_time_for_schedule current_time point) as [t|]; [|reflexivity].
  cbn [bind]. now rewrite calculate_next_time_recorded.
Qed.




(** ** Provider failure *)

Lemma get_route_unavailable (w : World) (coordinates : list coord) (avoid_traffic : bool) :
  provider_unavailable (requests_get w coordinates) ->
  snd (get_route w coordinates avoid_traffic) = None.
Proof.
  unfold provider_unavailable, get_route. intros H.
  destruct (Z.of_nat (List.length coordinates) <? 2); [reflexivity|]. cbn [snd].
  destruct (requests_get w coordinates) as [response|]; [|reflexivity]. cbn [bind].
  destruct (status_code response =? 200) eqn:Es; [|reflexivity].
  apply Z.eqb_eq in Es. destruct H as [H|H]; [contradiction|].
  destruct (json response) as [data|]; [|reflexivity]. cbn [bind].
  destruct (String.eqb (code data) "Ok") eqn:Ec; [|reflexivity].
  apply String.eqb_eq in Ec. destruct H as [H|H]; [contradiction|].
  now rewrite H.
Qed.

Lemma travel_time_fallback (route_info : RouteValue) (i total_points : Z)
    (avoid_traffic : bool) :
  truthy route_info = false ->
  travel_time route_info i total_points avoid_traffic = timedelta_minutes 15.
Proof. destruct route_info; [reflexivity|reflexivity|discriminate]. Qed.

Lemma sort_route_windows_parse (df : list Row) :
  Forall windows_parse df ->
  Forall (fun p => windows_parse (row p)) (_sort_route (_prepare_data df)).
Proof.
  intros H. rewrite sort_route_partition.
  rewrite Forall_forall in *. intros p Hp.
  apply in_map_iff in Hp. destruct Hp as (r & <- & Hr). cbn [as_point row].
  apply H. apply in_app_or in Hr. destruct Hr as [Hr|Hr]; apply filter_In in Hr; tauto.
Qed.

Lemma schedule_loop_fallback_flag (points : list Point) (i total_points : Z)
    (route_info : RouteValue) (a1 a2 : bool) (current_time : datetime) :
  truthy route_info = false ->
  schedule_loop points i total_points route_info a1 current_time
  = schedule_loop points i total_points route_info a2 current_time.
Proof.
  intros Htr. revert i current_time.
  induction points as [|p points IH]; intros i ct; [reflexivity|].
  rewrite !schedule_loop_step, !travel_time_fallback by exact Htr.
  destruct (_adjust_time_for_schedule ct p) as [t|]; [|reflexivity].
  cbn [bind]. now rewrite IH.
Qed.

(** C5. When the provider gives no route for a non-empty selection
    whose window texts parse, [optimize_with_timing] returns without
    raising: the sorted route, a schedule with one entry per stop, and a
    route value that is [None] (or the empty dict when there are fewer
    than two waypoints and the provider is not asked).  With such a route
    value every leg takes 15 minutes whatever the traffic flag, and the
    loop continues from the departure time plus 15 minutes. *)
Theorem provider_failure_fallback :
  (forall self w selected_df user_location avoid_traffic,
      selected_df <> [] ->
      Forall windows_parse selected_df ->
      provider_unavailable
        (requests_get w
           (route_waypoints (_sort_route (_prepare_data selected_df)) user_location)) ->
      exists schedule route_info,
        snd (optimize_with_timing self w selected_df user_location avoid_traffic)
        = Some (_sort_route (_prepare_data selected_df), schedule, route_info)
        /\ List.length schedule = List.length selected_df
        /\ truthy route_info = false
        /\ ((1 <? Z.of_nat (List.length
                              (route_waypoints (_sort_route (_prepare_data selected_df))
                                 user_location))) = true ->
            route_info = RNone)
        /\ _create_schedule self (_sort_route (_prepare_data selected_df)) route_info
             (negb avoid_traffic) = Some schedule)
  /\ (forall route_info i total_points avoid_traffic,
         truthy route_info = false ->
         travel_time route_info i total_points avoid_traffic = timedelta_minutes 15)
  /\ (forall point points i total_points route_info avoid_traffic current_time,
         truthy route_info = false ->
         schedule_loop (point :: points) i total_points route_info avoid_traffic current_time
         = (t <- _adjust_time_for_schedule current_time point ;;
            schedule <- schedule_loop points (i + 1) total_points route_info avoid_traffic
                          (recorded_departure point t + timedelta_minutes 15) ;;
            Some (_create_schedule_entry i point t :: schedule))).
Proof.
  split; [|split].
  - intros self w df loc av Hne Hparse Hun.
    destruct df as [|r df]; [contradiction|].
    set (route := _sort_route (_prepare_data (r :: df))) in *.
    assert (Hrv : exists rv,
               snd (_get_route_info w route loc av) = rv /\ truthy rv = false
               /\ ((1 <? Z.of_nat (List.length (route_waypoints route loc))) = true ->
                   rv = RNone)).
    { unfold _get_route_info.
      destruct (1 <? Z.of_nat (List.length (route_waypoints route loc))).
      - cbn [snd]. rewrite get_route_unavailable by exact Hun.
        exists RNone. repeat split.
      - exists REmpty. repeat split. discriminate. }
    destruct Hrv as (rv & Hrv & Htr & Hnone).
    destruct (schedule_loop_total route 0 (Z.of_nat (List.length route)) rv av
                (current_time self) (sort_route_windows_parse _ Hparse))
      as (schedule & Hs & Hl).
    exists schedule, rv.
    cbn [optimize_with_timing snd]. fold route. rewrite Hrv.
    unfold _create_schedule. rewrite Hs. cbn [bind].
    split; [reflexivity|]. split.
    { rewrite Hl. apply sort_route_length. }
    split; [exact Htr|]. split; [exact Hnone|].
    rewrite <- Hs. now apply schedule_loop_fallback_flag.
  - apply travel_time_fallback.
  - intros point points i n rv av ct Htr.
    now rewrite schedule_loop_step, travel_time_fallback.
Qed.

Lemma provider_failure_fallback_witness :
  exists schedule route_info,
    snd (optimize_with_timing late_optimizer offline_world
           [row (default_stop "A" "VIP"); row (default_stop "B" "Standard")] None true)
    = Some (_sort_route
              (_prepare_data [row (default_stop "A" "VIP"); row (default_stop "B" "Standard")]),
            schedule, route_info)
    /\ List.length schedule = 2%nat
    /\ truthy route_info = false.
Proof.
  destruct (proj1 provider_failure_fallback late_optimizer offline_world
              [row (default_stop "A" "VIP"); row (default_stop "B" "Standard")] None true)
    as (schedule & rv & H & Hl & Htr & _).
  - discriminate.
  - repeat constructor; vm_compute; discriminate.
  - exact I.
  - exists schedule, rv. repeat split; assumption.
Defined.

(** ** The time cursor *)

Lemma adjust_time_forward (current_time t : datetime) (point : Point) :
  _adjust_time_for_schedule current_time point = Some t -> current_time <= t.
Proof.
  intros H.
  destruct (strptime_HM (work_start (row point))) as [ws|] eqn:E1;
    [|unfold _adjust_time_for_schedule in H; rewrite E1 in H; discriminate].
  destruct (strptime_HM (work_end (row point))) as [we|] eqn:E2;
    [|unfold _adjust_time_for_schedule in H; rewrite E1, E2 in H; discriminate].
  destruct (strptime_HM (lunch_start (row point))) as [ls|] eqn:E3;
    [|unfold _adjust_time_for_schedule in H; rewrite E1, E2, E3 in H; discriminate].
  destruct (strptime_HM (lunch_end (row point))) as [le|] eqn:E4;
    [|unfold _adjust_time_for_schedule in H; rewrite E1, E2, E3, E4 in H; discriminate].
  rewrite (adjust_time_unfold _ _ ws we ls le E1 E2 E3 E4) in H.
  injection H as <-. unfold window_rule.
  pose proof (combine_date_time current_time) as Hc.
  destruct ((ls <=? time_of current_time) && (time_of current_time <=? le)) eqn:El.
  - apply andb_prop in El. destruct El as [_ El]. apply Z.leb_le in El.
    unfold combine in *. lia.
  - destruct (time_of current_time <? ws) eqn:Ew; [|lia].
    apply Z.ltb_lt in Ew. unfold combine in *. lia.
Qed.

Lemma minute_floor_mono (a b : Z) : a <= b -> minute_floor a <= minute_floor b.
Proof. unfold minute_floor, MINUTE. intros H. Z.div_mod_to_equations. lia. Qed.

Lemma minute_floor_aligned (a b : Z) :
  a mod MINUTE = 0 -> a <= b -> a <= minute_floor b.
Proof. unfold minute_floor, MINUTE. intros Ha H. Z.div_mod_to_equations. lia. Qed.

Lemma entry_arrival_created (i : Z) (point : Point) (t : datetime) :
  entry_arrival (_create_schedule_entry i point t) = Some (minute_floor t).
Proof.
  unfold entry_arrival, _create_schedule_entry. cbn [arrival_time date].
  rewrite strptime_strftime. cbn [bind]. f_equal.
  unfold minute_floor. unfold_time. Z.div_mod_to_equations. lia.
Qed.

Lemma entry_departure_created (i : Z) (point : Point) (t : datetime) :
  entry_departure (_create_schedule_entry i point t)
  = Some (minute_floor t + timedelta_minutes (visit_duration point)).
Proof.
  unfold entry_departure. rewrite entry_arrival_created. reflexivity.
Qed.

Lemma time_of_mod_minute (x : Z) : time_of x mod MINUTE = x mod MINUTE.
Proof.
  unfold time_of. apply Z.mod_mod_divide. exists 1440. reflexivity.
Qed.

Lemma add_minutes_mod_minute (x n : Z) : (x + timedelta_minutes n) mod MINUTE = x mod MINUTE.
Proof. unfold timedelta_minutes. apply Z.mod_add. discriminate. Qed.

(** When the visit ends before midnight the departure time read back
    from the entry is the one the entry stands for. *)
Lemma recorded_departure_no_wrap (i : Z) (point : Point) (t : datetime) :
  same_day_visit (_create_schedule_entry i point t) ->
  recorded_departure point t = minute_floor t + timedelta_minutes (visit_duration point).
Proof.
  intros (a & d & Ha & Hd & Hle).
  unfold _create_schedule_entry in Ha, Hd. cbn [arrival_time departure_time] in Ha, Hd.
  rewrite strptime_strftime in Ha, Hd.
  injection Ha as <-. injection Hd as <-.
  unfold recorded_departure, minute_floor, departure_of in *.
  rewrite !time_of_mod_minute, !add_minutes_mod_minute in *.
  set (m := t mod MINUTE) in *. clearbody m.
  destruct (visit_duration_cases point) as [Hv | Hv]; rewrite Hv in *;
    unfold_time; Z.div_mod_to_equations; lia.
Qed.

Lemma round_half_even_ge_floor (q : Q) : Qfloor q <= round_half_even q.
Proof.
  unfold round_half_even.
  destruct (Qcompare (q - inject_Z (Qfloor q)) (1 # 2)); [|lia|lia].
  destruct (Z.even (Qfloor q)); lia.
Qed.

Lemma timedelta_minutes_float_ge (x : Q) :
  (5 <= x)%Q -> 5 * MINUTE <= timedelta_minutes_float x.
Proof.
  intros H. unfold timedelta_minutes_float.
  eapply Z.le_trans; [|apply round_half_even_ge_floor].
  rewrite <- (Qfloor_Z (5 * MINUTE)). apply Qfloor_resp_le.
  rewrite inject_Z_mult. apply Qmult_le_compat_r; [exact H|].
  unfold MINUTE. discriminate.
Qed.

(** Every travel step takes at least five minutes. *)
Lemma travel_time_ge (route_info : RouteValue) (i total_points : Z) (avoid_traffic : bool) :
  5 * MINUTE <= travel_time route_info i total_points avoid_traffic.
Proof.
  unfold travel_time.
  assert (H15 : 5 * MINUTE <= timedelta_minutes 15)
    by (unfold timedelta_minutes, MINUTE; lia).
  destruct route_info as [| |ri]; try exact H15.
  destruct (i <? total_points - 1); [|exact H15].
  apply timedelta_minutes_float_ge. apply Q.le_max_r.
Qed.

Lemma schedule_loop_monotone (points : list Point) :
  forall i total_points route_info avoid_traffic current_time schedule,
    schedule_loop points i total_points route_info avoid_traffic current_time
    = Some schedule ->
    Forall same_day_visit schedule ->
    schedule_monotone schedule
    /\ (forall e rest, schedule = e :: rest ->
        exists a, entry_arrival e = Some a /\ minute_floor current_time <= a).
Proof.
  induction points as [|p points IH]; intros i n rv av ct schedule H Hday.
  - injection H as <-. split; [exact I|discriminate].
  - rewrite schedule_loop_step in H.
    destruct (_adjust_time_for_schedule ct p) as [t|] eqn:Et; cbn [bind] in H;
      [|discriminate].
    destruct (schedule_loop points (i + 1) n rv av
                (recorded_departure p t + travel_time rv i n av)) as [rest|] eqn:Er;
      cbn [bind] in H; [|discriminate].
    injection H as <-.
    apply adjust_time_forward in Et.
    inversion Hday as [|e0 l0 Hday_e Hday_rest]; subst.
    destruct (IH _ _ _ _ _ _ Er Hday_rest) as [Hmono Hhead].
    split.
    + cbn [schedule_monotone]. destruct rest as [|e2 rest']; [exact I|].
      split; [|exact Hmono].
      destruct (Hhead e2 rest' eq_refl) as (a & Ha & Hle).
      exists (minute_floor t + timedelta_minutes (visit_duration p)), a.
      split; [apply entry_departure_created|]. split; [exact Ha|].
      rewrite (recorded_departure_no_wrap i p t Hday_e) in Hle.
      eapply Z.le_trans; [|exact Hle].
      apply minute_floor_aligned.
      * unfold minute_floor. rewrite add_minutes_mod_minute.
        unfold MINUTE. Z.div_mod_to_equations. lia.
      * pose proof (travel_time_ge rv i n av). unfold MINUTE in *. lia.
    + intros e rest0 Heq. injection Heq as <- <-.
      exists (minute_floor t). split; [apply entry_arrival_created|].
      now apply minute_floor_mono.
Qed.

(** Provided no visit runs over midnight, every arrival of a produced
    schedule is at or after the departure of the entry before. *)
Lemma create_schedule_monotone_same_day self optimal_route route_info avoid_traffic
    schedule :
  _create_schedule self optimal_route route_info avoid_traffic = Some schedule ->
  Forall same_day_visit schedule ->
  schedule_monotone schedule.
Proof.
  intros H Hday. unfold _create_schedule in H.
  now destruct (schedule_loop_monotone _ _ _ _ _ _ _ H Hday).
Qed.

(** C1, failing run.  Started at 23:40 with a VIP stop and a Standard
    stop and no route from the provider, the first visit ends at 00:25 of
    the next day, yet the second entry arrives at 09:00 of the starting
    day, before the first arrival and the first departure: the departure
    time is read back from its ['%H:%M'] text and put on the date of the
    arrival, so the cursor falls back by a day. *)
Theorem schedule_falls_back_at_midnight :
  snd (optimize_with_timing late_optimizer offline_world
         [row (default_stop "A" "VIP"); row (default_stop "B" "Standard")] None true)
  = Some ([default_stop "A" "VIP"; default_stop "B" "Standard"], late_schedule, RNone)
  /\ (exists e1 e2 a1 d1 a2,
         late_schedule = [e1; e2]
         /\ entry_arrival e1 = Some a1 /\ a1 = combine 100 (23 * HOUR + 40 * MINUTE)
         /\ entry_departure e1 = Some d1 /\ d1 = combine 101 (25 * MINUTE)
         /\ entry_arrival e2 = Some a2 /\ a2 = combine 100 (9 * HOUR)
         /\ a2 < a1 < d1)
  /\ ~ schedule_monotone late_schedule.
Proof.
  split; [vm_compute; reflexivity|]. split.
  - do 5 eexists. split; [reflexivity|].
    repeat (split; [reflexivity|]). vm_compute. split; reflexivity.
  - cbn [late_schedule schedule_monotone]. intros [(d & a & Hd & Ha & Hle) _].
    vm_compute in Hd, Ha. injection Hd as <-. injection Ha as <-. lia.
Qed.

(** * Further properties of the scheduler *)

Lemma adjust_time_raises (current_time : datetime) (point : Point) :
  ~ windows_parse (row point) -> _adjust_time_for_schedule current_time point = None.
Proof.
  unfold windows_parse, _adjust_time_for_schedule. intros H.
  destruct (strptime_HM (work_start (row point))); [|reflexivity].
  destruct (strptime_HM (work_end (row point))); [|reflexivity].
  destruct (strptime_HM (lunch_start (row point))); [|reflexivity].
  destruct (strptime_HM (lunch_end (row point))); [|reflexivity].
  exfalso. apply H. repeat split; discriminate.
Qed.

Lemma schedule_loop_raises (points : list Point) (p : Point) :
  In p points -> ~ windows_parse (row p) ->
  forall i total_points route_info avoid_traffic current_time,
    schedule_loop points i total_points route_info avoid_traffic current_time = None.
Proof.
  intros Hin Hbad. induction points as [|q points IH]; [contradiction|].
  intros i n rv av ct. rewrite schedule_loop_step.
  destruct Hin as [->|Hin].
  - now rewrite adjust_time_raises.
  - destruct (_adjust_time_for_schedule ct q) as [t|]; [|reflexivity].
    cbn [bind]. now rewrite (IH Hin).
Qed.

(** X1. [_create_schedule] is all or nothing: it returns one entry per
    stop when the four window texts of every stop parse, and raises
    (leaving no partial schedule) as soon as one text of one stop, at any
    position of the route, does not. *)
Theorem create_schedule_all_or_nothing :
  forall self optimal_route route_info avoid_traffic,
    (Forall (fun p => windows_parse (row p)) optimal_route ->
     exists schedule,
       _create_schedule self optimal_route route_info avoid_traffic = Some schedule
       /\ List.length schedule = List.length optimal_route)
    /\ (forall p, In p optimal_route -> ~ windows_parse (row p) ->
        _create_schedule self optimal_route route_info avoid_traffic = None).
Proof.
  intros self route rv av. split.
  - intros H. now apply schedule_loop_total.
  - intros p Hin Hbad. unfold _create_schedule. now apply schedule_loop_raises with p.
Qed.

Lemma create_schedule_all_or_nothing_witness :
  (exists schedule,
      _create_schedule morning_optimizer
        [default_stop "A" "VIP"; default_stop "B" "Standard"] RNone true = Some schedule
      /\ List.length schedule = 2%nat)
  /\ _create_schedule morning_optimizer
       [default_stop "A" "VIP"; default_stop "B" "Standard"; malformed_stop] RNone true
     = None.
Proof.
  split.
  - apply (proj1 (create_schedule_all_or_nothing morning_optimizer
                    [default_stop "A" "VIP"; default_stop "B" "Standard"] RNone true)).
    repeat constructor; vm_compute; discriminate.
  - apply (proj2 (create_schedule_all_or_nothing morning_optimizer
                    [default_stop "A" "VIP"; default_stop "B" "Standard"; malformed_stop]
                    RNone true) malformed_stop).
    + right. right. left. reflexivity.
    + intros (_ & _ & H & _). apply H. vm_compute. reflexivity.
Defined.

Lemma schedule_loop_Forall2 (P : Point -> Entry -> Prop) :
  (forall i current_time t p,
      _adjust_time_for_schedule current_time p = Some t ->
      P p (_create_schedule_entry i p t)) ->
  forall points i total_points route_info avoid_traffic current_time schedule,
    schedule_loop points i total_points route_info avoid_traffic current_time
    = Some schedule ->
    Forall2 P points schedule.
Proof.
  intros HP. induction points as [|p points IH]; intros i n rv av ct schedule H.
  - injection H as <-. constructor.
  - rewrite schedule_loop_step in H.
    destruct (_adjust_time_for_schedule ct p) as [t|] eqn:Et; cbn [bind] in H;
      [|discriminate].
    destruct (schedule_loop points (i + 1) n rv av
                (recorded_departure p t + travel_time rv i n av)) as [rest|] eqn:Er;
      cbn [bind] in H; [|discriminate].
    injection H as <-. constructor; [now apply HP with ct|]. eapply IH; eassumption.
Qed.

(** X2. In every produced schedule in which no visit runs over
    midnight (each departure text is not earlier in the day than its
    arrival text), every arrival is at or after the departure of the
    entry before it. *)
Theorem schedule_monotone_within_day :
  forall self optimal_route route_info avoid_traffic schedule,
    _create_schedule self optimal_route route_info avoid_traffic = Some schedule ->
    Forall same_day_visit schedule ->
    schedule_monotone schedule.
Proof.
  intros self route rv av schedule H Hday. unfold _create_schedule in H.
  now destruct (schedule_loop_monotone _ _ _ _ _ _ _ H Hday).
Qed.

Lemma schedule_monotone_within_day_witness : schedule_monotone morning_schedule.
Proof.
  apply (schedule_monotone_within_day morning_optimizer
           [default_stop "A" "VIP"; default_stop "B" "Standard"] RNone true).
  - vm_compute. reflexivity.
  - repeat constructor.
    + exists (10 * HOUR), (10 * HOUR + 45 * MINUTE).
      repeat split; vm_compute; congruence.
    + exists (11 * HOUR), (11 * HOUR + 30 * MINUTE).
      repeat split; vm_compute; congruence.
Defined.

Lemma schedule_loop_positions (points : list Point) :
  forall i total_points route_info avoid_traffic current_time schedule,
    schedule_loop points i total_points route_info avoid_traffic current_time
    = Some schedule ->
    forall k e, nth_error schedule k = Some e ->
    exists p, nth_error points k = Some p
              /\ order e = i + Z.of_nat k + 1
              /\ e_address e = address (row p)
              /\ e_client_type e = client_type (row p)
              /\ duration e = visit_duration p
              /\ work_time e = work_start (row p) ++ "-" ++ work_end (row p)
              /\ lunch_time e = lunch_start (row p) ++ "-" ++ lunch_end (row p).
Proof.
  induction points as [|p points IH]; intros i n rv av ct schedule H k e Hk.
  - injection H as <-. destruct k; discriminate.
  - rewrite schedule_loop_step in H.
    destruct (_adjust_time_for_schedule ct p) as [t|]; cbn [bind] in H; [|discriminate].
    destruct (schedule_loop points (i + 1) n rv av
                (recorded_departure p t + travel_time rv i n av)) as [rest|] eqn:Er;
      cbn [bind] in H; [|discriminate].
    injection H as <-. destruct k as [|k].
    + injection Hk as <-. exists p. cbn. repeat split. lia.
    + cbn [nth_error] in Hk.
      destruct (IH _ _ _ _ _ _ Er k e Hk) as (q & Hq & Ho & Hrest).
      exists q. split; [exact Hq|]. split; [lia|exact Hrest].
Qed.

(** X3. The schedule follows the route: its [k]-th entry (from 0) has
    ['order'] [k + 1] and carries the address, tier, visit duration and
    window texts of the [k]-th stop of the route. *)
Theorem schedule_follows_route :
  forall self optimal_route route_info avoid_traffic schedule,
    _create_schedule self optimal_route route_info avoid_traffic = Some schedule ->
    forall k e, nth_error schedule k = Some e ->
    exists p, nth_error optimal_route k = Some p /\ entry_of_stop k p e.
Proof.
  intros self route rv av schedule H k e Hk. unfold _create_schedule in H.
  destruct (schedule_loop_positions _ _ _ _ _ _ _ H k e Hk) as (p & Hp & Ho & Hrest).
  exists p. split; [exact Hp|]. split; [lia|exact Hrest].
Qed.

Lemma schedule_follows_route_witness :
  exists p, nth_error [default_stop "A" "VIP"; default_stop "B" "Standard"] 1 = Some p
            /\ entry_of_stop 1 p
                 {| order := 2; e_address := "B"; arrival_time := "11:00";
                    departure_time := "11:30"; date := 100; e_client_type := "Standard";
                    duration := 30; work_time := "09:00-18:00";
                    lunch_time := "13:00-14:00" |}.
Proof.
  apply (schedule_follows_route morning_optimizer
           [default_stop "A" "VIP"; default_stop "B" "Standard"] RNone true
           morning_schedule).
  - vm_compute. reflexivity.
  - reflexivity.
Defined.

Lemma adjust_time_in_window (current_time t : datetime) (point : Point) (ws ls le : time) :
  _adjust_time_for_schedule current_time point = Some t ->
  strptime_HM (work_start (row point)) = Some ws ->
  strptime_HM (lunch_start (row point)) = Some ls ->
  strptime_HM (lunch_end (row point)) = Some le ->
  ws < ls \/ le <= ws ->
  ws <= time_of t /\ (time_of t < ls \/ le <= time_of t).
Proof.
  intros H Hws Hls Hle Hok.
  destruct (strptime_HM (work_end (row point))) as [we|] eqn:Hwe;
    [|unfold _adjust_time_for_schedule in H; rewrite Hws, Hwe in H; discriminate].
  rewrite (adjust_time_unfold _ _ ws we ls le Hws Hwe Hls Hle) in H.
  injection H as <-. unfold window_rule.
  apply strptime_HM_range in Hws, Hle. destruct Hws as [Hws _], Hle as [Hle _].
  destruct ((ls <=? time_of current_time) && (time_of current_time <=? le)) eqn:El.
  - rewrite time_of_combine by lia. lia.
  - apply andb_false_iff in El.
    destruct (time_of current_time <? ws) eqn:Ew.
    + rewrite time_of_combine by lia. lia.
    + apply Z.ltb_ge in Ew. split; [exact Ew|].
      destruct El as [El|El]; [apply Z.leb_gt in El|apply Z.leb_gt in El]; lia.
Qed.

(** X4. Unless a stop's work start lies inside its lunch break, the
    arrival text of its entry is never before the work start and never
    inside the lunch break [lunch_start, lunch_end). *)
Theorem arrival_respects_windows :
  forall self optimal_route route_info avoid_traffic schedule,
    _create_schedule self optimal_route route_info avoid_traffic = Some schedule ->
    Forall2 arrival_in_window optimal_route schedule.
Proof.
  intros self route rv av schedule H. unfold _create_schedule in H.
  apply (schedule_loop_Forall2 arrival_in_window) in H; [exact H|].
  intros i ct t p Ht ws ls le Hws Hls Hle Hok.
  destruct (adjust_time_in_window ct t p ws ls le Ht Hws Hls Hle Hok) as [H1 H2].
  exists (time_of t - time_of t mod MINUTE).
  unfold _create_schedule_entry. cbn [arrival_time].
  split; [apply strptime_strftime|].
  apply strptime_HM_range in Hws, Hle. destruct Hws as [_ Hws], Hle as [_ Hle].
  pose proof (time_of_range t) as Hr.
  unfold MINUTE, DAY, HOUR in *. Z.div_mod_to_equations. lia.
Qed.

Lemma arrival_respects_windows_witness :
  Forall2 arrival_in_window [default_stop "A" "VIP"; default_stop "B" "Standard"]
    morning_schedule.
Proof.
  apply (arrival_respects_windows morning_optimizer
           [default_stop "A" "VIP"; default_stop "B" "Standard"] RNone true).
  vm_compute. reflexivity.
Defined.

Lemma filter_split_permutation {A : Type} (f : A -> bool) (l : list A) :
  Permutation (filter f l ++ filter (fun x => negb (f x)) l) l.
Proof.
  induction l as [|x l IH]; [constructor|].
  cbn [filter]. destruct (f x); cbn [negb app].
  - now constructor.
  - rewrite <- Permutation_middle. now constructor.
Qed.

Lemma map_row_as_point (l : list Row) : map row (map as_point l) = l.
Proof. induction l as [|r l IH]; [reflexivity|]. cbn. now rewrite IH. Qed.

Lemma schedule_loop_length (points : list Point) :
  forall i total_points route_info avoid_traffic current_time schedule,
    schedule_loop points i total_points route_info avoid_traffic current_time
    = Some schedule ->
    List.length schedule = List.length points.
Proof.
  intros i n rv av ct schedule H.
  apply (schedule_loop_Forall2 (fun _ _ => True)) in H; [|trivial].
  symmetry. eapply Forall2_length. exact H.
Qed.

(** X5. No stop is lost or duplicated: whenever [optimize_with_timing]
    returns, the rows of the route are a rearrangement of the selected
    rows, each with priority 0 or 1 according to its tier, and the
    schedule has one entry per selected row. *)
Theorem optimize_keeps_every_stop :
  forall self w selected_df user_location avoid_traffic optimal_route schedule route_info,
    snd (optimize_with_timing self w selected_df user_location avoid_traffic)
    = Some (optimal_route, schedule, route_info) ->
    Permutation (map row optimal_route) selected_df
    /\ List.length schedule = List.length selected_df
    /\ Forall (fun p => priority p = if is_vip (row p) then 0 else 1) optimal_route.
Proof.
  intros self w df loc av route schedule rv H.
  destruct df as [|r df].
  - cbn in H. injection H as <- <- <-. repeat split; constructor.
  - cbn [optimize_with_timing snd] in H.
    destruct (_create_schedule self (_sort_route (_prepare_data (r :: df)))
                (snd (_get_route_info w (_sort_route (_prepare_data (r :: df))) loc av)) av)
      as [s|] eqn:Es; cbn [bind] in H; [|discriminate].
    injection H as <- <- <-. split; [|split].
    + rewrite sort_route_partition, map_row_as_point. apply filter_split_permutation.
    + unfold _create_schedule in Es. apply schedule_loop_length in Es.
      now rewrite Es, sort_route_length.
    + rewrite sort_route_partition. apply Forall_forall. intros p Hp.
      apply in_map_iff in Hp. destruct Hp as (q & <- & _). reflexivity.
Qed.

Lemma optimize_keeps_every_stop_witness :
  Permutation
    (map row [default_stop "A" "VIP"; default_stop "B" "Standard"])
    [row (default_stop "B" "Standard"); row (default_stop "A" "VIP")].
Proof.
  apply (optimize_keeps_every_stop morning_optimizer offline_world
           [row (default_stop "B" "Standard"); row (default_stop "A" "VIP")] None true
           [default_stop "A" "VIP"; default_stop "B" "Standard"] morning_schedule RNone).
  vm_compute. reflexivity.
Defined.

(** X6. The provider calls of one optimization of a non-empty
    selection: none when the route has fewer than two waypoints (one stop
    and no start location); otherwise exactly one OSRM request for the
    waypoints, preceded by one TomTom request when [avoid_traffic] is set
    and by nothing when it is not. *)
Theorem provider_calls :
  forall self w r selected_df user_location avoid_traffic,
    let waypoints :=
      route_waypoints (_sort_route (_prepare_data (r :: selected_df))) user_location in
    fst (optimize_with_timing self w (r :: selected_df) user_location avoid_traffic)
    = (if 1 <? Z.of_nat (List.length waypoints)
       then (if avoid_traffic then [TomTomCall waypoints] else []) ++ [OsrmCall waypoints]
       else [])%list
    /\ List.length waypoints
       = (List.length (r :: selected_df)
          + match user_location with Some _ => 1 | None => 0 end)%nat.
Proof.
  intros self w r df loc av waypoints. split.
  - cbn [optimize_with_timing fst]. unfold _get_route_info. fold waypoints.
    destruct (1 <? Z.of_nat (List.length waypoints)) eqn:E; [|reflexivity].
    cbn [fst]. unfold get_route.
    apply Z.ltb_lt in E.
    destruct (Z.of_nat (List.length waypoints) <? 2) eqn:E2;
      [apply Z.ltb_lt in E2; lia|reflexivity].
  - unfold waypoints, route_waypoints.
    rewrite length_app, length_map, sort_route_length.
    destruct loc; cbn [List.length]; lia.
Qed.

(** X7. Whatever the provider reports (even a zero or negative
    duration), the cursor handed to the next stop is at least five
    minutes after the departure time read back from the entry. *)
Theorem next_cursor_five_minutes_later :
  forall current_time point route_info i j total_points avoid_traffic,
    exists next,
      _calculate_next_time current_time (_create_schedule_entry i point current_time)
        route_info j total_points avoid_traffic = Some next
      /\ recorded_departure point current_time + timedelta_minutes 5 <= next.
Proof.
  intros ct p rv i j n av. rewrite calculate_next_time_recorded.
  eexists. split; [reflexivity|].
  pose proof (travel_time_ge rv j n av). unfold timedelta_minutes. lia.
Qed.

(** * Properties of the TomTom service *)

Lemma Qle_bool_false (x y : Q) : Qle_bool x y = false -> (y < x)%Q.
Proof.
  intros H. apply Qnot_le_lt. intros Hle. apply Qle_bool_iff in Hle. congruence.
Qed.

(** The four outcomes of [_calculate_traffic_level] with their bands. *)
Lemma calculate_traffic_level_cases (r : Q) :
  (_calculate_traffic_level r = "low" /\ (8 # 10 <= r)%Q)
  \/ (_calculate_traffic_level r = "medium" /\ (5 # 10 <= r)%Q /\ (r < 8 # 10)%Q)
  \/ (_calculate_traffic_level r = "high" /\ (3 # 10 <= r)%Q /\ (r < 5 # 10)%Q)
  \/ (_calculate_traffic_level r = "very_high" /\ (r < 3 # 10)%Q).
Proof.
  unfold _calculate_traffic_level.
  destruct (Qle_bool (8 # 10) r) eqn:E1.
  { left. split; [reflexivity|now apply Qle_bool_iff]. }
  apply Qle_bool_false in E1.
  destruct (Qle_bool (5 # 10) r) eqn:E2.
  { right; left. repeat split; [now apply Qle_bool_iff|exact E1]. }
  apply Qle_bool_false in E2.
  destruct (Qle_bool (3 # 10) r) eqn:E3.
  { right; right; left. repeat split; [now apply Qle_bool_iff|exact E2]. }
  apply Qle_bool_false in E3.
  right; right; right. split; [reflexivity|exact E3].
Qed.

(** X8. [_calculate_traffic_level] always names a level of
    [TRAFFIC_LEVELS] (so its multiplier and message are never the
    defaults), and a higher speed ratio never gives a larger multiplier. *)
Theorem traffic_level_in_table :
  (forall r : Q,
      dict_get TRAFFIC_LEVELS (_calculate_traffic_level r) <> None
      /\ _get_traffic_message (_calculate_traffic_level r) <> "Неизвестно")
  /\ (forall r1 r2 : Q,
         (r1 <= r2)%Q ->
         (multiplier_of (_calculate_traffic_level r2)
          <= multiplier_of (_calculate_traffic_level r1))%Q).
Proof.
  split.
  - intros r.
    destruct (calculate_traffic_level_cases r) as [[-> _]|[[-> _]|[[-> _]|[-> _]]]];
      split; cbn; discriminate.
  - intros r1 r2 H.
    destruct (calculate_traffic_level_cases r1)
      as [[-> H1]|[[-> [H1 H1']]|[[-> [H1 H1']]|[-> H1]]]];
      destruct (calculate_traffic_level_cases r2)
        as [[-> H2]|[[-> [H2 H2']]|[[-> [H2 H2']]|[-> H2]]]];
      cbn; try lra; unfold Qle; cbn; lia.
Qed.

Lemma traffic_level_in_table_witness :
  (multiplier_of (_calculate_traffic_level (9 # 10))
   <= multiplier_of (_calculate_traffic_level (4 # 10)))%Q.
Proof.
  apply (proj2 traffic_level_in_table (4 # 10) (9 # 10))%Q.
  unfold Qle. cbn. lia.
Defined.

Lemma round_half_even_bounds (q : Q) :
  Qfloor q <= round_half_even q <= Qfloor q + 1.
Proof.
  unfold round_half_even.
  destruct (Qcompare (q - inject_Z (Qfloor q)) (1 # 2)); [|lia|lia].
  destruct (Z.even (Qfloor q)); lia.
Qed.

Lemma round_half_even_mono (q1 q2 : Q) :
  (q1 <= q2)%Q -> round_half_even q1 <= round_half_even q2.
Proof.
  intros H. pose proof (Qfloor_resp_le _ _ H) as Hf.
  pose proof (round_half_even_bounds q1) as B1.
  pose proof (round_half_even_bounds q2) as B2.
  destruct (Z.eq_dec (Qfloor q1) (Qfloor q2)) as [Heq|Hne]; [|lia].
  unfold round_half_even. rewrite <- Heq.
  destruct (Qcompare_spec (q1 - inject_Z (Qfloor q1)) (1 # 2)) as [E1|E1|E1];
    destruct (Qcompare_spec (q2 - inject_Z (Qfloor q1)) (1 # 2)) as [E2|E2|E2];
    try (destruct (Z.even (Qfloor q1))); try lia; exfalso; lra.
Qed.

Lemma round_half_even_inject (n : Z) : round_half_even (inject_Z n) = n.
Proof.
  unfold round_half_even. rewrite Qfloor_Z.
  destruct (Qcompare_spec (inject_Z n - inject_Z n) (1 # 2)) as [E|E|E];
    [exfalso; lra|reflexivity|exfalso; lra].
Qed.

Lemma round_digits_mono (q1 q2 : Q) (d : nat) :
  (q1 <= q2)%Q -> (round_digits q1 d <= round_digits q2 d)%Q.
Proof.
  intros H. unfold round_digits.
  assert (Hp : (0 < inject_Z (10 ^ Z.of_nat d))%Q).
  { rewrite <- (Zlt_Qlt 0). apply Z.pow_pos_nonneg; lia. }
  apply Qmult_le_compat_r; [|apply Qlt_le_weak, Qinv_lt_0_compat, Hp].
  rewrite <- Zle_Qle. apply round_half_even_mono.
  apply Qmult_le_compat_r; [exact H|apply Qlt_le_weak, Hp].
Qed.

Lemma round_digits_inject (n : Z) (d : nat) : (round_digits (inject_Z n) d == inject_Z n)%Q.
Proof.
  unfold round_digits.
  assert (Hp : (0 < inject_Z (10 ^ Z.of_nat d))%Q).
  { rewrite <- (Zlt_Qlt 0). apply Z.pow_pos_nonneg; lia. }
  assert (Hi : (inject_Z n * inject_Z (10 ^ Z.of_nat d)
                == inject_Z (n * 10 ^ Z.of_nat d))%Q)
    by (now rewrite inject_Z_mult).
  assert (Hr : round_half_even (inject_Z n * inject_Z (10 ^ Z.of_nat d))
               = n * 10 ^ Z.of_nat d).
  { rewrite <- (round_half_even_inject (n * 10 ^ Z.of_nat d)).
    apply Z.le_antisymm; apply round_half_even_mono; rewrite Hi; apply Qle_refl. }
  rewrite Hr, inject_Z_mult. field. intros Hz. rewrite Hz in Hp. now apply Qlt_irrefl in Hp.
Qed.

Lemma congestion_band (lo hi : Z) (x : Q) :
  (inject_Z lo <= x)%Q -> (x <= inject_Z hi)%Q ->
  (inject_Z lo <= round_digits x 1)%Q /\ (round_digits x 1 <= inject_Z hi)%Q.
Proof.
  intros H1 H2. split.
  - rewrite <- (round_digits_inject lo 1). now apply round_digits_mono.
  - rewrite <- (round_digits_inject hi 1). now apply round_digits_mono.
Qed.

(** X9. With a positive free-flow speed, the ['congestion_ratio'] that
    [_parse_traffic_data] reports agrees with the level it reports: at
    most 20 for 'low', 20 to 50 for 'medium', 50 to 70 for 'high', at
    least 70 for 'very_high'.  Without flow data or with a free-flow
    speed that is absent, zero or negative, the level stays 'low' and no
    ratio is computed. *)
Theorem parsed_congestion_matches_level :
  (forall (segment : FlowSegment) (incidents : list RawIncident) (now : datetime),
      (0 < opt_default (freeFlowSpeed segment) 0)%Q ->
      let d := _parse_traffic_data (Some segment) incidents now in
      exists c : Q,
        td_congestion_ratio d = Some c
        /\ ((td_traffic_level d = "low" /\ (c <= 20)%Q)
            \/ (td_traffic_level d = "medium" /\ (20 <= c)%Q /\ (c <= 50)%Q)
            \/ (td_traffic_level d = "high" /\ (50 <= c)%Q /\ (c <= 70)%Q)
            \/ (td_traffic_level d = "very_high" /\ (70 <= c)%Q)))
  /\ (forall (flow_data : option FlowSegment) (incidents : list RawIncident)
             (now : datetime),
         match flow_data with
         | Some segment => (opt_default (freeFlowSpeed segment) 0 <= 0)%Q
         | None => True
         end ->
         let d := _parse_traffic_data flow_data incidents now in
         td_traffic_level d = "low" /\ td_congestion_ratio d = None
         /\ td_current_speed d = None).
Proof.
  split.
  - intros segment incidents now Hfree d. subst d.
    unfold _parse_traffic_data.
    destruct (Qle_bool (opt_default (freeFlowSpeed segment) 0%Q) 0%Q) eqn:E.
    { apply Qle_bool_iff in E. exfalso. lra. }
    cbn [td_congestion_ratio td_traffic_level].
    set (r := (opt_default (currentSpeed segment) 0
               / opt_default (freeFlowSpeed segment) 0)%Q).
    clearbody r.
    eexists. split; [reflexivity|].
    destruct (calculate_traffic_level_cases r)
      as [[-> H1]|[[-> [H1 H1']]|[[-> [H1 H1']]|[-> H1]]]].
    + left. split; [reflexivity|].
      change 20%Q with (inject_Z 20). rewrite <- (round_digits_inject 20 1).
      apply round_digits_mono. unfold inject_Z. lra.
    + right; left. split; [reflexivity|].
      apply (congestion_band 20 50); unfold inject_Z; lra.
    + right; right; left. split; [reflexivity|].
      apply (congestion_band 50 70); unfold inject_Z; lra.
    + right; right; right. split; [reflexivity|].
      change 70%Q with (inject_Z 70). rewrite <- (round_digits_inject 70 1).
      apply round_digits_mono. unfold inject_Z. lra.
  - intros flow incidents now H d. subst d. unfold _parse_traffic_data.
    destruct flow as [segment|]; [|repeat split].
    apply Qle_bool_iff in H. rewrite H. repeat split.
Qed.

Lemma parsed_congestion_matches_level_witness :
  exists c : Q,
    td_congestion_ratio
      (_parse_traffic_data
         (Some {| currentSpeed := Some (30 # 1); freeFlowSpeed := Some (60 # 1) |}) [] 0)
    = Some c
    /\ td_traffic_level
         (_parse_traffic_data
            (Some {| currentSpeed := Some (30 # 1); freeFlowSpeed := Some (60 # 1) |}) [] 0)
       = "medium"
    /\ (c == 50)%Q.
Proof.
  destruct (proj1 parsed_congestion_matches_level
              {| currentSpeed := Some (30 # 1); freeFlowSpeed := Some (60 # 1) |} [] 0)
    as (c & Hc & _).
  - reflexivity.
  - exists c. split; [exact Hc|]. split; [reflexivity|].
    vm_compute in Hc. injection Hc as <-. reflexivity.
Defined.

Lemma random_choice_spec {A : Type} (g : Rng) (seq : list A) (s : RandState) :
  seq <> [] ->
  exists a, random_choice g seq s = inr (a, (S (fst s), snd s)) /\ In a seq.
Proof.
  intros Hne. unfold random_choice.
  destruct (nth_error seq (Nat.modulo (next_index g (fst s)) (List.length seq)))
    as [a|] eqn:E.
  - exists a. split; [reflexivity|]. eapply nth_error_In; eassumption.
  - exfalso. apply nth_error_None in E.
    assert (List.length seq <> O) by (destruct seq; [congruence|discriminate]).
    pose proof (Nat.mod_upper_bound (next_index g (fst s)) (List.length seq)). lia.
Qed.

Lemma simulate_level_spec (g : Rng) (h : Z) (s : RandState) :
  exists level s',
    simulate_level g h s = inr (level, s')
    /\ (if between 7 h 10 || between 17 h 20
        then level = "high" \/ level = "very_high"
        else if between 11 h 16
             then level = "medium" \/ level = "high"
             else level = "low" /\ s' = s).
Proof.
  unfold simulate_level.
  destruct (between 7 h 10 || between 17 h 20).
  - destruct (random_choice_spec g ["high"; "very_high"] s) as (a & Ha & Hin);
      [discriminate|].
    exists a, (S (fst s), snd s). split; [exact Ha|].
    destruct Hin as [<-|[<-|[]]]; auto.
  - destruct (between 11 h 16).
    + destruct (random_choice_spec g ["medium"; "high"] s) as (a & Ha & Hin);
        [discriminate|].
      exists a, (S (fst s), snd s). split; [exact Ha|].
      destruct Hin as [<-|[<-|[]]]; auto.
    + exists "low", s. repeat split.
Qed.

Lemma simulate_incident_spec (g : Rng) (west south east north : Q) (rest : list Q)
    (s : RandState) :
  exists incident s',
    simulate_incident g (Some (west :: south :: east :: north :: rest)) s
    = inr (incident, s')
    /\ loc_lat (i_location incident)
       = (south + (north - south) * next_unit g (snd s))%Q
    /\ loc_lon (i_location incident)
       = (west + (east - west) * next_unit g (S (snd s)))%Q.
Proof.
  unfold simulate_incident, rand_bind.
  destruct (random_choice_spec g simulated_incident_types s) as (t & Ht & _);
    [discriminate|].
  rewrite Ht. cbn [rand_lift bbox_get list_get nth_error of_option random_random fst snd].
  destruct (random_choice_spec g simulated_incident_types (S (fst s), S (S (snd s))))
    as (t2 & Ht2 & _); [discriminate|].
  rewrite Ht2.
  destruct (random_choice_spec g ["low"; "medium"; "high"]
              (S (fst (S (fst s), S (S (snd s)))), snd (S (fst s), S (S (snd s)))))
    as (t3 & Ht3 & _); [discriminate|].
  rewrite Ht3. cbn [rand_ret].
  do 2 eexists. split; [reflexivity|]. split; reflexivity.
Qed.

Lemma simulate_incidents_spec (g : Rng) (west south east north : Q) (rest : list Q)
    (n : nat) :
  forall s,
    exists incidents s',
      simulate_incidents g (Some (west :: south :: east :: north :: rest)) n s
      = inr (incidents, s')
      /\ List.length incidents = n
      /\ Forall (fun incident =>
                   exists k1 k2,
                     loc_lat (i_location incident)
                     = (south + (north - south) * next_unit g k1)%Q
                     /\ loc_lon (i_location incident)
                        = (west + (east - west) * next_unit g k2)%Q)
                incidents.
Proof.
  induction n as [|n IH]; intros s.
  - exists [], s. repeat split. constructor.
  - cbn [simulate_incidents]. unfold rand_bind.
    destruct (simulate_incident_spec g west south east north rest s)
      as (incident & s1 & H1 & Hlat & Hlon).
    rewrite H1. destruct (IH s1) as (incidents & s2 & H2 & Hl & Hall).
    rewrite H2. cbn [rand_ret].
    exists (incident :: incidents), s2. split; [reflexivity|]. split; [cbn; lia|].
    constructor; [|exact Hall]. eauto.
Qed.

Lemma simulate_incidents_length (g : Rng) (bbox : option (list Q)) (n : nat) :
  forall s incidents s',
    simulate_incidents g bbox n s = inr (incidents, s') ->
    List.length incidents = n.
Proof.
  induction n as [|n IH]; intros s incidents s' H.
  - injection H as <- _. reflexivity.
  - cbn [simulate_incidents] in H. unfold rand_bind in H.
    destruct (simulate_incident g bbox s) as [e|[incident s1]]; [discriminate|].
    destruct (simulate_incidents g bbox n s1) as [e|[rest s2]] eqn:E; [discriminate|].
    cbn [rand_ret] in H. injection H as <- _. cbn. f_equal. eapply IH. exact E.
Qed.

Lemma randint_1_3 (g : Rng) (s : RandState) :
  exists n, random_randint g 1 3 s = inr (n, (S (fst s), snd s)) /\ 1 <= n <= 3.
Proof.
  unfold random_randint. eexists. split; [reflexivity|].
  pose proof (Z.mod_pos_bound (Z.of_nat (next_index g (fst s))) (3 - 1 + 1)). lia.
Qed.

(** X10. What [_simulate_traffic_data] returns: a level by the hour
    ('high' or 'very_high' from 7 to 10 and from 17 to 20 o'clock,
    'medium' or 'high' from 11 to 16, 'low' otherwise), between one and
    three incidents when the level is 'high' or 'very_high' and none
    otherwise, and neither a ['message'] nor a ['source'] key. *)
Theorem simulated_traffic_shape :
  forall g now bbox s d s',
    _simulate_traffic_data g now bbox s = inr (d, s') ->
    let h := hour_of (time_of now) in
    (if between 7 h 10 || between 17 h 20
     then td_traffic_level d = "high" \/ td_traffic_level d = "very_high"
     else if between 11 h 16
          then td_traffic_level d = "medium" \/ td_traffic_level d = "high"
          else td_traffic_level d = "low")
    /\ (if heavy_level (td_traffic_level d)
        then (1 <= List.length (td_incidents d) <= 3)%nat
        else td_incidents d = [])
    /\ td_message d = None /\ td_source d = None /\ td_simulated d = true.
Proof.
  intros g now bbox s d s' H h.
  unfold _simulate_traffic_data, rand_bind in H. fold h in H.
  destruct (simulate_level_spec g h s) as (level & s1 & Hl & Hband).
  rewrite Hl in H.
  assert (Hlevel : if between 7 h 10 || between 17 h 20
                   then level = "high" \/ level = "very_high"
                   else if between 11 h 16
                        then level = "medium" \/ level = "high"
                        else level = "low").
  { destruct (between 7 h 10 || between 17 h 20); [exact Hband|].
    destruct (between 11 h 16); [exact Hband|tauto]. }
  destruct (heavy_level level) eqn:Eh.
  - destruct (randint_1_3 g s1) as (n & Hn & Hrange). rewrite Hn in H.
    destruct (simulate_incidents g bbox (Z.to_nat n) (S (fst s1), snd s1))
      as [e|[incidents s2]] eqn:Ei; [discriminate|].
    cbn [rand_ret] in H. injection H as <- _. cbn. rewrite Eh.
    apply simulate_incidents_length in Ei.
    split; [exact Hlevel|]. split; [lia|repeat split].
  - cbn [rand_ret] in H. injection H as <- _. cbn. rewrite Eh.
    split; [exact Hlevel|repeat split].
Qed.

Lemma simulated_traffic_shape_witness :
  td_traffic_level rush_hour_dict = "high" \/ td_traffic_level rush_hour_dict = "very_high".
Proof.
  apply (simulated_traffic_shape fixed_rng (combine 100 (8 * HOUR))
           (Some [0; 0; 10; 20]%Q) (O, O) rush_hour_dict (5%nat, 2%nat)).
  vm_compute. reflexivity.
Defined.

(** X11. Every incident that [_simulate_traffic_data] invents lies
    inside the given [bbox], when the box is ordered (west <= east,
    south <= north) and [random()] stays in [0, 1]. *)
Theorem simulated_incidents_inside_bbox :
  forall g now west south east north rest s d s',
    (forall k, 0 <= next_unit g k /\ next_unit g k <= 1)%Q ->
    (west <= east)%Q -> (south <= north)%Q ->
    _simulate_traffic_data g now (Some (west :: south :: east :: north :: rest)) s
    = inr (d, s') ->
    Forall (inside_bbox west south east north) (td_incidents d).
Proof.
  intros g now west south east north rest s d s' Hunit Hwe Hsn H.
  unfold _simulate_traffic_data, rand_bind in H.
  destruct (simulate_level g (hour_of (time_of now)) s) as [e|[level s1]]; [discriminate|].
  destruct (heavy_level level).
  - destruct (randint_1_3 g s1) as (n & Hn & _). rewrite Hn in H.
    destruct (simulate_incidents_spec g west south east north rest (Z.to_nat n)
                (S (fst s1), snd s1)) as (incidents & s2 & Hi & _ & Hall).
    rewrite Hi in H. cbn [rand_ret] in H. injection H as <- _. cbn [td_incidents].
    eapply Forall_impl; [|exact Hall].
    intros incident (k1 & k2 & Hlat & Hlon). unfold inside_bbox.
    rewrite Hlat, Hlon.
    destruct (Hunit k1) as [H10 H11]. destruct (Hunit k2) as [H20 H21].
    repeat split; nra.
  - cbn [rand_ret] in H. injection H as <- _. constructor.
Qed.

Lemma simulated_incidents_inside_bbox_witness :
  Forall (inside_bbox 0 0 10 20) (td_incidents rush_hour_dict).
Proof.
  apply (simulated_incidents_inside_bbox fixed_rng (combine 100 (8 * HOUR))
           0%Q 0%Q 10%Q 20%Q [] (O, O) rush_hour_dict (5%nat, 2%nat)).
  - intros k. split; vm_compute; discriminate.
  - vm_compute. discriminate.
  - vm_compute. discriminate.
  - vm_compute. reflexivity.
Defined.

Lemma simulate_with_bbox_total (g : Rng) (now : datetime) (bbox : list Q) (s : RandState) :
  (4 <= List.length bbox)%nat ->
  exists d s', _simulate_traffic_data g now (Some bbox) s = inr (d, s').
Proof.
  intros Hl.
  destruct bbox as [|west [|south [|east [|north rest]]]]; cbn in Hl; try lia.
  unfold _simulate_traffic_data, rand_bind.
  destruct (simulate_level_spec g (hour_of (time_of now)) s) as (level & s1 & Hlevel & _).
  rewrite Hlevel. destruct (heavy_level level).
  - destruct (randint_1_3 g s1) as (n & Hn & _). rewrite Hn.
    destruct (simulate_incidents_spec g west south east north rest (Z.to_nat n)
                (S (fst s1), snd s1)) as (incidents & s2 & Hi & _).
    rewrite Hi. do 2 eexists. reflexivity.
  - do 2 eexists. reflexivity.
Qed.

Lemma get_traffic_data_total (self : TomTomService) (w : TomTomWorld) (g : Rng)
    (now : datetime) (bbox : list Q) (s : RandState) :
  (4 <= List.length bbox)%nat ->
  exists d s', tomtom_get_traffic_data self w g now (Some bbox) s = inr (d, s').
Proof.
  intros Hl. unfold tomtom_get_traffic_data, _get_fallback_data.
  destruct (negb (has_api_key self)); [now apply simulate_with_bbox_total|].
  destruct bbox as [|b0 bbox']; [cbn in Hl; lia|].
  destruct (flow_data <-- _get_flow_data w (b0 :: bbox') ;;
            incidents <-- _get_incidents w (b0 :: bbox') ;;
            inr (_parse_traffic_data flow_data incidents now)) as [e|d].
  - now apply simulate_with_bbox_total.
  - do 2 eexists. reflexivity.
Qed.

(** X12. Without an API key and without a [bbox], [get_traffic_data]
    raises [TypeError] exactly when the simulated level is 'high' or
    'very_high' (the incident loop reads [bbox[1]] of [None]); so it always
    raises from 7 to 10 and from 17 to 20 o'clock.  When the level is not
    heavy it returns the level with no incident. *)
Theorem traffic_data_without_bbox :
  forall self w g now s,
    has_api_key self = false ->
    (forall level s1,
        simulate_level g (hour_of (time_of now)) s = inr (level, s1) ->
        tomtom_get_traffic_data self w g now None s
        = if heavy_level level then inl TypeError
          else inr ({| td_traffic_level := level; td_incidents := [];
                       td_message := None; td_timestamp := None; td_source := None;
                       td_current_speed := None; td_free_flow_speed := None;
                       td_congestion_ratio := None; td_simulated := true |}, s1))
    /\ (between 7 (hour_of (time_of now)) 10 || between 17 (hour_of (time_of now)) 20 = true ->
        tomtom_get_traffic_data self w g now None s = inl TypeError).
Proof.
  intros self w g now s Hkey.
  assert (Hgen : forall level s1,
             simulate_level g (hour_of (time_of now)) s = inr (level, s1) ->
             tomtom_get_traffic_data self w g now None s
             = if heavy_level level then inl TypeError
               else inr ({| td_traffic_level := level; td_incidents := [];
                            td_message := None; td_timestamp := None; td_source := None;
                            td_current_speed := None; td_free_flow_speed := None;
                            td_congestion_ratio := None; td_simulated := true |}, s1)).
  { intros level s1 Hlevel.
    unfold tomtom_get_traffic_data, _get_fallback_data. rewrite Hkey. cbn [negb].
    unfold _simulate_traffic_data, rand_bind. rewrite Hlevel.
    destruct (heavy_level level); [|reflexivity].
    destruct (randint_1_3 g s1) as (n & Hn & Hrange). rewrite Hn.
    destruct (Z.to_nat n) as [|n'] eqn:En; [lia|].
    cbn [simulate_incidents]. unfold rand_bind, simulate_incident, rand_bind.
    destruct (random_choice_spec g simulated_incident_types (S (fst s1), snd s1))
      as (t & Ht & _); [discriminate|].
    rewrite Ht. reflexivity. }
  split; [exact Hgen|].
  intros Hrush.
  destruct (simulate_level_spec g (hour_of (time_of now)) s) as (level & s1 & Hl & Hband).
  rewrite Hrush in Hband. rewrite (Hgen level s1 Hl).
  destruct Hband as [-> | ->]; reflexivity.
Qed.

Lemma traffic_data_without_bbox_witness :
  tomtom_get_traffic_data keyless_service silent_tomtom fixed_rng
    (combine 100 (8 * HOUR)) None (O, O)
  = inl TypeError.
Proof.
  apply (proj2 (traffic_data_without_bbox keyless_service silent_tomtom fixed_rng
                  (combine 100 (8 * HOUR)) (O, O) eq_refl)).
  vm_compute. reflexivity.
Defined.

(** X13. With a [bbox] of four or more numbers [get_traffic_data]
    never raises, with or without an API key and whatever the two TomTom
    requests do; with an API key it does not raise without a [bbox]
    either, because the default box is used. *)
Theorem traffic_data_never_raises :
  forall self w g now s,
    (forall bbox, (4 <= List.length bbox)%nat ->
                  exists d s', tomtom_get_traffic_data self w g now (Some bbox) s
                               = inr (d, s'))
    /\ (has_api_key self = true ->
        exists d s', tomtom_get_traffic_data self w g now None s = inr (d, s')).
Proof.
  intros self w g now s. split.
  - intros bbox Hl. now apply get_traffic_data_total.
  - intros Hkey. unfold tomtom_get_traffic_data, _get_fallback_data.
    rewrite Hkey. cbn [negb].
    destruct (flow_data <-- _get_flow_data w default_bbox ;;
              incidents <-- _get_incidents w default_bbox ;;
              inr (_parse_traffic_data flow_data incidents now)) as [e|d].
    + apply simulate_with_bbox_total. cbn. lia.
    + do 2 eexists. reflexivity.
Qed.

Lemma traffic_data_never_raises_witness :
  exists d s',
    tomtom_get_traffic_data keyless_service silent_tomtom fixed_rng
      (combine 100 (8 * HOUR)) (Some [0; 0; 10; 20]%Q) (O, O)
    = inr (d, s').
Proof.
  apply (proj1 (traffic_data_never_raises keyless_service silent_tomtom fixed_rng
                  (combine 100 (8 * HOUR)) (O, O)) [0; 0; 10; 20]%Q).
  cbn. lia.
Defined.

Lemma fold_min_le (l : list Q) :
  forall x,
    let m := fold_left (fun m y => if Qlt_bool y m then y else m) l x in
    (m <= x)%Q /\ forall y, In y l -> (m <= y)%Q.
Proof.
  induction l as [|z l IH]; intros x; cbn [fold_left].
  - split; [apply Qle_refl|contradiction].
  - destruct (IH (if Qlt_bool z x then z else x)) as [H1 H2].
    assert (Hstep : ((if Qlt_bool z x then z else x) <= x
                     /\ (if Qlt_bool z x then z else x) <= z)%Q).
    { unfold Qlt_bool. destruct (Qle_bool x z) eqn:E; cbn [negb].
      - apply Qle_bool_iff in E. split; [apply Qle_refl|exact E].
      - apply Qle_bool_false in E. split; [now apply Qlt_le_weak|apply Qle_refl]. }
    destruct Hstep as [Hx Hz]. split.
    + eapply Qle_trans; eassumption.
    + intros y [<-|Hy]; [eapply Qle_trans; eassumption|now apply H2].
Qed.

Lemma fold_max_ge (l : list Q) :
  forall x,
    let m := fold_left (fun m y => if Qlt_bool m y then y else m) l x in
    (x <= m)%Q /\ forall y, In y l -> (y <= m)%Q.
Proof.
  induction l as [|z l IH]; intros x; cbn [fold_left].
  - split; [apply Qle_refl|contradiction].
  - destruct (IH (if Qlt_bool x z then z else x)) as [H1 H2].
    assert (Hstep : (x <= (if Qlt_bool x z then z else x)
                     /\ z <= (if Qlt_bool x z then z else x))%Q).
    { unfold Qlt_bool. destruct (Qle_bool z x) eqn:E; cbn [negb].
      - apply Qle_bool_iff in E. split; [apply Qle_refl|exact E].
      - apply Qle_bool_false in E. split; [now apply Qlt_le_weak|apply Qle_refl]. }
    destruct Hstep as [Hx Hz]. split.
    + eapply Qle_trans; eassumption.
    + intros y [<-|Hy]; [eapply Qle_trans; eassumption|now apply H2].
Qed.

Lemma py_min_spec (l : list Q) :
  l <> [] -> exists m, py_min l = inr m /\ forall y, In y l -> (m <= y)%Q.
Proof.
  destruct l as [|x l]; [congruence|]. intros _. eexists. split; [reflexivity|].
  destruct (fold_min_le l x) as [H1 H2]. intros y [<-|Hy]; auto.
Qed.

Lemma py_max_spec (l : list Q) :
  l <> [] -> exists m, py_max l = inr m /\ forall y, In y l -> (y <= m)%Q.
Proof.
  destruct l as [|x l]; [congruence|]. intros _. eexists. split; [reflexivity|].
  destruct (fold_max_ge l x) as [H1 H2]. intros y [<-|Hy]; auto.
Qed.

Lemma route_bbox_spec (coordinates : list coord) :
  coordinates <> [] ->
  exists west south east north,
    route_bbox coordinates = inr [west; south; east; north]
    /\ forall c, In c coordinates ->
                 (west < snd c /\ snd c < east /\ south < fst c /\ fst c < north)%Q.
Proof.
  intros Hne. unfold route_bbox.
  assert (Hs : map snd coordinates <> []) by (destruct coordinates; [congruence|discriminate]).
  assert (Hf : map fst coordinates <> []) by (destruct coordinates; [congruence|discriminate]).
  destruct (py_min_spec _ Hs) as (w & Hw & Hw').
  destruct (py_min_spec _ Hf) as (s & Hs1 & Hs').
  destruct (py_max_spec _ Hs) as (e & He & He').
  destruct (py_max_spec _ Hf) as (n & Hn & Hn').
  rewrite Hw, Hs1, He, Hn. cbn [rbind].
  do 4 eexists. split; [reflexivity|].
  intros c Hc.
  pose proof (Hw' (snd c) (in_map snd _ _ Hc)).
  pose proof (He' (snd c) (in_map snd _ _ Hc)).
  pose proof (Hs' (fst c) (in_map fst _ _ Hc)).
  pose proof (Hn' (fst c) (in_map fst _ _ Hc)).
  repeat split; lra.
Qed.

(** X14. The box that [_get_route_traffic_data] asks traffic for
    strictly encloses every coordinate of the route (a margin of 0.1
    degree on each side); an empty coordinate list raises [ValueError]. *)
Theorem route_bbox_encloses :
  (forall coordinates,
      coordinates <> [] ->
      exists west south east north,
        route_bbox coordinates = inr [west; south; east; north]
        /\ forall c, In c coordinates ->
                     (west < snd c /\ snd c < east /\ south < fst c /\ fst c < north)%Q)
  /\ route_bbox [] = inl ValueError.
Proof.
  split; [apply route_bbox_spec|reflexivity].
Qed.

Lemma route_bbox_encloses_witness :
  exists west south east north,
    route_bbox [(47 # 1, 39 # 1); (48 # 1, 40 # 1)]
    = inr [west; south; east; north]
    /\ (west < 39 # 1 /\ 40 # 1 < east /\ south < 47 # 1 /\ 48 # 1 < north)%Q.
Proof.
  destruct (proj1 route_bbox_encloses [(47 # 1, 39 # 1); (48 # 1, 40 # 1)])
    as (west & south & east & north & H & Hin).
  - discriminate.
  - exists west, south, east, north. split; [exact H|].
    destruct (Hin (47 # 1, 39 # 1) (or_introl eq_refl)) as (H1 & _ & H3 & _).
    destruct (Hin (48 # 1, 40 # 1) (or_intror (or_introl eq_refl))) as (_ & H2 & _ & H4).
    cbn [fst snd] in *. repeat split; assumption.
Defined.

(** X15. Asked for the traffic of a non-empty route,
    [_get_route_traffic_data] never raises: whatever the API key, the
    TomTom answers and the random draws, it returns a traffic dict. *)
Theorem route_traffic_data_never_raises :
  forall service w g now coordinates s,
    coordinates <> [] ->
    exists d s', _get_route_traffic_data service w g now coordinates s = inr (d, s').
Proof.
  intros service w g now coordinates s Hne.
  unfold _get_route_traffic_data, rand_bind.
  destruct (route_bbox_spec coordinates Hne) as (west & south & east & north & Hb & _).
  rewrite Hb. cbn [rand_lift].
  apply get_traffic_data_total. cbn. lia.
Qed.

Lemma route_traffic_data_never_raises_witness :
  exists d s',
    _get_route_traffic_data keyless_service silent_tomtom fixed_rng
      (combine 100 (8 * HOUR)) [(47 # 1, 39 # 1); (48 # 1, 40 # 1)] (O, O)
    = inr (d, s').
Proof.
  apply (route_traffic_data_never_raises keyless_service silent_tomtom fixed_rng
           (combine 100 (8 * HOUR)) [(47 # 1, 39 # 1); (48 # 1, 40 # 1)] (O, O)).
  discriminate.
Defined.

(** * Properties of the response helpers *)

Lemma simulate_no_message g now bbox s d s' :
  _simulate_traffic_data g now bbox s = inr (d, s') -> td_message d = None.
Proof.
  unfold _simulate_traffic_data, rand_bind. intros H.
  destruct (simulate_level g (hour_of (time_of now)) s) as [e|[level s1]]; [discriminate|].
  destruct (heavy_level level).
  - destruct (random_randint g 1 3 s1) as [e|[n s2]]; [discriminate|].
    destruct (simulate_incidents g bbox (Z.to_nat n) s2) as [e|[incidents s3]];
      [discriminate|].
    cbn [rand_ret] in H. now injection H as <- _.
  - cbn [rand_ret] in H. now injection H as <- _.
Qed.

(** X16. [prepare_traffic_response] reads ['message'] without a
    default: on a traffic dict without that key, such as every dict made
    by [_simulate_traffic_data], it raises [KeyError('message')]; on every
    dict made by [_parse_traffic_data] it returns a response whose
    incident count is the number of incidents TomTom listed.  A falsy
    traffic dict gives [None]. *)
Theorem traffic_response_needs_message :
  (forall td ri,
      td_message td = None ->
      prepare_traffic_response (Some td) (RDict ri) = inl (KeyError "message"))
  /\ (forall g now bbox s d s' ri,
         _simulate_traffic_data g now bbox s = inr (d, s') ->
         prepare_traffic_response (Some d) (RDict ri) = inl (KeyError "message"))
  /\ (forall flow_data incidents now ri,
         exists info,
           prepare_traffic_response
             (Some (_parse_traffic_data flow_data incidents now)) (RDict ri)
           = inr (Some info)
           /\ ti_incidents_count info = Z.of_nat (List.length incidents)
           /\ ti_source info = "tomtom")
  /\ (forall route_info, prepare_traffic_response None route_info = inr None).
Proof.
  assert (Hkey : forall td ri,
             td_message td = None ->
             prepare_traffic_response (Some td) (RDict ri) = inl (KeyError "message")).
  { intros td ri H. unfold prepare_traffic_response. cbn [route_get rbind].
    now rewrite H. }
  split; [exact Hkey|]. split; [|split].
  - intros g now bbox s d s' ri H. apply Hkey. eapply simulate_no_message. exact H.
  - intros flow incidents now ri.
    unfold prepare_traffic_response. cbn [route_get rbind].
    assert (Hm : exists m, td_message (_parse_traffic_data flow incidents now) = Some m).
    { unfold _parse_traffic_data. cbn [td_message].
      destruct (_parse_incidents incidents); [|eauto].
      destruct flow as [segment|]; [|cbn; eauto].
      destruct (Qle_bool _ _); cbn; eauto. }
    destruct Hm as (m & Hm). rewrite Hm. cbn [of_option rbind].
    eexists. split; [reflexivity|]. cbn [ti_incidents_count ti_source]. split.
    + unfold _parse_traffic_data, _parse_incidents. cbn [td_incidents].
      now rewrite length_map.
    + unfold _parse_traffic_data. cbn [td_source].
      destruct flow as [segment|]; [|reflexivity].
      destruct (Qle_bool _ _); reflexivity.
  - reflexivity.
Qed.

Lemma traffic_response_needs_message_witness :
  prepare_traffic_response (Some rush_hour_dict) (RDict short_hop)
  = inl (KeyError "message").
Proof.
  apply (proj1 traffic_response_needs_message rush_hour_dict short_hop).
  reflexivity.
Defined.

Lemma tally_add_get (d : list (string * Z)) (k k' : string) :
  dict_get (tally_add d k) k'
  = if String.eqb k' k then Some (dict_get_default d k 0 + 1) else dict_get d k'.
Proof.
  unfold dict_get_default.
  induction d as [|[k0 n] d IH]; cbn [tally_add dict_get].
  - destruct (String.eqb k' k); reflexivity.
  - destruct (String.eqb k k0) eqn:E.
    + apply String.eqb_eq in E. subst k0. cbn [dict_get].
      destruct (String.eqb k' k); reflexivity.
    + cbn [dict_get]. rewrite IH.
      destruct (String.eqb k' k) eqn:E'; [|reflexivity].
      apply String.eqb_eq in E'. subst k'. now rewrite E.
Qed.

Lemma tally_add_keys (d : list (string * Z)) (k : string) :
  NoDup (map fst d) ->
  NoDup (map fst (tally_add d k))
  /\ forall k', In k' (map fst (tally_add d k)) <-> k' = k \/ In k' (map fst d).
Proof.
  induction d as [|[k0 n] d IH]; intros Hnd; cbn [tally_add].
  - split; [repeat constructor; intros []|]. cbn. intuition.
  - inversion Hnd as [|? ? Hnotin Hnd']; subst.
    destruct (String.eqb k k0) eqn:E.
    + apply String.eqb_eq in E. subst k0. split; [exact Hnd|]. cbn. intuition.
    + destruct (IH Hnd') as [IH1 IH2]. apply String.eqb_neq in E. split.
      * cbn [map fst]. constructor; [|exact IH1].
        intros Hin. apply IH2 in Hin. cbn [fst] in *. destruct Hin; [congruence|contradiction].
      * intros k'. cbn [map fst In]. rewrite IH2. intuition.
Qed.

Lemma tally_add_sum (d : list (string * Z)) (k : string) :
  fold_right Z.add 0 (map snd (tally_add d k)) = fold_right Z.add 0 (map snd d) + 1.
Proof.
  induction d as [|[k0 n] d IH]; cbn [tally_add]; [reflexivity|].
  destruct (String.eqb k k0); cbn [map snd fold_right]; [lia|]. rewrite IH. lia.
Qed.

Lemma tally_fold_spec (incidents : list Incident) :
  forall d,
    NoDup (map fst d) ->
    let t := fold_left (fun d incident => tally_add d (i_type incident)) incidents d in
    NoDup (map fst t)
    /\ fold_right Z.add 0 (map snd t)
       = fold_right Z.add 0 (map snd d) + Z.of_nat (List.length incidents)
    /\ forall k,
         dict_get_default t k 0
         = dict_get_default d k 0
           + Z.of_nat (count_occ string_dec (map i_type incidents) k).
Proof.
  induction incidents as [|i incidents IH]; intros d Hnd; cbn [fold_left].
  - repeat split; [exact Hnd|cbn; lia|intros k; cbn; lia].
  - destruct (tally_add_keys d (i_type i) Hnd) as [Hnd' _].
    destruct (IH _ Hnd') as (H1 & H2 & H3).
    split; [exact H1|]. split.
    + rewrite H2, tally_add_sum. cbn [List.length]. lia.
    + intros k. rewrite H3. unfold dict_get_default. rewrite tally_add_get.
      unfold dict_get_default. cbn [map count_occ].
      destruct (string_dec (i_type i) k) as [->|Hne].
      * rewrite String.eqb_refl. lia.
      * assert (E : String.eqb k (i_type i) = false)
          by (apply String.eqb_neq; congruence).
        rewrite E. lia.
Qed.

(** X17. The incident summary of [prepare_traffic_response] lists
    every incident type once, with the number of incidents of that type;
    the numbers add up to the incident count. *)
Theorem tally_counts_incidents :
  forall incidents : list Incident,
    NoDup (map fst (tally incidents))
    /\ fold_right Z.add 0 (map snd (tally incidents)) = Z.of_nat (List.length incidents)
    /\ forall k,
         dict_get_default (tally incidents) k 0
         = Z.of_nat (count_occ string_dec (map i_type incidents) k).
Proof.
  intros incidents. unfold tally.
  destruct (tally_fold_spec incidents [] (NoDup_nil _)) as (H1 & H2 & H3).
  split; [exact H1|]. split; [rewrite H2; cbn; lia|].
  intros k. rewrite H3. cbn. lia.
Qed.

Lemma address_data_from_nth (df : list Row) :
  forall idx k r,
    nth_error df k = Some r ->
    exists a,
      nth_error (address_data_from idx df) k = Some a
      /\ a_id a = idx + Z.of_nat k
      /\ a_address a = address r
      /\ a_client_type a = replace_standart (client_type r)
      /\ a_visit_duration a = visit_duration (as_point r).
Proof.
  induction df as [|r0 df IH]; intros idx k r Hk; [destruct k; discriminate|].
  destruct k as [|k].
  - injection Hk as <-. eexists. split; [reflexivity|]. cbn.
    split; [lia|]. split; [reflexivity|]. split; [reflexivity|].
    unfold visit_duration, as_point. cbn [row].
    destruct (String.eqb (client_type r0) "Standart") eqn:E; [|reflexivity].
    apply String.eqb_eq in E. now rewrite E.
  - cbn [nth_error address_data_from].
    destruct (IH (idx + 1) k r Hk) as (a & Ha & Hid & Hrest).
    exists a. split; [exact Ha|]. split; [lia|exact Hrest].
Qed.

(** X18. [prepare_address_data] describes every row of the table, in
    order, with its position as ['id']; the ['visit_duration'] it
    advertises is the one the scheduler uses for that row, and the tier it
    shows is never the misspelling 'Standart'. *)
Theorem address_data_matches_scheduler :
  forall df : list Row,
    List.length (prepare_address_data df) = List.length df
    /\ (forall k r,
           nth_error df k = Some r ->
           exists a,
             nth_error (prepare_address_data df) k = Some a
             /\ a_id a = Z.of_nat k
             /\ a_address a = address r
             /\ a_client_type a = replace_standart (client_type r)
             /\ a_visit_duration a = visit_duration (as_point r))
    /\ Forall (fun a => a_client_type a <> "Standart") (prepare_address_data df).
Proof.
  intros df. unfold prepare_address_data. split; [|split].
  - generalize 0. induction df as [|r df IH]; intros idx; [reflexivity|].
    cbn. now rewrite IH.
  - intros k r Hk.
    destruct (address_data_from_nth df 0 k r Hk) as (a & Ha & Hid & Hrest).
    exists a. split; [exact Ha|]. split; [lia|exact Hrest].
  - generalize 0. induction df as [|r df IH]; intros idx; constructor; [|apply IH].
    cbn [a_client_type].
    destruct (String.eqb (client_type r) "Standart") eqn:E; [discriminate|].
    now apply String.eqb_neq.
Qed.

Lemma address_data_matches_scheduler_witness :
  exists a,
    nth_error (prepare_address_data two_addresses) 1 = Some a
    /\ a_id a = 1
    /\ a_client_type a = "Standard"
    /\ a_visit_duration a = 30.
Proof.
  destruct (proj1 (proj2 (address_data_matches_scheduler two_addresses)) 1%nat
              (row (default_stop "B" "Standart")) eq_refl)
    as (a & Ha & Hid & _ & Hct & Hvd).
  exists a. repeat split; assumption.
Defined.

(** * Properties of the [/optimize] handler *)

Lemma iloc_in_range {A : Type} (df : list A) (indices : list Z) :
  Forall (fun idx => 0 <= idx < Z.of_nat (List.length df)) indices ->
  exists rows,
    iloc df indices = inr rows
    /\ List.length rows = List.length indices
    /\ Forall (fun r => In r df) rows.
Proof.
  induction 1 as [|idx indices Hidx _ IH].
  - exists []. repeat split. constructor.
  - destruct IH as (rows & Hrows & Hlen & Hin).
    cbn [iloc]. unfold iloc_one.
    assert (E : (0 <=? idx) && (idx <? Z.of_nat (List.length df)) = true).
    { apply andb_true_intro. split; [apply Z.leb_le|apply Z.ltb_lt]; lia. }
    rewrite E. unfold list_get.
    destruct (nth_error df (Z.to_nat idx)) as [r|] eqn:En.
    + cbn [of_option rbind]. rewrite Hrows. cbn [rbind].
      exists (r :: rows). split; [reflexivity|]. split; [cbn; lia|].
      constructor; [|exact Hin]. eapply nth_error_In; eassumption.
    + apply nth_error_None in En. lia.
Qed.

Lemma iloc_length {A : Type} (df : list A) (indices : list Z) :
  forall rows, iloc df indices = inr rows -> List.length rows = List.length indices.
Proof.
  induction indices as [|idx indices IH]; intros rows H.
  - injection H as <-. reflexivity.
  - cbn [iloc] in H. destruct (iloc_one df idx) as [e|r]; [discriminate|].
    cbn [rbind] in H. destruct (iloc df indices) as [e|rest]; [discriminate|].
    cbn [rbind] in H. injection H as <-. cbn. f_equal. now apply IH.
Qed.

Lemma filter_in_range (n : Z) (indices : list Z) :
  Forall (fun idx => 0 <= idx < n) indices ->
  filter (fun idx => idx <? n) indices = indices.
Proof.
  induction 1 as [|idx indices Hidx _ IH]; [reflexivity|].
  cbn [filter]. destruct (idx <? n) eqn:E; [now rewrite IH|].
  apply Z.ltb_ge in E. lia.
Qed.

Lemma optimize_handler_selected (hw : HandlerWorld) (request : OptimizeRequest) :
  hw_addresses hw <> [] ->
  filter (fun idx => idx <? Z.of_nat (List.length (hw_addresses hw))) (req_points request)
  <> [] ->
  optimize_handler hw request
  = match optimize_selected hw request
            (filter (fun idx => idx <? Z.of_nat (List.length (hw_addresses hw)))
               (req_points request)) with
    | inr response => Succeeded response
    | inl e => Failed e
    end.
Proof.
  intros Ha Hv. unfold optimize_handler.
  destruct (req_points request) as [|idx indices] eqn:Ep; [now elim Hv|].
  destruct (hw_addresses hw) as [|r df] eqn:Ea; [now elim Ha|].
  destruct (filter _ (idx :: indices)) eqn:Ef; [now elim Hv|reflexivity].
Qed.

Lemma windows_parse_replace_tier (r : Row) :
  windows_parse r -> windows_parse (replace_tier r).
Proof. exact (fun H => H). Qed.

Lemma optimize_returns (self : RouteOptimizer) (w : World) (selected_df : list Row)
    (user_location : option coord) (avoid_traffic : bool) :
  selected_df <> [] ->
  Forall windows_parse selected_df ->
  exists schedule,
    snd (optimize_with_timing self w selected_df user_location avoid_traffic)
    = Some (_sort_route (_prepare_data selected_df), schedule,
            snd (_get_route_info w (_sort_route (_prepare_data selected_df))
                   user_location avoid_traffic))
    /\ List.length schedule = List.length selected_df.
Proof.
  intros Hne Hparse. destruct selected_df as [|r df]; [contradiction|].
  set (route := _sort_route (_prepare_data (r :: df))).
  destruct (schedule_loop_total route 0 (Z.of_nat (List.length route))
              (snd (_get_route_info w route user_location avoid_traffic)) avoid_traffic
              (current_time self) (sort_route_windows_parse _ Hparse))
    as (schedule & Hs & Hl).
  exists schedule. cbn [optimize_with_timing snd]. fold route.
  unfold _create_schedule. rewrite Hs. cbn [bind].
  split; [reflexivity|]. rewrite Hl. apply sort_route_length.
Qed.

Lemma route_info_unavailable (w : World) (optimal_route : list Point)
    (user_location : option coord) (avoid_traffic : bool) :
  (2 <= List.length (route_waypoints optimal_route user_location))%nat ->
  provider_unavailable (requests_get w (route_waypoints optimal_route user_location)) ->
  snd (_get_route_info w optimal_route user_location avoid_traffic) = RNone.
Proof.
  intros Hl Hun. unfold _get_route_info.
  destruct (1 <? Z.of_nat (List.length (route_waypoints optimal_route user_location)))
    eqn:E; [|apply Z.ltb_ge in E; lia].
  cbn [snd]. now rewrite get_route_unavailable.
Qed.

Lemma selected_waypoints_length (selected_df : list Row) (user_location : option coord) :
  List.length (route_waypoints (_sort_route (_prepare_data selected_df)) user_location)
  = (List.length selected_df + match user_location with Some _ => 1 | None => 0 end)%nat.
Proof.
  unfold route_waypoints. rewrite length_app, length_map, sort_route_length.
  destruct user_location; cbn [List.length]; lia.
Qed.

(** X19. The handler turns a provider failure into a failed request:
    for valid indices into a table whose windows parse, with two or more
    waypoints and no route from OSRM, the optimizer returns its 15-minute
    schedule with [None] as route info, the handler then calls [get] on
    that [None], and the answer is the [except] branch with an
    [AttributeError], with or without [avoid_traffic]. *)
Theorem handler_fails_without_route :
  forall hw request,
    req_points request <> [] ->
    Forall (fun idx => 0 <= idx < Z.of_nat (List.length (hw_addresses hw)))
      (req_points request) ->
    Forall windows_parse (hw_addresses hw) ->
    (forall coordinates, provider_unavailable (hw_osrm hw coordinates)) ->
    (2 <= List.length (req_points request)
          + match req_user_location request with Some _ => 1 | None => 0 end)%nat ->
    optimize_handler hw request = Failed AttributeError.
Proof.
  intros hw request Hne Hrange Hparse Hun Hway.
  assert (Ha : hw_addresses hw <> []).
  { destruct (req_points request) as [|idx l]; [contradiction|].
    inversion Hrange; subst. destruct (hw_addresses hw); [cbn in *; lia|discriminate]. }
  pose proof (filter_in_range _ _ Hrange) as Hf.
  rewrite optimize_handler_selected by (rewrite ?Hf; assumption).
  rewrite Hf.
  destruct (iloc_in_range _ _ Hrange) as (rows & Hrows & Hlen & Hin).
  unfold optimize_selected. rewrite Hrows. cbn [rbind].
  assert (Hrows_ne : map replace_tier rows <> []).
  { destruct rows; [|discriminate]. destruct (req_points request); [contradiction|discriminate]. }
  assert (Hrows_parse : Forall windows_parse (map replace_tier rows)).
  { apply Forall_forall. intros r Hr. apply in_map_iff in Hr.
    destruct Hr as (r0 & <- & Hr0). apply windows_parse_replace_tier.
    rewrite Forall_forall in Hparse, Hin. apply Hparse, Hin, Hr0. }
  destruct (optimize_returns (RouteOptimizer_init (hw_clock hw)) (optimizer_world hw)
              (map replace_tier rows) (req_user_location request)
              (req_avoid_traffic request) Hrows_ne Hrows_parse) as (schedule & Hopt & _).
  rewrite Hopt. cbn [of_option rbind fst snd].
  rewrite route_info_unavailable.
  - destruct (req_avoid_traffic request); reflexivity.
  - rewrite selected_waypoints_length, length_map, Hlen. exact Hway.
  - apply Hun.
Qed.

Lemma handler_fails_without_route_witness :
  optimize_handler failing_world
    {| req_points := [0; 1]; req_user_location := None; req_avoid_traffic := false |}
  = Failed AttributeError.
Proof.
  apply (handler_fails_without_route failing_world
           {| req_points := [0; 1]; req_user_location := None;
              req_avoid_traffic := false |}).
  - discriminate.
  - repeat constructor; cbn; lia.
  - repeat constructor; vm_compute; discriminate.
  - intros coordinates. exact I.
  - cbn. lia.
Defined.

Lemma prepare_traffic_response_no_message (td : TrafficDict) (ri : RouteInfo) :
  td_message td = None ->
  prepare_traffic_response (Some td) (RDict ri) = inl (KeyError "message").
Proof.
  intros H. unfold prepare_traffic_response. cbn [route_get rbind]. now rewrite H.
Qed.

Lemma route_info_available (w : World) (optimal_route : list Point)
    (user_location : option coord) (avoid_traffic : bool) :
  (2 <= List.length (route_waypoints optimal_route user_location))%nat ->
  osrm_answers (requests_get w) ->
  exists ri,
    snd (_get_route_info w optimal_route user_location avoid_traffic) = RDict ri
    /\ waypoints ri = route_waypoints optimal_route user_location
    /\ traffic_data ri
       = if avoid_traffic
         then Some (get_traffic_data w (route_waypoints optimal_route user_location))
         else None.
Proof.
  intros Hl Hosrm. unfold _get_route_info.
  set (wp := route_waypoints optimal_route user_location) in *.
  destruct (1 <? Z.of_nat (List.length wp)) eqn:E; [|apply Z.ltb_ge in E; lia].
  cbn [snd]. unfold get_route.
  destruct (Z.of_nat (List.length wp) <? 2) eqn:E2; [apply Z.ltb_lt in E2; lia|].
  cbn [snd]. destruct (Hosrm wp) as (route & more & ->).
  cbn [bind status_code json code routes hd_error Z.eqb Pos.eqb String.eqb].
  change (String.eqb "Ok" "Ok") with true. cbn [bind].
  eexists. split; [reflexivity|].
  unfold _parse_route_data. destruct avoid_traffic; split; reflexivity.
Qed.

(** X20. With [avoid_traffic] set, a route from OSRM and a traffic dict
    that has no ['message'] key (every simulated dict, which is what the
    TomTom service returns without an API key or after a failed request),
    the handler answers with the [except] branch and
    [KeyError('message')], although route and schedule were computed. *)
Theorem handler_fails_on_simulated_traffic :
  forall hw request,
    req_points request <> [] ->
    Forall (fun idx => 0 <= idx < Z.of_nat (List.length (hw_addresses hw)))
      (req_points request) ->
    Forall windows_parse (hw_addresses hw) ->
    req_avoid_traffic request = true ->
    osrm_answers (hw_osrm hw) ->
    (forall coordinates, td_message (hw_traffic hw coordinates) = None) ->
    (2 <= List.length (req_points request)
          + match req_user_location request with Some _ => 1 | None => 0 end)%nat ->
    optimize_handler hw request = Failed (KeyError "message").
Proof.
  intros hw request Hne Hrange Hparse Havoid Hosrm Hmsg Hway.
  assert (Ha : hw_addresses hw <> []).
  { destruct (req_points request) as [|idx l]; [contradiction|].
    inversion Hrange; subst. destruct (hw_addresses hw); [cbn in *; lia|discriminate]. }
  pose proof (filter_in_range _ _ Hrange) as Hf.
  rewrite optimize_handler_selected by (rewrite ?Hf; assumption).
  rewrite Hf.
  destruct (iloc_in_range _ _ Hrange) as (rows & Hrows & Hlen & Hin).
  unfold optimize_selected. rewrite Hrows, Havoid. cbn [rbind].
  assert (Hrows_ne : map replace_tier rows <> []).
  { destruct rows; [|discriminate]. destruct (req_points request); [contradiction|discriminate]. }
  assert (Hrows_parse : Forall windows_parse (map replace_tier rows)).
  { apply Forall_forall. intros r Hr. apply in_map_iff in Hr.
    destruct Hr as (r0 & <- & Hr0). apply windows_parse_replace_tier.
    rewrite Forall_forall in Hparse, Hin. apply Hparse, Hin, Hr0. }
  destruct (optimize_returns (RouteOptimizer_init (hw_clock hw)) (optimizer_world hw)
              (map replace_tier rows) (req_user_location request) true
              Hrows_ne Hrows_parse) as (schedule & Hopt & _).
  rewrite Hopt. cbn [of_option rbind fst snd].
  destruct (route_info_available (optimizer_world hw)
              (_sort_route (_prepare_data (map replace_tier rows)))
              (req_user_location request) true) as (ri & Hri & Hwp & Htd).
  { rewrite selected_waypoints_length, length_map, Hlen. exact Hway. }
  { exact Hosrm. }
  rewrite Hri. unfold full_traffic_data. cbn [route_get]. rewrite Htd. cbn [rbind].
  now rewrite prepare_traffic_response_no_message by apply Hmsg.
Qed.

Lemma handler_fails_on_simulated_traffic_witness :
  optimize_handler simulated_world
    {| req_points := [0; 1]; req_user_location := None; req_avoid_traffic := true |}
  = Failed (KeyError "message").
Proof.
  apply (handler_fails_on_simulated_traffic simulated_world
           {| req_points := [0; 1]; req_user_location := None;
              req_avoid_traffic := true |}).
  - discriminate.
  - repeat constructor; cbn; lia.
  - repeat constructor; vm_compute; discriminate.
  - reflexivity.
  - intros coordinates. do 2 eexists. reflexivity.
  - intros coordinates. reflexivity.
  - cbn. lia.
Defined.

Lemma iloc_one_error {A : Type} (df : list A) (idx : Z) (e : Exn) :
  iloc_one df idx = inl e -> e = IndexError.
Proof.
  unfold iloc_one, list_get.
  destruct ((0 <=? idx) && (idx <? Z.of_nat (List.length df))).
  - destruct (nth_error df (Z.to_nat idx)); cbn; congruence.
  - destruct ((- Z.of_nat (List.length df) <=? idx) && (idx <? 0)).
    + destruct (nth_error df (Z.to_nat (Z.of_nat (List.length df) + idx))); cbn; congruence.
    + congruence.
Qed.

Lemma iloc_below_range {A : Type} (df : list A) (indices : list Z) (idx : Z) :
  In idx indices -> idx < - Z.of_nat (List.length df) ->
  iloc df indices = inl IndexError.
Proof.
  intros Hin Hlow. induction indices as [|i indices IH]; [contradiction|].
  cbn [iloc]. destruct (iloc_one df i) as [e|r] eqn:E.
  - apply iloc_one_error in E. now subst.
  - cbn [rbind]. destruct Hin as [->|Hin].
    + exfalso. unfold iloc_one in E.
      destruct ((0 <=? idx) && (idx <? Z.of_nat (List.length df))) eqn:E1;
        [apply andb_prop in E1; lia|].
      destruct ((- Z.of_nat (List.length df) <=? idx) && (idx <? 0)) eqn:E2;
        [apply andb_prop in E2; lia|discriminate].
    + now rewrite (IH Hin).
Qed.

Lemma iloc_one_negative {A : Type} (df : list A) (idx : Z) :
  - Z.of_nat (List.length df) <= idx < 0 ->
  iloc_one df idx = iloc_one df (Z.of_nat (List.length df) + idx).
Proof.
  intros H. unfold iloc_one.
  assert (E1 : (0 <=? idx) && (idx <? Z.of_nat (List.length df)) = false).
  { apply andb_false_intro1. apply Z.leb_gt. lia. }
  assert (E2 : (- Z.of_nat (List.length df) <=? idx) && (idx <? 0) = true).
  { apply andb_true_intro. split; [apply Z.leb_le|apply Z.ltb_lt]; lia. }
  assert (E3 : (0 <=? Z.of_nat (List.length df) + idx)
               && (Z.of_nat (List.length df) + idx <? Z.of_nat (List.length df)) = true).
  { apply andb_true_intro. split; [apply Z.leb_le|apply Z.ltb_lt]; lia. }
  now rewrite E1, E2, E3.
Qed.

Lemma filter_idempotent {A : Type} (f : A -> bool) (l : list A) :
  filter f (filter f l) = filter f l.
Proof.
  induction l as [|x l IH]; [reflexivity|].
  cbn [filter]. destruct (f x) eqn:E; [|exact IH].
  cbn [filter]. now rewrite E, IH.
Qed.

(** X21. How the handler treats indices.  Indices at or beyond the
    table length are dropped silently; negative indices are not: one in
    [-len, -1] selects the row counted from the end of the table
    (the answer is that of index [len + idx]), and one below [-len] makes
    the whole request fail with [IndexError]. *)
Theorem handler_index_handling :
  forall hw request,
    let n := Z.of_nat (List.length (hw_addresses hw)) in
    (filter (fun idx => idx <? n) (req_points request) <> [] ->
     optimize_handler hw (with_points request (filter (fun idx => idx <? n)
                                                 (req_points request)))
     = optimize_handler hw request)
    /\ (forall idx, - n <= idx < 0 ->
        optimize_handler hw (with_points request [idx])
        = optimize_handler hw (with_points request [n + idx]))
    /\ (forall idx, hw_addresses hw <> [] -> In idx (req_points request) -> idx < - n ->
        optimize_handler hw request = Failed IndexError).
Proof.
  intros hw request n. split; [|split].
  - intros Hv.
    assert (Hp : req_points request <> [])
      by (destruct (req_points request); [now elim Hv|discriminate]).
    unfold optimize_handler. cbn [with_points req_points].
    destruct (hw_addresses hw) as [|r df] eqn:Ea.
    + destruct (req_points request); [contradiction|].
      destruct (filter _ (z :: l)); [contradiction|reflexivity].
    + fold n. rewrite filter_idempotent.
      destruct (filter (fun idx => idx <? n) (req_points request)) as [|i l] eqn:Ef;
        [contradiction|].
      destruct (req_points request); [contradiction|]. reflexivity.
  - intros idx Hidx.
    assert (Ha : hw_addresses hw <> []).
    { unfold n in Hidx. destruct (hw_addresses hw); [cbn in Hidx; lia|discriminate]. }
    assert (F1 : filter (fun i => i <? n) [idx] = [idx]).
    { cbn. destruct (idx <? n) eqn:E; [reflexivity|apply Z.ltb_ge in E; lia]. }
    assert (F2 : filter (fun i => i <? n) [n + idx] = [n + idx]).
    { cbn. destruct (n + idx <? n) eqn:E; [reflexivity|apply Z.ltb_ge in E; lia]. }
    rewrite !optimize_handler_selected;
      cbn [with_points req_points]; fold n; rewrite ?F1, ?F2; try assumption;
      try discriminate.
    unfold optimize_selected. cbn [with_points req_user_location req_avoid_traffic iloc].
    now rewrite (iloc_one_negative _ idx Hidx).
  - intros idx Ha Hin Hlow.
    assert (Hv : In idx (filter (fun i => i <? n) (req_points request))).
    { apply filter_In. split; [exact Hin|]. apply Z.ltb_lt.
      unfold n in *. lia. }
    rewrite optimize_handler_selected;
      [|exact Ha|fold n; intros E; rewrite E in Hv; contradiction].
    fold n. unfold optimize_selected.
    now rewrite (iloc_below_range _ _ idx Hv Hlow).
Qed.

Lemma handler_index_handling_witness :
  optimize_handler simulated_world
    (with_points
       {| req_points := [1; 5; -3]; req_user_location := None; req_avoid_traffic := false |}
       [-1])
  = optimize_handler simulated_world
      (with_points
         {| req_points := [1; 5; -3]; req_user_location := None; req_avoid_traffic := false |}
         [2 + -1])
  /\ optimize_handler simulated_world
       {| req_points := [1; 5; -3]; req_user_location := None; req_avoid_traffic := false |}
     = Failed IndexError.
Proof.
  destruct (handler_index_handling simulated_world
              {| req_points := [1; 5; -3]; req_user_location := None;
                 req_avoid_traffic := false |}) as (_ & Hneg & Hlow).
  split.
  - apply (Hneg (-1)). cbn. lia.
  - apply (Hlow (-3)).
    + discriminate.
    + right. right. left. reflexivity.
    + cbn. lia.
Defined.

Lemma optimize_lengths self w selected_df user_location avoid_traffic
    optimal_route schedule route_info :
  snd (optimize_with_timing self w selected_df user_location avoid_traffic)
  = Some (optimal_route, schedule, route_info) ->
  List.length optimal_route = List.length selected_df
  /\ List.length schedule = List.length selected_df.
Proof.
  intros H. destruct selected_df as [|r df].
  - cbn in H. injection H as <- <- <-. split; reflexivity.
  - cbn [optimize_with_timing snd] in H.
    destruct (_create_schedule self (_sort_route (_prepare_data (r :: df)))
                (snd (_get_route_info w (_sort_route (_prepare_data (r :: df)))
                        user_location avoid_traffic)) avoid_traffic)
      as [s|] eqn:Es; cbn [bind] in H; [|discriminate].
    injection H as <- <- <-. split; [apply sort_route_length|].
    unfold _create_schedule in Es. apply schedule_loop_length in Es.
    now rewrite Es, sort_route_length.
Qed.

Lemma map_points_counts (optimal_route : list Point) :
  forall i,
    List.length (map_points_from i optimal_route) = List.length optimal_route
    /\ count_type "VIP" (map_points_from i optimal_route) = count_tier "VIP" optimal_route
    /\ count_tier "Standard" optimal_route
       <= count_type "Standard" (map_points_from i optimal_route)
    /\ count_tier "VIP" optimal_route + count_tier "Standard" optimal_route
       <= Z.of_nat (List.length optimal_route)
    /\ Forall (fun mp => mp_type mp = "VIP" \/ mp_type mp = "Standard")
         (map_points_from i optimal_route).
Proof.
  unfold count_type, count_tier.
  induction optimal_route as [|p route IH]; intros i.
  - cbn. repeat split; try lia. constructor.
  - destruct (IH (i + 1)) as (H1 & H2 & H3 & H4 & H5).
    cbn [map_points_from filter List.length mp_type].
    destruct (String.eqb (client_type (row p)) "VIP") eqn:Ev.
    + apply String.eqb_eq in Ev. rewrite Ev.
      change (String.eqb "VIP" "VIP") with true.
      change (String.eqb "VIP" "Standard") with false.
      cbn [List.length]. repeat split; try lia. constructor; [now left|exact H5].
    + change (String.eqb "Standard" "VIP") with false.
      change (String.eqb "Standard" "Standard") with true.
      destruct (String.eqb (client_type (row p)) "Standard");
        cbn [List.length]; repeat split; try lia; (constructor; [now right|exact H5]).
Qed.

(** X22. In every successful answer, ['total_points'], the schedule
    and the map points all count the indices that passed the filter
    (duplicates included); every map point is typed 'VIP' or 'Standard';
    ['vip_count'] is the number of map points typed 'VIP', while
    ['standard_count'] counts only the tier 'Standard' exactly and so can
    be smaller than the number of map points typed 'Standard'. *)
Theorem handler_success_counts :
  forall hw request response,
    optimize_handler hw request = Succeeded response ->
    let valid :=
      filter (fun idx => idx <? Z.of_nat (List.length (hw_addresses hw)))
        (req_points request) in
    resp_total_points response = Z.of_nat (List.length valid)
    /\ List.length (resp_schedule response) = List.length valid
    /\ List.length (resp_points response) = List.length valid
    /\ Forall (fun mp => mp_type mp = "VIP" \/ mp_type mp = "Standard")
         (resp_points response)
    /\ resp_vip_count response = count_type "VIP" (resp_points response)
    /\ resp_standard_count response <= count_type "Standard" (resp_points response)
    /\ resp_vip_count response + resp_standard_count response
       <= resp_total_points response.
Proof.
  intros hw request response H valid.
  unfold optimize_handler in H.
  destruct (req_points request) as [|idx0 indices] eqn:Ep; [discriminate|].
  destruct (hw_addresses hw) as [|r0 df] eqn:Ea; [discriminate|].
  fold valid in H. destruct valid as [|v valid'] eqn:Ev; [discriminate|].
  destruct (optimize_selected hw request (v :: valid')) as [e|resp] eqn:Es; [discriminate|].
  injection H as <-. unfold optimize_selected in Es. rewrite Ea in Es.
  destruct (iloc (r0 :: df) (v :: valid')) as [e|rows] eqn:Ei; [discriminate|].
  cbn [rbind] in Es. apply iloc_length in Ei.
  destruct (snd (optimize_with_timing (RouteOptimizer_init (hw_clock hw))
                   (optimizer_world hw) (map replace_tier rows)
                   (req_user_location request) (req_avoid_traffic request)))
    as [[[route schedule] rv]|] eqn:Eo; [|discriminate].
  cbn [of_option rbind fst snd] in Es.
  apply optimize_lengths in Eo. destruct Eo as [Hr Hs]. rewrite length_map in Hr, Hs.
  destruct (if req_avoid_traffic request then full_traffic_data hw rv else inr None)
    as [e|mt]; [discriminate|]. cbn [rbind] in Es.
  destruct (route_get rv distance_km 0%Q) as [e|dist]; [discriminate|]. cbn [rbind] in Es.
  destruct (route_get rv duration_min 0%Q) as [e|dur]; [discriminate|]. cbn [rbind] in Es.
  destruct (if req_avoid_traffic request
            then td <-- full_traffic_data hw rv ;;
                 match td with
                 | Some _ => info <-- prepare_traffic_response td rv ;; inr (Some info)
                 | None => inr None
                 end
            else inr None) as [e|ti]; [discriminate|]. cbn [rbind] in Es.
  injection Es as <-.
  cbn [resp_total_points resp_schedule resp_points resp_vip_count resp_standard_count].
  destruct (map_points_counts route 0) as (H1 & H2 & H3 & H4 & H5).
  rewrite H1, H2, Hr, Hs, Ei. repeat split; try lia; try assumption.
Qed.

Lemma handler_success_counts_witness :
  exists response,
    optimize_handler simulated_world
      {| req_points := [1; 1; 5]; req_user_location := None; req_avoid_traffic := false |}
    = Succeeded response
    /\ resp_total_points response = 2
    /\ List.length (resp_schedule response) = 2%nat.
Proof.
  destruct (optimize_handler simulated_world
              {| req_points := [1; 1; 5]; req_user_location := None;
                 req_avoid_traffic := false |}) as [m|e|response] eqn:E;
    [vm_compute in E; discriminate|vm_compute in E; discriminate|].
  exists response. split; [reflexivity|].
  destruct (handler_success_counts simulated_world
              {| req_points := [1; 1; 5]; req_user_location := None;
                 req_avoid_traffic := false |} response E) as (H1 & H2 & _).
  split; [exact H1|exact H2].
Defined.

(** X23. A request for a single stop without a start location never
    depends on the services: no provider is asked, the route info is the
    empty dict, and the handler succeeds with a one-entry schedule, zero
    distance and no traffic info, whatever OSRM and TomTom would answer. *)
Theorem handler_single_stop :
  forall hw idx avoid_traffic,
    0 <= idx < Z.of_nat (List.length (hw_addresses hw)) ->
    Forall windows_parse (hw_addresses hw) ->
    exists response,
      optimize_handler hw {| req_points := [idx]; req_user_location := None;
                             req_avoid_traffic := avoid_traffic |}
      = Succeeded response
      /\ resp_route_info response = REmpty
      /\ List.length (resp_schedule response) = 1%nat
      /\ resp_total_points response = 1
      /\ (resp_total_distance response == 0)%Q
      /\ resp_traffic_data response = None
      /\ resp_traffic_info response = None.
Proof.
  intros hw idx av Hidx Hparse.
  set (request := {| req_points := [idx]; req_user_location := None;
                     req_avoid_traffic := av |}).
  assert (Hrange : Forall (fun i => 0 <= i < Z.of_nat (List.length (hw_addresses hw)))
                     (req_points request)) by (repeat constructor; lia).
  assert (Ha : hw_addresses hw <> []).
  { destruct (hw_addresses hw); [cbn in Hidx; lia|discriminate]. }
  pose proof (filter_in_range _ _ Hrange) as Hf.
  rewrite optimize_handler_selected by (rewrite ?Hf; first [assumption|discriminate]).
  rewrite Hf.
  destruct (iloc_in_range _ _ Hrange) as (rows & Hrows & Hlen & Hin).
  unfold optimize_selected. rewrite Hrows. cbn [rbind].
  destruct rows as [|r [|r' rows']]; cbn in Hlen; try lia.
  assert (Hrows_parse : Forall windows_parse (map replace_tier [r])).
  { constructor; [|constructor]. apply windows_parse_replace_tier.
    rewrite Forall_forall in Hparse. apply Hparse. now inversion Hin. }
  destruct (optimize_returns (RouteOptimizer_init (hw_clock hw)) (optimizer_world hw)
              (map replace_tier [r]) None av ltac:(discriminate) Hrows_parse)
    as (schedule & Hopt & Hsl).
  cbn [request req_user_location req_avoid_traffic].
  rewrite Hopt. cbn [of_option rbind fst snd].
  assert (Hrv : snd (_get_route_info (optimizer_world hw)
                       (_sort_route (_prepare_data (map replace_tier [r]))) None av)
                = REmpty) by reflexivity.
  rewrite Hrv. unfold full_traffic_data. cbn [route_get].
  destruct av; cbn [rbind]; eexists; (split; [reflexivity|]);
    cbn [resp_route_info resp_schedule resp_total_points resp_total_distance
           resp_traffic_data resp_traffic_info];
    repeat split; assumption || reflexivity.
Qed.

Lemma handler_single_stop_witness :
  exists response,
    optimize_handler failing_world
      {| req_points := [1]; req_user_location := None; req_avoid_traffic := true |}
    = Succeeded response
    /\ resp_route_info response = REmpty.
Proof.
  destruct (handler_single_stop failing_world 1 true) as (response & H & Hrv & _).
  - cbn. lia.
  - repeat constructor; vm_compute; discriminate.
  - exists response. split; assumption.
Defined.
